(** * TOF PID tables: signal, event time and Nsigma producers

    A shallow embedding of [Common/TableProducer/PID/pidTOFMerge.cxx]:
    the calibration set-up shared by the three tasks ([TOFCalibConfig]),
    the signal task ([tofSignal]), the event-time task ([tofEventTime])
    and the response task ([tofPidMerge]).

    The C++ [float] is IEEE-754 binary32 and [double] is binary64; both are
    embedded with the executable specification of the Standard Library
    ([SpecFloat]), so divisions by zero, infinities and NaN behave as they
    do in the compiled code.

    Layout: the model comes first (one module per C++ struct), then the
    fixtures used to run it, then the lemmas. *)

From Stdlib Require Import ZArith List String Bool Lia DecimalString.
From Stdlib Require Import Floats.SpecFloat.
Import ListNotations.
Open Scope string_scope.
Open Scope list_scope.
Open Scope Z_scope.

(** ** Floating-point types *)

Definition float : Type := spec_float.
Definition double : Type := spec_float.

Module F32.
Definition prec : Z := 24.
Definition emax : Z := 128.
Definition add : float -> float -> float := SFadd prec emax.
Definition sub : float -> float -> float := SFsub prec emax.
Definition mul : float -> float -> float := SFmul prec emax.
Definition div : float -> float -> float := SFdiv prec emax.
Definition abs : float -> float := SFabs.
Definition ltb : float -> float -> bool := SFltb.
Definition leb : float -> float -> bool := SFleb.
(** An integer constant converted to [float] (round to nearest even). *)
Definition of_Z (z : Z) : float := binary_normalize prec emax z 0 false.
Definition zero : float := S754_zero false.
Definition one : float := of_Z 1.
Definition is_nan (x : float) : bool :=
  match x with S754_nan => true | _ => false end.
Definition is_inf (x : float) : bool :=
  match x with S754_infinity _ => true | _ => false end.
(** A finite binary32 number: zero, or a mantissa and exponent in the
    canonical form of the format. *)
Definition finite (x : float) : bool :=
  match x with
  | S754_zero _ => true
  | S754_finite _ m e => bounded prec emax m e
  | _ => false
  end.
End F32.

Module F64.
Definition prec : Z := 53.
Definition emax : Z := 1024.
Definition div : double -> double -> double := SFdiv prec emax.
Definition sqrt : double -> double := SFsqrt prec emax.
Definition one : double := binary_normalize prec emax 1 0 false.
(** [float] to [double]: exact, re-expressed with a 53-bit mantissa. *)
Definition of_float (x : float) : double :=
  match x with
  | S754_finite s m e => binary_round prec emax s m e
  | _ => x
  end.
(** [double] to [float]: rounded to nearest even. *)
Definition to_float (x : double) : float :=
  match x with
  | S754_finite s m e => binary_round F32.prec F32.emax s m e
  | _ => x
  end.
End F64.

(** The literal [33.356409f]: the binary32 number nearest to 33.356409,
    that is 8744182 * 2^-18 (see [lit_33_356409f_nearest]). *)
Definition lit_33_356409f : float := S754_finite false 8744182 (-18).
Definition lit_999f : float := F32.of_Z 999.
Definition lit_1000f : float := F32.of_Z 1000.
Definition lit_m999f : float := F32.of_Z (-999).

(** ** Process-level effects

    [LOG(fatal)] terminates the process; [LOG(warning)] is recorded.
    Messages at info and debug level are not modelled.  Every access to
    the calibration store (CCDB) or to a parameter file is recorded in
    the order it is made. *)

Inductive Result (A : Type) : Type :=
| Ok (a : A)
| Fatal (msg : string).
Arguments Ok {A} a.
Arguments Fatal {A} msg.

Inductive Fetch : Type :=
| FetchParameterCollection (path : string) (timestamp : Z)
| FetchGrpLhcIf (path : string) (timestamp : Z)
| FetchTimeShift (path : string) (timestamp : Z) (recoPass : option string)
| LoadParamFile (file path : string)
| LoadTimeShiftFile (file : string).

Record World : Type := mkWorld {
  fetches : list Fetch;
  warnings : list string
}.

Definition M (A : Type) : Type := World -> Result (A * World).

Definition ret {A} (a : A) : M A := fun w => Ok (a, w).
Definition bind {A B} (m : M A) (k : A -> M B) : M B :=
  fun w => match m w with
           | Ok (a, w') => k a w'
           | Fatal msg => Fatal msg
           end.
Definition fatal {A} (msg : string) : M A := fun _ => Fatal msg.
Definition warning (msg : string) : M unit :=
  fun w => Ok (tt, mkWorld (fetches w) (warnings w ++ [msg])).
Definition fetch (f : Fetch) : M unit :=
  fun w => Ok (tt, mkWorld (fetches w ++ [f]) (warnings w)).

Declare Scope m_scope.
Delimit Scope m_scope with M.
Notation "x <- m ;; k" := (bind m (fun x => k))
  (at level 61, m at next level, right associativity) : m_scope.
Notation "m ;;; k" := (bind m (fun _ => k))
  (at level 61, right associativity) : m_scope.

(** An [int] streamed into a message: its decimal digits, with a minus
    sign when it is negative. *)
Definition printInt (z : Z) : string := NilZero.string_of_int (Z.to_int z).

(** ** Calibration objects *)

(** A parameter set: named float values
    ([std::unordered_map<std::string, float>]). *)
Definition Pars : Type := list (string * float).

(** The collection fetched from the store: one parameter set per
    reconstruction pass. *)
Definition ParameterCollection : Type := list (string * Pars).

Definition getPars (pc : ParameterCollection) (pass : string) : option Pars :=
  match find (fun kv => String.eqb (fst kv) pass) pc with
  | Some kv => Some (snd kv)
  | None => None
  end.

(** A time-shift curve versus pseudorapidity ([TGraph]). *)
Definition TGraph : Type := list (double * double).

(** Modelled from the spec: [o2::pid::tof::TOFResoParamsV3], declared in
    Common/Core/PID/PIDTOF.h, is the bundle of section 3
    (CalibrationParameters): the values retrieved for a pass, the
    resolution parametrization, the momentum/charge shift and the two
    time-shift curves.  Each setter replaces its component wholesale. *)
Record TOFResoParamsV3 : Type := mkParams {
  retrieved : Pars;
  resolutionParametrization : Pars;
  resolutionIsRun2 : bool;
  momentumChargeShift : Pars;
  timeShiftPos : option TGraph;
  timeShiftNeg : option TGraph
}.

Definition defaultParams : TOFResoParamsV3 :=
  mkParams [] [] false [] None None.

Definition setRetrieved (p : TOFResoParamsV3) (v : Pars) :=
  mkParams v (resolutionParametrization p) (resolutionIsRun2 p)
           (momentumChargeShift p) (timeShiftPos p) (timeShiftNeg p).
Definition setResolutionParametrization (p : TOFResoParamsV3) (v : Pars) :=
  mkParams (retrieved p) v false
           (momentumChargeShift p) (timeShiftPos p) (timeShiftNeg p).
Definition setResolutionParametrizationRun2 (p : TOFResoParamsV3) (v : Pars) :=
  mkParams (retrieved p) v true
           (momentumChargeShift p) (timeShiftPos p) (timeShiftNeg p).
Definition setMomentumChargeShiftParameters (p : TOFResoParamsV3) (v : Pars) :=
  mkParams (retrieved p) (resolutionParametrization p) (resolutionIsRun2 p)
           v (timeShiftPos p) (timeShiftNeg p).
Definition setTimeShiftParameters (p : TOFResoParamsV3) (g : option TGraph)
    (isPositive : bool) :=
  if isPositive
  then mkParams (retrieved p) (resolutionParametrization p) (resolutionIsRun2 p)
                (momentumChargeShift p) g (timeShiftNeg p)
  else mkParams (retrieved p) (resolutionParametrization p) (resolutionIsRun2 p)
                (momentumChargeShift p) (timeShiftPos p) g.

(** [ParameterCollection::retrieveParameters(p, key)]: [false] when the
    collection has no entry for [key]; otherwise the entry is copied into
    [p] and the call returns [true]. *)
Definition retrieveParameters (pc : ParameterCollection)
    (p : TOFResoParamsV3) (key : string) : bool * TOFResoParamsV3 :=
  match getPars pc key with
  | Some v => (true, setRetrieved p v)
  | None => (false, p)
  end.

(** ** The environment of a task: metadata and external stores *)

Record Env : Type := mkEnv {
  isMC : bool;
  isRun3 : bool;
  metadataGet : string -> string;
  ccdbParameterCollection : string -> Z -> ParameterCollection;
  ccdbCollisionType : string -> Z -> Z;
  ccdbTimeShift : string -> Z -> option string -> option TGraph;
  fileParameterCollection : string -> string -> ParameterCollection;
  fileTimeShift : string -> option TGraph;
  (* [CollisionSystemType::getCollisionSystemName], of
     Common/Core/CollisionTypeHelper.h: the name printed for the number
     of a collision system *)
  getCollisionSystemName : Z -> string
}.

(** A bunch crossing with its run number and timestamp. *)
Record BC : Type := mkBC {
  runNumber : Z;
  timestamp : Z
}.

(** ** [struct TOFCalibConfig]: configuration common to all tasks *)

Module TOFCalibConfig.

(** The configurable options of the [tof-signal] task. *)
Record Options : Type := mkOptions {
  cfgUrl : string;
  cfgPathGrpLhcIf : string;
  cfgTimestamp : Z;
  cfgTimeShiftCCDBPathPos : string;
  cfgTimeShiftCCDBPathNeg : string;
  cfgTimeShiftCCDBPathPosMC : string;
  cfgTimeShiftCCDBPathNegMC : string;
  cfgParamFileName : string;
  cfgParametrizationPath : string;
  cfgReconstructionPass : string;
  cfgReconstructionPassDefault : string;
  cfgFatalOnPassNotAvailable : bool;
  cfgEnableTimeDependentResponse : bool;
  cfgCollisionSystem : Z;
  cfgAutoSetProcessFunctions : bool
}.

(** The defaults declared with the [Configurable]s. *)
Definition defaultOptions : Options :=
  mkOptions "http://alice-ccdb.cern.ch" "GLO/Config/GRPLHCIF" (-1)
            "" "" "" "" "" "TOF/Calib/Params" "" "unanchored"
            true false (-1) true.

Record t : Type := mk {
  mLastRunNumber : Z;
  mInitMode : Z;
  opt : Options
}.

Definition mUrl c := cfgUrl (opt c).
Definition mPathGrpLhcIf c := cfgPathGrpLhcIf (opt c).
Definition mTimestamp c := cfgTimestamp (opt c).
Definition mTimeShiftCCDBPathPos c := cfgTimeShiftCCDBPathPos (opt c).
Definition mTimeShiftCCDBPathNeg c := cfgTimeShiftCCDBPathNeg (opt c).
Definition mTimeShiftCCDBPathPosMC c := cfgTimeShiftCCDBPathPosMC (opt c).
Definition mTimeShiftCCDBPathNegMC c := cfgTimeShiftCCDBPathNegMC (opt c).
Definition mParamFileName c := cfgParamFileName (opt c).
Definition mParametrizationPath c := cfgParametrizationPath (opt c).
Definition mReconstructionPass c := cfgReconstructionPass (opt c).
Definition mReconstructionPassDefault c := cfgReconstructionPassDefault (opt c).
Definition mFatalOnPassNotAvailable c := cfgFatalOnPassNotAvailable (opt c).
Definition mEnableTimeDependentResponse c := cfgEnableTimeDependentResponse (opt c).
Definition mCollisionSystem c := cfgCollisionSystem (opt c).
Definition mAutoSetProcessFunctions c := cfgAutoSetProcessFunctions (opt c).

Definition set_mLastRunNumber (c : t) (v : Z) : t := mk v (mInitMode c) (opt c).
Definition set_mInitMode (c : t) (v : Z) : t := mk (mLastRunNumber c) v (opt c).
Definition set_mTimestamp (c : t) (v : Z) : t :=
  let o := opt c in
  mk (mLastRunNumber c) (mInitMode c)
     (mkOptions (cfgUrl o) (cfgPathGrpLhcIf o) v
        (cfgTimeShiftCCDBPathPos o) (cfgTimeShiftCCDBPathNeg o)
        (cfgTimeShiftCCDBPathPosMC o) (cfgTimeShiftCCDBPathNegMC o)
        (cfgParamFileName o) (cfgParametrizationPath o)
        (cfgReconstructionPass o) (cfgReconstructionPassDefault o)
        (cfgFatalOnPassNotAvailable o) (cfgEnableTimeDependentResponse o)
        (cfgCollisionSystem o) (cfgAutoSetProcessFunctions o)).
Definition set_mReconstructionPass (c : t) (v : string) : t :=
  let o := opt c in
  mk (mLastRunNumber c) (mInitMode c)
     (mkOptions (cfgUrl o) (cfgPathGrpLhcIf o) (cfgTimestamp o)
        (cfgTimeShiftCCDBPathPos o) (cfgTimeShiftCCDBPathNeg o)
        (cfgTimeShiftCCDBPathPosMC o) (cfgTimeShiftCCDBPathNegMC o)
        (cfgParamFileName o) (cfgParametrizationPath o)
        v (cfgReconstructionPassDefault o)
        (cfgFatalOnPassNotAvailable o) (cfgEnableTimeDependentResponse o)
        (cfgCollisionSystem o) (cfgAutoSetProcessFunctions o)).
Definition set_mCollisionSystem (c : t) (v : Z) : t :=
  let o := opt c in
  mk (mLastRunNumber c) (mInitMode c)
     (mkOptions (cfgUrl o) (cfgPathGrpLhcIf o) (cfgTimestamp o)
        (cfgTimeShiftCCDBPathPos o) (cfgTimeShiftCCDBPathNeg o)
        (cfgTimeShiftCCDBPathPosMC o) (cfgTimeShiftCCDBPathNegMC o)
        (cfgParamFileName o) (cfgParametrizationPath o)
        (cfgReconstructionPass o) (cfgReconstructionPassDefault o)
        (cfgFatalOnPassNotAvailable o) (cfgEnableTimeDependentResponse o)
        v (cfgAutoSetProcessFunctions o)).

(** [init(opt)]: the members are copied from the options; the private
    members keep their initialisers ([mLastRunNumber = -1],
    [mInitMode = 0]). *)
Definition init (o : Options) : t := mk (-1) 0 o.

(** [getCfg]: the message of an option that cannot be read from the
    task. *)
Definition msgCouldNotGet (name task : string) : string :=
  ("Could not get " ++ name ++ " from " ++ task ++ " task")%string.

(** [inheritFromBaseTask]: the options are read from the [tof-signal]
    task, [ccdb-url] first; an option that cannot be read is fatal.
    [base] is [None] when the options of that task cannot be read, so
    that the first [getCfg] already fails. *)
Definition inheritFromBaseTask (base : option Options) : M t :=
  match base with
  | Some o => ret (mk (-1) 2 o)
  | None => fatal (msgCouldNotGet "ccdb-url" "tof-signal")
  end.

Definition isEmpty (s : string) : bool := String.eqb s "".

(** [nameShift.find(".root") != std::string::npos] *)
Definition isFromFile (nameShift : string) : bool :=
  match String.index 0 ".root" nameShift with
  | Some _ => true
  | None => false
  end.

Definition parsOf (pc : ParameterCollection) (pass : string) : Pars :=
  match getPars pc pass with Some v => v | None => [] end.

(** The two setter calls made once a pass has been found. *)
Definition setParametrization (env : Env) (p : TOFResoParamsV3) (v : Pars)
    : TOFResoParamsV3 :=
  setMomentumChargeShiftParameters
    (if isRun3 env
     then setResolutionParametrization p v
     else setResolutionParametrizationRun2 p v) v.

Definition msgNotAvailable (pass origin : string) : string :=
  ("Pass '" ++ pass ++ "' not available in the retrieved " ++ origin)%string.

(** The look-up cascade, written three times in the source (parameter
    file and CCDB in [initSetup], CCDB in [processSetup]) with the same
    control flow; [origin] is the only varying part of the messages. *)
Definition loadParametrization (env : Env) (origin : string)
    (pc : ParameterCollection) (c : t) (p : TOFResoParamsV3)
    : M TOFResoParamsV3 :=
  let '(found, p1) := retrieveParameters pc p (mReconstructionPass c) in
  if negb found then
    if mFatalOnPassNotAvailable c then
      fatal (msgNotAvailable (mReconstructionPass c) origin)
    else
      (warning (msgNotAvailable (mReconstructionPass c) origin
                ++ ", fetching '" ++ mReconstructionPassDefault c ++ "'")%string ;;;
       let '(found', p2) :=
         retrieveParameters pc p1 (mReconstructionPassDefault c) in
       if negb found' then
         fatal ("Cannot get default pass for calibration "
                ++ mReconstructionPassDefault c)%string
       else
         ret (setParametrization env p2
                (parsOf pc (mReconstructionPassDefault c))))%M
  else
    ret (setParametrization env p1 (parsOf pc (mReconstructionPass c))).

(** [metadata["RecoPassName"]], set when the pass is not empty. *)
Definition recoPassMetadata (c : t) : option string :=
  if negb (isEmpty (mReconstructionPass c))
  then Some (mReconstructionPass c) else None.

(** The [updateTimeShift] lambda of [initSetup]. *)
Definition updateTimeShiftInit (env : Env) (c : t) (p : TOFResoParamsV3)
    (nameShift : string) (isPositive : bool) : M TOFResoParamsV3 :=
  if isEmpty nameShift then ret p
  else if isFromFile nameShift then
    (fetch (LoadTimeShiftFile nameShift) ;;;
     ret (setTimeShiftParameters p (fileTimeShift env nameShift) isPositive))%M
  else if negb (mEnableTimeDependentResponse c) then
    (fetch (FetchTimeShift nameShift (mTimestamp c) (recoPassMetadata c)) ;;;
     ret (setTimeShiftParameters p
            (ccdbTimeShift env nameShift (mTimestamp c) (recoPassMetadata c))
            isPositive))%M
  else ret p.

(** The [updateTimeShift] lambda of [processSetup]. *)
Definition updateTimeShiftProcess (env : Env) (c : t) (p : TOFResoParamsV3)
    (nameShift : string) (isPositive : bool) : M TOFResoParamsV3 :=
  if isEmpty nameShift then ret p
  else if isFromFile nameShift then ret p
  else
    (fetch (FetchTimeShift nameShift (mTimestamp c) (recoPassMetadata c)) ;;;
     ret (setTimeShiftParameters p
            (ccdbTimeShift env nameShift (mTimestamp c) (recoPassMetadata c))
            isPositive))%M.

Definition nameShiftPos (env : Env) (c : t) : string :=
  if isMC env then mTimeShiftCCDBPathPosMC c else mTimeShiftCCDBPathPos c.
Definition nameShiftNeg (env : Env) (c : t) : string :=
  if isMC env then mTimeShiftCCDBPathNegMC c else mTimeShiftCCDBPathNeg c.

(** The pass named [metadata] stands for the pass recorded in the
    metadata of the input file. *)
Definition passFromMetadata (env : Env) (c : t) : t :=
  if String.eqb (mReconstructionPass c) "metadata" then
    set_mReconstructionPass c
      (if isMC env then metadataGet env "AnchorPassName"
       else metadataGet env "RecoPassName")
  else c.

(** [initSetup]: set-up from the [init] function of a task.  The calls
    that only configure the CCDB manager have no counterpart here. *)
Definition initSetup (env : Env) (c : t) (p : TOFResoParamsV3)
    : M (t * TOFResoParamsV3) :=
  let c := passFromMetadata env (set_mInitMode c 1) in
  (p <- (if negb (isEmpty (mParamFileName c)) then
           fetch (LoadParamFile (mParamFileName c) (mParametrizationPath c)) ;;;
           loadParametrization env "object from file"
             (fileParameterCollection env (mParamFileName c)
                (mParametrizationPath c)) c p
         else if negb (mEnableTimeDependentResponse c) then
           fetch (FetchParameterCollection (mParametrizationPath c)
                    (mTimestamp c)) ;;;
           loadParametrization env "CCDB object"
             (ccdbParameterCollection env (mParametrizationPath c)
                (mTimestamp c)) c p
         else ret p) ;;
   p <- updateTimeShiftInit env c p (nameShiftPos env c) true ;;
   p <- updateTimeShiftInit env c p (nameShiftNeg env c) false ;;
   ret (c, p))%M.

(** [processSetup]: called at the start of every processing call with the
    first bunch crossing of the batch. *)
Definition processSetup (env : Env) (c : t) (p : TOFResoParamsV3) (bc : BC)
    : M (t * TOFResoParamsV3) :=
  if mLastRunNumber c =? runNumber bc then ret (c, p)
  else
    let c := set_mLastRunNumber c (runNumber bc) in
    let c := set_mTimestamp c (timestamp bc) in
    (c <- (if mCollisionSystem c =? -1 then
             fetch (FetchGrpLhcIf (mPathGrpLhcIf c) (mTimestamp c)) ;;;
             ret (set_mCollisionSystem c
                    (ccdbCollisionType env (mPathGrpLhcIf c) (mTimestamp c)))
           else ret c) ;;
     if negb (mEnableTimeDependentResponse c) then ret (c, p)
     else
       p <- (if isEmpty (mParamFileName c) then
               fetch (FetchParameterCollection (mParametrizationPath c)
                        (mTimestamp c)) ;;;
               loadParametrization env "CCDB object"
                 (ccdbParameterCollection env (mParametrizationPath c)
                    (mTimestamp c)) c p
             else ret p) ;;
       p <- updateTimeShiftProcess env c p (nameShiftPos env c) true ;;
       p <- updateTimeShiftProcess env c p (nameShiftNeg env c) false ;;
       ret (c, p))%M.

Definition autoSetProcessFunctions (c : t) : bool := mAutoSetProcessFunctions c.
Definition collisionSystem (c : t) : Z := mCollisionSystem c.

End TOFCalibConfig.

(** ** The context of the [init] functions *)

(** What [metadataInfo] (MetadataHelper.h) answers beyond the two keys
    held by [Env]. *)
Record MetadataInfo : Type := mkMetadataInfo {
  isFullyDefined : bool;
  isInitialized : bool
}.

(** The init context as the tasks read it through TableHelper.h and the
    framework: [isTableRequiredInWorkflow(initContext, table)]; the value
    left in [flag] by [enableFlagIfTableRequired(initContext, table, flag)];
    the options of the [tof-signal] task read by [getTaskOptionValue]
    ([None] when the options of that task cannot be read). *)
Record InitContext : Type := mkInitContext {
  isTableRequiredInWorkflow : string -> bool;
  enableFlagIfTableRequired : string -> Z -> Z;
  baseTaskOptions : option TOFCalibConfig.Options
}.

(** The two [PROCESS_SWITCH]es of a task. *)
Record Switches : Type := mkSwitches {
  doprocessRun2 : bool;
  doprocessRun3 : bool
}.

(** ** Input tables *)

(** A row of the (joined) track table.  [globalIndex] is the position of
    the row in the table; [collisionId] is negative for a track that is
    not associated with a collision.  [tofSignal] and [tofEvTime] are the
    columns joined from the tables of the first two tasks, read by the
    third. *)
Record Track : Type := mkTrack {
  globalIndex : Z;
  collisionId : Z;
  hasTOF : bool;
  hasITS : bool;
  hasTPC : bool;
  trackType : Z;
  sign : Z;
  p : float;
  eta : float;
  tofExpMom : float;
  tofSignal : float;
  tofEvTime : float
}.

Definition has_collision (t : Track) : bool := 0 <=? collisionId t.

(** A row of the collision table joined with the event selection and the
    corrected FT0 columns. *)
Record Collision : Type := mkCollision {
  sel8 : bool;
  has_foundFT0 : bool;
  t0ACValid : bool;
  t0AC : float;
  t0resolution : float;
  collisionTime : float;
  collisionTimeRes : float
}.

(** The collision table, indexed by collision id. *)
Definition Collisions : Type := Z -> Collision.

(** [tracks.sliceBy(perCollision, id)]: the rows of [tracks] whose
    [collisionId] is [id], in table order. *)
Definition sliceBy (tracks : list Track) (id : Z) : list Track :=
  filter (fun t => collisionId t =? id) tracks.

(** [o2::aod::track::TrackTypeEnum] *)
Definition TrackTypeEnum_Track : Z := 0.
Definition TrackTypeEnum_TrackIU : Z := 1.

(** An output table: rows in the order they were appended.  Each row
    carries the [globalIndex] of the track held by the loop variable when
    the row was appended; the index is not part of the stored data. *)
Definition Table (A : Type) : Type := list (Z * A).

Definition append {A} (tb : Table A) (trk : Track) (row : A) : Table A :=
  tb ++ [(globalIndex trk, row)].

Definition rowsOf {A} (tb : Table A) : list A := map snd tb.
Definition tracksOf {A} (tb : Table A) : list Z := map fst tb.

(** ** Part 1: TOF signal *)

(** Selection criteria for tracks used for TOF event time *)
Definition isTrackGoodMatchForTOFPID (tr : Track) : bool :=
  if negb (hasTOF tr) then false else true.

Module tofSignal.

Record t : Type := mk {
  enableTableTOFSignal : bool;
  enableTablepidTOFFlags : bool
}.

Record Tables : Type := mkTables {
  table : Table float;
  tableFlags : Table bool
}.

Definition noTables : Tables := mkTables [] [].

(** [GetTOFSignal] (Common/Core/PID/PIDTOF.h) is passed as [getTOFSignal].
    The body of the loop of [processRun3]: *)
Definition trackRun3 (getTOFSignal : Track -> float) (s : t)
    (out : Tables) (trk : Track) : Tables :=
  let sig := getTOFSignal trk in
  let out := mkTables (append (table out) trk sig) (tableFlags out) in
  if negb (enableTablepidTOFFlags s) then out
  else
    let b := isTrackGoodMatchForTOFPID trk in
    mkTables (table out) (append (tableFlags out) trk b).

Definition processRun3 (getTOFSignal : Track -> float) (s : t)
    (tracks : list Track) : Tables :=
  if negb (enableTableTOFSignal s) then noTables
  else fold_left (trackRun3 getTOFSignal s) tracks noTables.

(** The body of the loop of [processRun2]: *)
Definition trackRun2 (getTOFSignal : Track -> float) (s : t)
    (out : Tables) (trk : Track) : Tables :=
  let out :=
    mkTables (append (table out) trk (getTOFSignal trk)) (tableFlags out) in
  if negb (enableTablepidTOFFlags s) then out
  else mkTables (table out) (append (tableFlags out) trk true).

Definition processRun2 (getTOFSignal : Track -> float) (s : t)
    (tracks : list Track) : Tables :=
  if negb (enableTableTOFSignal s) then noTables
  else fold_left (trackRun2 getTOFSignal s) tracks noTables.

(** The members of the task set by [init]. *)
Record Task : Type := mkTask {
  tables : t;
  switches : Switches;
  mTOFCalibConfig : TOFCalibConfig.t;
  mRespParamsV3 : TOFResoParamsV3;
  histos : list string
}.

(** [init]: [cfg] is the group of configurables, [sw] the process
    switches as the workflow configuration sets them, [p] the response
    parameters before the call. *)
Definition init (env : Env) (md : MetadataInfo) (ctx : InitContext)
    (cfg : TOFCalibConfig.Options) (enableQaHistograms : bool)
    (sw : Switches) (p : TOFResoParamsV3) : M Task :=
  let c := TOFCalibConfig.init cfg in
  let sig := isTableRequiredInWorkflow ctx "TOFSignal" in
  let flg := isTableRequiredInWorkflow ctx "pidTOFFlags" in
  if negb sig && negb flg && negb (doprocessRun2 sw) && negb (doprocessRun3 sw)
  then ret (mkTask (mk sig flg) sw c p [])
  else
    let sw :=
      if TOFCalibConfig.autoSetProcessFunctions c then
        if isFullyDefined md && negb (doprocessRun2 sw)
           && negb (doprocessRun3 sw)
        then
          if isRun3 env
          then mkSwitches (doprocessRun2 sw) true
          else mkSwitches false (doprocessRun3 sw)
        else sw
      else sw in
    if doprocessRun2 sw && doprocessRun3 sw then
      fatal "Both processRun2 and processRun3 are enabled. Pick one of the two"
    else if negb (doprocessRun2 sw) && negb (doprocessRun3 sw) then
      fatal "Neither processRun2 nor processRun3 are enabled. Pick one of the two"
    else
      (cp <- TOFCalibConfig.initSetup env c p ;;
       ret (mkTask (mk sig flg) sw (fst cp) (snd cp)
              (if negb enableQaHistograms then []
               else "tofSignal"
                    :: (if flg then ["goodForPIDFlags"] else []))))%M.

End tofSignal.

(** ** Part 2: event time *)

(** The event-time maker of O2 ([TOFBase/EventTimeMaker.h]) is outside
    this repository: the container it returns, its three public members
    read here and its [removeBias] method are taken as they are.
    [removeBias] receives the track filter (a template argument), the
    track, and the three variables it updates by reference (track index,
    event-time value, event-time error). *)
Record EvTimeLib : Type := mkEvTimeLib {
  eventTimeContainer : Type;
  evTimeMakerFromParam :
    (Track -> bool) -> list Track -> TOFResoParamsV3 -> float
    -> eventTimeContainer;
  mEventTime : eventTimeContainer -> double;
  mEventTimeError : eventTimeContainer -> double;
  mEventTimeMultiplicity : eventTimeContainer -> Z;
  removeBias :
    eventTimeContainer -> (Track -> bool) -> Track
    -> Z -> float -> float -> Z -> Z * float * float
}.

(** Modelled from the spec: the enumerators of
    [o2::aod::pidflags::enums::PIDFlags] (Common/TableProducer/PID/pidTOFBase.h)
    are missing; the source flags of section 3 (EventTimeEstimate) are one
    bit per contributing estimator. *)
Definition EvTimeTOF : Z := 1.
Definition EvTimeT0AC : Z := 2.

(** The collision systems named by the help text of [collisionSystem]:
    0 (pp), 1 (PbPb). *)
Definition kCollSyspp : Z := 0.
Definition kCollSysPbPb : Z := 1.

Module tofEventTime.

Definition kRemoveTOFEvTimeBias : bool := true.
Definition kDiamond : float := F32.of_Z 6.
Definition kErrDiamond : float := F32.mul kDiamond lit_33_356409f.
Definition kWeightDiamond : float :=
  F32.div F32.one (F32.mul kErrDiamond kErrDiamond).

Record t : Type := mk {
  enableTableTOFEvTime : bool;
  enableTableEvTimeTOFOnly : bool;
  mRespParamsV3 : TOFResoParamsV3;
  mTOFCalibConfig : TOFCalibConfig.t;
  (* the two globals set from [minMomentum] and [maxMomentum] in [init] *)
  trackSampleMinMomentum : float;
  trackSampleMaxMomentum : float;
  maxEvTimeTOF : float;
  sel8TOFEvTime : bool;
  mComputeEvTimeWithTOF : Z;
  mComputeEvTimeWithFT0 : Z
}.

Definition set_calib (s : t) (c : TOFCalibConfig.t) (p : TOFResoParamsV3) : t :=
  mk (enableTableTOFEvTime s) (enableTableEvTimeTOFOnly s) p c
     (trackSampleMinMomentum s) (trackSampleMaxMomentum s) (maxEvTimeTOF s)
     (sel8TOFEvTime s) (mComputeEvTimeWithTOF s) (mComputeEvTimeWithFT0 s).

Definition set_compute (s : t) (withTOF withFT0 : Z) : t :=
  mk (enableTableTOFEvTime s) (enableTableEvTimeTOFOnly s)
     (mRespParamsV3 s) (mTOFCalibConfig s)
     (trackSampleMinMomentum s) (trackSampleMaxMomentum s) (maxEvTimeTOF s)
     (sel8TOFEvTime s) withTOF withFT0.

(** Selection criteria for tracks used for TOF event time *)
Definition filterForTOFEventTime (s : t) (tr : Track) : bool :=
  hasTOF tr
  && F32.ltb (trackSampleMinMomentum s) (p tr)
  && F32.ltb (p tr) (trackSampleMaxMomentum s)
  && hasITS tr
  && hasTPC tr
  && ((trackType tr =? TrackTypeEnum_Track)
      || (trackType tr =? TrackTypeEnum_TrackIU)).

Definition evTimeMakerForTracks (lib : EvTimeLib) (s : t)
    (tracks : list Track) (responseParameters : TOFResoParamsV3)
    (diamond : float) : eventTimeContainer lib :=
  evTimeMakerFromParam lib (filterForTOFEventTime s) tracks
    responseParameters diamond.

Record Tables : Type := mkTables {
  tableEvTime : Table (float * float);
  tableEvTimeTOFOnly : Table (Z * float * float * Z);
  tableFlags : Table Z
}.

Definition noTables : Tables := mkTables [] [] [].

Definition putFlags (out : Tables) (trk : Track) (f : Z) : Tables :=
  mkTables (tableEvTime out) (tableEvTimeTOFOnly out)
           (append (tableFlags out) trk f).
Definition putEvTime (out : Tables) (trk : Track) (v e : float) : Tables :=
  mkTables (append (tableEvTime out) trk (v, e)) (tableEvTimeTOFOnly out)
           (tableFlags out).
Definition putEvTimeTOFOnly (out : Tables) (trk : Track)
    (usedForEvTime : Z) (v e : float) (mult : Z) : Tables :=
  mkTables (tableEvTime out)
           (append (tableEvTimeTOFOnly out) trk (usedForEvTime, v, e, mult))
           (tableFlags out).

(** The rows appended for a track that is skipped in the two TOF modes:
    [tableFlags(0); tableEvTime(0.f, 999.f)] and, when enabled,
    [tableEvTimeTOFOnly(0, 0.f, 0.f, -1)]. *)
Definition putNotComputed (s : t) (out : Tables) (trk : Track) : Tables :=
  let out := putFlags out trk 0 in
  let out := putEvTime out trk F32.zero lit_999f in
  if enableTableEvTimeTOFOnly s
  then putEvTimeTOFOnly out trk 0 F32.zero F32.zero (-1)
  else out.

(** The condition of the first [if] of the two TOF loops. *)
Definition skipped (s : t) (cols : Collisions) (trk : Track) : bool :=
  negb (has_collision trk)
  || (sel8TOFEvTime s && negb (sel8 (cols (collisionId trk)))).

(** The validity test of the TOF estimate, the same expression in both TOF
    modes:
    [err < kErrDiamond && (maxEvTimeTOF <= 0 || std::abs(val) < maxEvTimeTOF)]. *)
Definition acceptTOF (s : t) (val err : float) : bool :=
  F32.ltb err kErrDiamond
  && (F32.leb (maxEvTimeTOF s) F32.zero
      || F32.ltb (F32.abs val) (maxEvTimeTOF s)).

(** The call of [removeBias] under [if constexpr (kRemoveTOFEvTimeBias)]. *)
Definition unbias (lib : EvTimeLib) (s : t) (maker : eventTimeContainer lib)
    (trk : Track) (nGoodTracksForTOF : Z) (val err : float)
    : Z * float * float :=
  if kRemoveTOFEvTimeBias
  then removeBias lib maker (filterForTOFEventTime s) trk
         nGoodTracksForTOF val err 2
  else (nGoodTracksForTOF, val, err).

(** *** TOF and FT0 combined *)

(** The three accumulators reset at the start of every track. *)
Record Sums : Type := mkSums {
  flags : Z;
  eventTime : float;
  sumOfWeights : float
}.

Definition noSums : Sums := mkSums 0 F32.zero F32.zero.

(** The block guarded by the validity test of [t0TOF]. *)
Definition addTOF (s : t) (t0TOF : float * float) (a : Sums) : Sums :=
  if acceptTOF s (fst t0TOF) (snd t0TOF) then
    let weight := F32.div F32.one (F32.mul (snd t0TOF) (snd t0TOF)) in
    mkSums (Z.lor (flags a) EvTimeTOF)
           (F32.add (eventTime a) (F32.mul (fst t0TOF) weight))
           (F32.add (sumOfWeights a) weight)
  else a.

(** The block guarded by [collision.has_foundFT0()]; it returns the
    array [t0AC], which it may overwrite, and the accumulators. *)
Definition addFT0 (collision : Collision) (t0ac : float * float) (a : Sums)
    : (float * float) * Sums :=
  if has_foundFT0 collision then
    let '(t0ac, fl) :=
      if t0ACValid collision
      then ((F32.mul (t0AC collision) lit_1000f,
             F32.mul (t0resolution collision) lit_1000f),
            Z.lor (flags a) EvTimeT0AC)
      else (t0ac, flags a) in
    let weight := F32.div F32.one (F32.mul (snd t0ac) (snd t0ac)) in
    (t0ac,
     mkSums fl
            (F32.add (eventTime a) (F32.mul (fst t0ac) weight))
            (F32.add (sumOfWeights a) weight))
  else (t0ac, a).

(** The floor on the sum of weights: the accumulators after the last
    [if] of the loop body. *)
Definition floorSums (a : Sums) : Sums :=
  if F32.ltb (sumOfWeights a) kWeightDiamond
  then mkSums 0 F32.zero kWeightDiamond
  else a.

(** [std::sqrt(1. / sumOfWeights)], evaluated in [double] and stored in a
    [float] column. *)
Definition errorOfWeights (sumOfWeights : float) : float :=
  F64.to_float (F64.sqrt (F64.div F64.one (F64.of_float sumOfWeights))).

(** The row [(flags, value, error)] appended for the accumulators. *)
Definition combined (a : Sums) : Z * float * float :=
  let a' := floorSums a in
  (flags a', F32.div (eventTime a') (sumOfWeights a'),
   errorOfWeights (sumOfWeights a')).

(** The variables that live across the tracks of one collision. *)
Record PerCollision : Type := mkPerCollision {
  nGoodTracksForTOF : Z;
  t0TOF : float * float;
  t0ACvar : float * float;
  out : Tables
}.

(** The accumulators of a track before the floor is applied. *)
Definition sumsOfTrack (lib : EvTimeLib) (s : t) (collision : Collision)
    (maker : eventTimeContainer lib) (st : PerCollision) (trk : Track)
    : Sums :=
  let '(_, v, e) :=
    unbias lib s maker trk (nGoodTracksForTOF st)
      (fst (t0TOF st)) (snd (t0TOF st)) in
  snd (addFT0 collision (t0ACvar st) (addTOF s (v, e) noSums)).

(** The body of the loop on the tracks of a collision. *)
Definition trackTOFFT0 (lib : EvTimeLib) (s : t) (collision : Collision)
    (maker : eventTimeContainer lib) (st : PerCollision) (trk : Track)
    : PerCollision :=
  let '(n, v, e) :=
    unbias lib s maker trk (nGoodTracksForTOF st)
      (fst (t0TOF st)) (snd (t0TOF st)) in
  let a := addTOF s (v, e) noSums in
  let '(t0ac, a) := addFT0 collision (t0ACvar st) a in
  let '(fl, value, error) := combined a in
  let o := putFlags (out st) trk fl in
  let o := putEvTime o trk value error in
  let o :=
    if enableTableEvTimeTOFOnly s
    then putEvTimeTOFOnly o trk
           (Z.b2z (filterForTOFEventTime s trk)) v e
           (mEventTimeMultiplicity lib maker)
    else o in
  mkPerCollision n (v, e) t0ac o.

(** The body of the loop on all tracks, TOF and FT0 combined. *)
Definition stepTOFFT0 (lib : EvTimeLib) (s : t) (cols : Collisions)
    (tracks : list Track) (st : Z * Tables) (trk : Track) : Z * Tables :=
  let '(lastCollisionId, o) := st in
  if skipped s cols trk then (lastCollisionId, putNotComputed s o trk)
  else if collisionId trk =? lastCollisionId then (lastCollisionId, o)
  else
    let lastCollisionId := collisionId trk in
    let tracksInCollision := sliceBy tracks lastCollisionId in
    let collision := cols (collisionId trk) in
    let maker :=
      evTimeMakerForTracks lib s tracksInCollision (mRespParamsV3 s) kDiamond in
    let st0 :=
      mkPerCollision 0
        (F64.to_float (mEventTime lib maker),
         F64.to_float (mEventTimeError lib maker))
        (F32.zero, lit_999f) o in
    (lastCollisionId,
     out (fold_left (trackTOFFT0 lib s collision maker) tracksInCollision st0)).

Definition loopTOFFT0 (lib : EvTimeLib) (s : t) (cols : Collisions)
    (tracks : list Track) : Tables :=
  snd (fold_left (stepTOFFT0 lib s cols tracks) tracks (-1, noTables)).

(** *** TOF only *)

(** The variables that live across the tracks of one collision:
    [nGoodTracksForTOF], [et], [erret] and the tables. *)
Record PerCollisionTOF : Type := mkPerCollisionTOF {
  nGood : Z;
  et : float;
  erret : float;
  outTOF : Tables
}.

(** What one track appends in the TOF-only mode: the flags and the pair
    stored in [et] and [erret] after the validity test. *)
Definition checkedTOF (s : t) (v e : float) : Z * float * float :=
  if acceptTOF s v e
  then (Z.lor 0 EvTimeTOF, v, e)
  else (0, F32.zero, kErrDiamond).

Definition trackTOFOnly (lib : EvTimeLib) (s : t)
    (maker : eventTimeContainer lib) (st : PerCollisionTOF) (trk : Track)
    : PerCollisionTOF :=
  let '(n, v, e) := unbias lib s maker trk (nGood st) (et st) (erret st) in
  let '(fl, v, e) := checkedTOF s v e in
  let o := putFlags (outTOF st) trk fl in
  let o := putEvTime o trk v e in
  let o :=
    if enableTableEvTimeTOFOnly s
    then putEvTimeTOFOnly o trk
           (Z.b2z (filterForTOFEventTime s trk)) v e
           (mEventTimeMultiplicity lib maker)
    else o in
  mkPerCollisionTOF n v e o.

Definition stepTOFOnly (lib : EvTimeLib) (s : t) (cols : Collisions)
    (tracks : list Track) (st : Z * Tables) (trk : Track) : Z * Tables :=
  let '(lastCollisionId, o) := st in
  if skipped s cols trk then (lastCollisionId, putNotComputed s o trk)
  else if collisionId trk =? lastCollisionId then (lastCollisionId, o)
  else
    let lastCollisionId := collisionId trk in
    let tracksInCollision := sliceBy tracks lastCollisionId in
    let maker :=
      evTimeMakerForTracks lib s tracksInCollision (mRespParamsV3 s) kDiamond in
    let st0 :=
      mkPerCollisionTOF 0
        (F64.to_float (mEventTime lib maker))
        (F64.to_float (mEventTimeError lib maker)) o in
    (lastCollisionId,
     outTOF (fold_left (trackTOFOnly lib s maker) tracksInCollision st0)).

Definition loopTOFOnly (lib : EvTimeLib) (s : t) (cols : Collisions)
    (tracks : list Track) : Tables :=
  snd (fold_left (stepTOFOnly lib s cols tracks) tracks (-1, noTables)).

(** *** FT0 only *)

Definition stepFT0Only (s : t) (cols : Collisions) (o : Tables) (trk : Track)
    : Tables :=
  let o :=
    if enableTableEvTimeTOFOnly s
    then putEvTimeTOFOnly o trk 0 F32.zero F32.zero (-1)
    else o in
  if negb (has_collision trk) then
    putEvTime (putFlags o trk 0) trk F32.zero lit_999f
  else
    let collision := cols (collisionId trk) in
    if has_foundFT0 collision && t0ACValid collision then
      putEvTime (putFlags o trk EvTimeT0AC) trk
        (F32.mul (t0AC collision) lit_1000f)
        (F32.mul (t0resolution collision) lit_1000f)
    else
      putEvTime (putFlags o trk 0) trk F32.zero lit_999f.

Definition loopFT0Only (s : t) (cols : Collisions) (tracks : list Track)
    : Tables :=
  fold_left (stepFT0Only s cols) tracks noTables.

(** *** The process functions *)

(** The body of the loop of [processRun2]. *)
Definition trackRun2 (cols : Collisions) (o : Tables) (trk : Track) : Tables :=
  if negb (has_collision trk) then
    putEvTime (putFlags o trk 0) trk F32.zero lit_999f
  else
    putEvTime (putFlags o trk 1) trk
      (F32.mul (collisionTime (cols (collisionId trk))) lit_1000f)
      (F32.mul (collisionTimeRes (cols (collisionId trk))) lit_1000f).

(** Process function to prepare the event for each track on Run 2 data *)
Definition processRun2 (s : t) (cols : Collisions) (tracks : list Track)
    : Tables :=
  if negb (enableTableTOFEvTime s) then noTables
  else fold_left (trackRun2 cols) tracks noTables.

(** The message of the [default] label of the automatic choice: the
    number of the collision system and its name. *)
Definition msgNotSupported (env : Env) (sys : Z) : string :=
  ("Collision system " ++ printInt sys ++ " "
   ++ getCollisionSystemName env sys
   ++ " not supported for TOF event time computation")%string.

(** The automatic choice of the estimators, made when one of the two
    options is still -1. *)
Definition autoset (env : Env) (s : t) : M t :=
  if (mComputeEvTimeWithTOF s =? -1) || (mComputeEvTimeWithFT0 s =? -1) then
    let sys := TOFCalibConfig.collisionSystem (mTOFCalibConfig s) in
    if sys =? kCollSyspp then
      ret (set_compute s
             (if mComputeEvTimeWithTOF s =? -1 then 0 else mComputeEvTimeWithTOF s)
             (if mComputeEvTimeWithFT0 s =? -1 then 1 else mComputeEvTimeWithFT0 s))
    else if sys =? kCollSysPbPb then
      ret (set_compute s
             (if mComputeEvTimeWithTOF s =? -1 then 1 else mComputeEvTimeWithTOF s)
             (if mComputeEvTimeWithFT0 s =? -1 then 0 else mComputeEvTimeWithFT0 s))
    else fatal (msgNotSupported env sys)
  else ret s.

(** Process function to prepare the event for each track on Run 3 data.
    [bc] is [bcs.iteratorAt(0)]. *)
Definition processRun3 (env : Env) (lib : EvTimeLib) (s : t)
    (cols : Collisions) (bc : BC) (tracks : list Track) : M (t * Tables) :=
  if negb (enableTableTOFEvTime s) then ret (s, noTables)
  else
    (cp <- TOFCalibConfig.processSetup env (mTOFCalibConfig s)
             (mRespParamsV3 s) bc ;;
     s <- autoset env (set_calib s (fst cp) (snd cp)) ;;
     if (mComputeEvTimeWithTOF s =? 1) && (mComputeEvTimeWithFT0 s =? 1) then
       ret (s, loopTOFFT0 lib s cols tracks)
     else if (mComputeEvTimeWithTOF s =? 1) && (mComputeEvTimeWithFT0 s =? 0) then
       ret (s, loopTOFOnly lib s cols tracks)
     else if (mComputeEvTimeWithTOF s =? 0) && (mComputeEvTimeWithFT0 s =? 1) then
       ret (s, loopFT0Only s cols tracks)
     else fatal "Invalid configuration for TOF event time computation")%M.

(** The members of the task set by [init]; [maxNtracksInSet] is the
    value handed to [eventTimeContainer::setMaxNtracksInSet], if any. *)
Record Task : Type := mkTask {
  state : t;
  switches : Switches;
  maxNtracksInSet : option Z
}.

Definition set_tables (s : t) (evTime evTimeTOFOnly : bool)
    (c : TOFCalibConfig.t) : t :=
  mk evTime evTimeTOFOnly (mRespParamsV3 s) c
     (trackSampleMinMomentum s) (trackSampleMaxMomentum s) (maxEvTimeTOF s)
     (sel8TOFEvTime s) (mComputeEvTimeWithTOF s) (mComputeEvTimeWithFT0 s).

Definition set_trackSample (s : t) (minMomentum maxMomentum : float) : t :=
  mk (enableTableTOFEvTime s) (enableTableEvTimeTOFOnly s)
     (mRespParamsV3 s) (mTOFCalibConfig s)
     minMomentum maxMomentum (maxEvTimeTOF s)
     (sel8TOFEvTime s) (mComputeEvTimeWithTOF s) (mComputeEvTimeWithFT0 s).

(** [init]: [s] holds the members before the call, [minMomentum],
    [maxMomentum] and [maxNtracks] are the configurables of the same
    names, [sw] the process switches as the workflow configuration sets
    them. *)
Definition init (env : Env) (md : MetadataInfo) (ctx : InitContext)
    (s : t) (minMomentum maxMomentum : float) (maxNtracks : Z)
    (sw : Switches) : M Task :=
  (c <- TOFCalibConfig.inheritFromBaseTask (baseTaskOptions ctx) ;;
   let evTime := isTableRequiredInWorkflow ctx "TOFEvTime" in
   let evTimeTOFOnly := isTableRequiredInWorkflow ctx "EvTimeTOFOnly" in
   let s := set_tables s evTime evTimeTOFOnly c in
   if negb evTime && negb evTimeTOFOnly then ret (mkTask s sw None)
   else
     let sw :=
       if TOFCalibConfig.autoSetProcessFunctions c then
         if isFullyDefined md then
           if isRun3 env
           then mkSwitches (doprocessRun2 sw) true
           else mkSwitches true (doprocessRun3 sw)
         else sw
       else sw in
     if isFullyDefined md && (isRun3 env && doprocessRun2 sw) then
       fatal "Run2 process function is enabled but the metadata says it is Run3"
     else if isFullyDefined md && (negb (isRun3 env) && doprocessRun3 sw) then
       fatal "Run3 process function is enabled but the metadata says it is Run2"
     else
       let s := set_trackSample s minMomentum maxMomentum in
       let nEnabled :=
         (if doprocessRun2 sw then 1 else 0)
         + (if doprocessRun3 sw then 1 else 0) in
       if 1 <? nEnabled then
         fatal "Cannot enable more process functions at the same time. Please choose one."
       else
         cp <- TOFCalibConfig.initSetup env c (mRespParamsV3 s) ;;
         ret (mkTask (set_calib s (fst cp) (snd cp)) sw (Some maxNtracks)))%M.

End tofEventTime.

(** ** Part 3: Nsigma computation *)

(** [o2::track::PID::ID], restricted to the nine hypotheses of the task. *)
Inductive Species : Type :=
| Electron | Muon | Pion | Kaon | Proton | Deuteron | Triton | Helium3 | Alpha.

(** The response functions of Common/Core/PID/PIDTOF.h and the packing
    of Common/DataModel/PIDResponseTOF.h that the task calls and whose
    bodies do not decide what is proved here. *)
Record PidLib : Type := mkPidLib {
  (* expected time of a species with the calibrated corrections *)
  GetCorrectedExpectedSignal : Species -> TOFResoParamsV3 -> Track -> float;
  GetExpectedSigma : Species -> TOFResoParamsV3 -> Track -> float;
  (* [binning::packInTable]: the bin stored in a tiny table *)
  packInTable : float -> Z;
  GetBeta : Track -> float;
  GetBetaExpectedSigma : Track -> float;
  GetTOFMassOfMomentum : float -> float -> float;
  GetTOFMassOfTrack : Track -> float -> float;
  getMomentumChargeShift : TOFResoParamsV3 -> float -> float
}.

(** Modelled from the spec: the value the response model returns for a
    quantity it does not compute (Common/Core/PID/PIDTOF.h is missing).
    Section 3 gives the Nsigma one dedicated sentinel for "not computed";
    it is the value the task itself writes for a row that is not
    computed, the literal [-999.f] of [makeTableEmpty]. *)
Definition defaultReturnValue : float := lit_m999f.

(** Modelled from the spec: [ExpTimes<Track, pid>::GetSeparation]
    (Common/Core/PID/PIDTOF.h) is missing.  Section 4.4:
    nsigma = (observedSignal - eventTime - expectedTime) / expectedSigma.
    Section 7: a track without the required detector hit, here the TOF
    hit that gives the observed signal, is not an error and produces the
    sentinel value.  The overload with three arguments receives the
    resolution; the one with two arguments evaluates it. *)
Definition GetSeparationWith (lib : PidLib) (sp : Species)
    (params : TOFResoParamsV3) (trk : Track) (resolution : float) : float :=
  if hasTOF trk then
    F32.div
      (F32.sub (F32.sub (tofSignal trk) (tofEvTime trk))
               (GetCorrectedExpectedSignal lib sp params trk))
      resolution
  else defaultReturnValue.

Definition GetSeparation (lib : PidLib) (sp : Species)
    (params : TOFResoParamsV3) (trk : Track) : float :=
  GetSeparationWith lib sp params trk (GetExpectedSigma lib sp params trk).

Definition kIdxEl : Z := 0.
Definition kIdxMu : Z := 1.
Definition kIdxPi : Z := 2.
Definition kIdxKa : Z := 3.
Definition kIdxPr : Z := 4.
Definition kIdxDe : Z := 5.
Definition kIdxTr : Z := 6.
Definition kIdxHe : Z := 7.
Definition kIdxAl : Z := 8.
Definition nSpecies : Z := 9.

Module tofPidMerge.

Record t : Type := mk {
  mRespParamsV3 : TOFResoParamsV3;
  mTOFCalibConfig : TOFCalibConfig.t;
  mEnabledParticles : list Z;
  mEnabledParticlesFull : list Z;
  enableTableBeta : bool;
  enableTableMass : bool;
  enableTOFParamsForBetaMass : bool
}.

Definition set_calib (s : t) (c : TOFCalibConfig.t) (p : TOFResoParamsV3) : t :=
  mk p c (mEnabledParticles s) (mEnabledParticlesFull s)
     (enableTableBeta s) (enableTableMass s) (enableTOFParamsForBetaMass s).

(** The loop of [init] that fills [mEnabledParticles] (and, with the
    other flags, [mEnabledParticlesFull]): index [i] is pushed when its
    flag is 1 after [enableFlagIfTableRequired]. *)
Definition enabledIndices (flag : Z -> Z) : list Z :=
  filter (fun i => flag i =? 1) (map Z.of_nat (seq 0 (Z.to_nat nSpecies))).

(** The table of a [switch] label: [tablePIDEl] and [tablePIDFullEl] for
    [kIdxEl], and so on; no table for another value ([default]). *)
Definition speciesOfIndex (pidId : Z) : option Species :=
  match pidId with
  | 0 => Some Electron
  | 1 => Some Muon
  | 2 => Some Pion
  | 3 => Some Kaon
  | 4 => Some Proton
  | 5 => Some Deuteron
  | 6 => Some Triton
  | 7 => Some Helium3
  | 8 => Some Alpha
  | _ => None
  end.

Definition indexOfSpecies (sp : Species) : Z :=
  match sp with
  | Electron => kIdxEl | Muon => kIdxMu | Pion => kIdxPi
  | Kaon => kIdxKa | Proton => kIdxPr | Deuteron => kIdxDe
  | Triton => kIdxTr | Helium3 => kIdxHe | Alpha => kIdxAl
  end.

Definition Species_eqb (a b : Species) : bool :=
  indexOfSpecies a =? indexOfSpecies b.

(** The eighteen Nsigma tables: [tiny sp] is [tablePID<sp>] (one packed
    bin per row), [full sp] is [tablePIDFull<sp>] (resolution, nsigma). *)
Record Tables : Type := mkTables {
  tiny : Species -> Table Z;
  full : Species -> Table (float * float)
}.

Definition noTables : Tables := mkTables (fun _ => []) (fun _ => []).

Definition putTiny (out : Tables) (sp : Species) (trk : Track) (bin : Z)
    : Tables :=
  mkTables (fun sp' => if Species_eqb sp' sp
                       then append (tiny out sp') trk bin else tiny out sp')
           (full out).
Definition putFull (out : Tables) (sp : Species) (trk : Track)
    (resolution nsigma : float) : Tables :=
  mkTables (tiny out)
           (fun sp' => if Species_eqb sp' sp
                       then append (full out sp') trk (resolution, nsigma)
                       else full out sp').

(** The end of the messages of [reserveTable] and [makeTableEmpty]. *)
Definition forTables (fullTable : bool) : string :=
  (" for " ++ (if fullTable then "full" else "tiny") ++ " tables")%string.

(** Reserves an empty table for the given particle ID with size of the
    given track table.  Reserving adds no row; the [default] label of the
    [switch] is fatal. *)
Definition reserveTable (out : Tables) (id : Z) (fullTable : bool)
    : Result Tables :=
  match speciesOfIndex id with
  | Some _ => Ok out
  | None =>
      Fatal ("Wrong particle ID in reserveTable()" ++ forTables fullTable)
  end.

(** Makes the table empty for the given particle ID, filling it with
    dummy values *)
Definition makeTableEmpty (lib : PidLib) (out : Tables) (trk : Track)
    (id : Z) (fullTable : bool) : Result Tables :=
  match speciesOfIndex id with
  | Some sp =>
      if fullTable
      then Ok (putFull out sp trk lit_m999f lit_m999f)
      else Ok (putTiny out sp trk (packInTable lib lit_m999f))
  | None =>
      Fatal ("Wrong particle ID in makeTableEmpty()" ++ forTables fullTable)
  end.

(** A [for] loop over a vector of indices whose body may be fatal. *)
Fixpoint forEach {A} (ids : list Z) (body : A -> Z -> Result A) (a : A)
    : Result A :=
  match ids with
  | [] => Ok a
  | id :: rest =>
      match body a id with
      | Ok a' => forEach rest body a'
      | Fatal msg => Fatal msg
      end
  end.

(** The [switch] of the loop on [mEnabledParticles]. *)
Definition fillTiny (lib : PidLib) (params : TOFResoParamsV3) (trk : Track)
    (out : Tables) (pidId : Z) : Result Tables :=
  match speciesOfIndex pidId with
  | Some sp =>
      let nsigma := GetSeparation lib sp params trk in
      Ok (putTiny out sp trk (packInTable lib nsigma))
  | None => Fatal "Wrong particle ID for standard tables"
  end.

(** The [switch] of the loop on [mEnabledParticlesFull].  The pion case
    calls [GetSeparation] without the resolution; the eight others pass
    it. *)
Definition fillFull (lib : PidLib) (params : TOFResoParamsV3) (trk : Track)
    (out : Tables) (pidId : Z) : Result Tables :=
  match speciesOfIndex pidId with
  | Some sp =>
      let resolution := GetExpectedSigma lib sp params trk in
      let nsigma :=
        match sp with
        | Pion => GetSeparation lib sp params trk
        | _ => GetSeparationWith lib sp params trk resolution
        end in
      Ok (putFull out sp trk resolution nsigma)
  | None => Fatal "Wrong particle ID for full tables"
  end.

(** The body of the loop on all tracks, the same in [processRun3] and
    [processRun2]. *)
Definition trackStep (lib : PidLib) (s : t) (out : Tables) (trk : Track)
    : Result Tables :=
  if negb (has_collision trk) then
    match forEach (mEnabledParticles s)
            (fun o id => makeTableEmpty lib o trk id false) out with
    | Ok out =>
        forEach (mEnabledParticlesFull s)
          (fun o id => makeTableEmpty lib o trk id true) out
    | Fatal msg => Fatal msg
    end
  else
    match forEach (mEnabledParticles s)
            (fillTiny lib (mRespParamsV3 s) trk) out with
    | Ok out =>
        forEach (mEnabledParticlesFull s)
          (fillFull lib (mRespParamsV3 s) trk) out
    | Fatal msg => Fatal msg
    end.

Fixpoint trackLoop (lib : PidLib) (s : t) (tracks : list Track)
    (out : Tables) : Result Tables :=
  match tracks with
  | [] => Ok out
  | trk :: rest =>
      match trackStep lib s out trk with
      | Ok out' => trackLoop lib s rest out'
      | Fatal msg => Fatal msg
      end
  end.

(** [processRun3] (and [processRun2], which has the same body on the
    Run 2 track type).  [bc] is [bcs.iteratorAt(0)]. *)
Definition processRun3 (env : Env) (lib : PidLib) (s : t) (bc : BC)
    (tracks : list Track) : M (t * Tables) :=
  (cp <- TOFCalibConfig.processSetup env (mTOFCalibConfig s)
           (mRespParamsV3 s) bc ;;
   let s := set_calib s (fst cp) (snd cp) in
   fun w =>
     match forEach (mEnabledParticles s)
             (fun o id => reserveTable o id false) noTables with
     | Ok out =>
         match forEach (mEnabledParticlesFull s)
                 (fun o id => reserveTable o id true) out with
         | Ok out =>
             match trackLoop lib s tracks out with
             | Ok out => Ok ((s, out), w)
             | Fatal msg => Fatal msg
             end
         | Fatal msg => Fatal msg
         end
     | Fatal msg => Fatal msg
     end)%M.

(** The beta and mass tables. *)
Record BetaTables : Type := mkBetaTables {
  tablePIDBeta : Table (float * float);
  tablePIDTOFMass : Table float
}.

Definition noBetaTables : BetaTables := mkBetaTables [] [].

(** The body of the loop of [processRun3BetaM]. *)
Definition trackBetaM (lib : PidLib) (s : t) (o : BetaTables) (trk : Track)
    : BetaTables :=
  let beta := GetBeta lib trk in
  let o :=
    if enableTableBeta s
    then mkBetaTables
           (append (tablePIDBeta o) trk (beta, GetBetaExpectedSigma lib trk))
           (tablePIDTOFMass o)
    else o in
  if enableTableMass s then
    if enableTOFParamsForBetaMass s then
      mkBetaTables (tablePIDBeta o)
        (append (tablePIDTOFMass o) trk
           (GetTOFMassOfMomentum lib
              (F32.div (tofExpMom trk)
                 (F32.add F32.one
                    (F32.mul (F32.of_Z (sign trk))
                       (getMomentumChargeShift lib (mRespParamsV3 s)
                          (eta trk)))))
              beta))
    else
      mkBetaTables (tablePIDBeta o)
        (append (tablePIDTOFMass o) trk (GetTOFMassOfTrack lib trk beta))
  else o.

(** [processRun3BetaM] (and [processRun2BetaM], which has the same
    body). *)
Definition processRun3BetaM (lib : PidLib) (s : t) (tracks : list Track)
    : BetaTables :=
  if negb (enableTableBeta s) && negb (enableTableMass s) then noBetaTables
  else fold_left (trackBetaM lib s) tracks noBetaTables.

(** [processRun2] and [processRun2BetaM]: the bodies of their Run 3
    counterparts on the Run 2 track table. *)
Definition processRun2 (env : Env) (lib : PidLib) (s : t) (bc : BC)
    (tracks : list Track) : M (t * Tables) :=
  processRun3 env lib s bc tracks.

Definition processRun2BetaM (lib : PidLib) (s : t) (tracks : list Track)
    : BetaTables :=
  if negb (enableTableBeta s) && negb (enableTableMass s) then noBetaTables
  else fold_left (trackBetaM lib s) tracks noBetaTables.

(** The four [PROCESS_SWITCH]es of the task. *)
Record ProcessSwitches : Type := mkProcessSwitches {
  doprocessRun2 : bool;
  doprocessRun3 : bool;
  doprocessRun2BetaM : bool;
  doprocessRun3BetaM : bool
}.

(** The members of the task set by [init]. *)
Record Task : Type := mkTask {
  state : t;
  switches : ProcessSwitches;
  histos : list string
}.

(** The flag of species [i] after [enableFlagIfTableRequired]:
    [enableParticle] is the configurable array, [prefix] the start of the
    table name and [column] the label of the column. *)
Definition flagOf (ctx : InitContext) (particleNames : Z -> string)
    (enableParticle : string -> string -> Z) (prefix column : string)
    (i : Z) : Z :=
  enableFlagIfTableRequired ctx (prefix ++ particleNames i)%string
    (enableParticle (particleNames i) column).

(** The part of [init] that settles [doprocessRun2] and [doprocessRun3]
    once the two lists of species are known. *)
Definition settleNsigma (env : Env) (md : MetadataInfo) (c : TOFCalibConfig.t)
    (particles particlesFull : list Z) (sw : ProcessSwitches)
    : M ProcessSwitches :=
  if (Z.of_nat (List.length particlesFull) =? 0)
     && (Z.of_nat (List.length particles) =? 0)
  then ret (mkProcessSwitches false false
              (doprocessRun2BetaM sw) (doprocessRun3BetaM sw))
  else
    let sw :=
      if TOFCalibConfig.autoSetProcessFunctions c then
        if isFullyDefined md then
          if isRun3 env
          then mkProcessSwitches false true
                 (doprocessRun2BetaM sw) (doprocessRun3BetaM sw)
          else mkProcessSwitches true false
                 (doprocessRun2BetaM sw) (doprocessRun3BetaM sw)
        else sw
      else sw in
    if doprocessRun2 sw && doprocessRun3 sw then
      fatal "Both processRun2 and processRun3 are enabled. Pick one of the two"
    else if negb (doprocessRun2 sw) && negb (doprocessRun3 sw) then
      fatal "Neither processRun2 nor processRun3 are enabled. Pick one of the two"
    else ret sw.

(** The part of [init] that settles [doprocessRun2BetaM] and
    [doprocessRun3BetaM] once the two tables are known to be required or
    not. *)
Definition settleBetaM (env : Env) (md : MetadataInfo) (c : TOFCalibConfig.t)
    (beta mass : bool) (sw : ProcessSwitches) : M ProcessSwitches :=
  if negb beta && negb mass
  then ret (mkProcessSwitches (doprocessRun2 sw) (doprocessRun3 sw)
              false false)
  else
    (sw <- (if TOFCalibConfig.autoSetProcessFunctions c then
              if isInitialized md then
                if isRun3 env
                then ret (mkProcessSwitches (doprocessRun2 sw)
                            (doprocessRun3 sw) false true)
                else ret (mkProcessSwitches (doprocessRun2 sw)
                            (doprocessRun3 sw) true false)
              else
                warning "Metadata is not defined, cannot autodetect process functions for mass and beta" ;;;
                ret sw
            else ret sw) ;;
     if doprocessRun2BetaM sw && doprocessRun3BetaM sw then
       fatal "Both processRun2BetaM and processRun3BetaM are enabled. Pick one of the two"
     else if negb (doprocessRun2BetaM sw) && negb (doprocessRun3BetaM sw) then
       fatal "Neither processRun2BetaM nor processRun3BetaM are enabled. Pick one of the two"
     else ret sw)%M.

(** [init]: [particleNames] is the array of pidTOFBase.h, [sw] the
    process switches as the workflow configuration sets them, [p] the
    response parameters before the call. *)
Definition init (env : Env) (md : MetadataInfo) (ctx : InitContext)
    (particleNames : Z -> string) (enableParticle : string -> string -> Z)
    (enableQaHistograms enableTOFParamsForBetaMass : bool)
    (sw : ProcessSwitches) (p : TOFResoParamsV3) : M Task :=
  (c <- TOFCalibConfig.inheritFromBaseTask (baseTaskOptions ctx) ;;
   let particles :=
     enabledIndices (flagOf ctx particleNames enableParticle "pidTOF" "Enable") in
   let particlesFull :=
     enabledIndices
       (flagOf ctx particleNames enableParticle "pidTOFFull" "EnableFull") in
   sw <- settleNsigma env md c particles particlesFull sw ;;
   cp <- TOFCalibConfig.initSetup env c p ;;
   let hs :=
     if negb enableQaHistograms then []
     else map (fun i => ("nsigma/" ++ particleNames i)%string) particles
          ++ map (fun i => ("nsigmaFull/" ++ particleNames i)%string)
               particlesFull in
   let beta := isTableRequiredInWorkflow ctx "pidTOFbeta" in
   let mass := isTableRequiredInWorkflow ctx "pidTOFmass" in
   sw <- settleBetaM env md (fst cp) beta mass sw ;;
   ret (mkTask (mk (snd cp) (fst cp) particles particlesFull beta mass
                  enableTOFParamsForBetaMass)
          sw hs))%M.

End tofPidMerge.

(** ** Fixtures: concrete inputs on which the model is run *)

Module Fixtures.

Definition pars1 : Pars := [("TrkRes.Pi.P0", F32.of_Z 80)].
Definition pars2 : Pars := [("TrkRes.Pi.P0", F32.of_Z 60)].

(** The names that the help text of the option [collisionSystem] gives
    the collision systems: 0 (pp), 1 (PbPb), 2 (XeXe), 3 (pPb). *)
Definition systemName (sys : Z) : string :=
  if sys =? 0 then "pp"
  else if sys =? 1 then "PbPb"
  else if sys =? 2 then "XeXe"
  else if sys =? 3 then "pPb"
  else "Undefined".

(** A store whose collection has the passes [unanchored] and [apass4],
    with PbPb beams, Run 3 data. *)
Definition env : Env :=
  mkEnv false true (fun _ => "apass4")
        (fun _ _ => [("unanchored", pars1); ("apass4", pars2)])
        (fun _ _ => kCollSysPbPb)
        (fun _ _ _ => None)
        (fun _ _ => [("unanchored", pars1)])
        (fun _ => None)
        systemName.

Definition world0 : World := mkWorld [] [].

Definition bc1 : BC := mkBC 544122 1700000000000.
Definition bc1' : BC := mkBC 544122 1700000000999.

(** Time-dependent response, pass [apass9] (not in the collection),
    not fatal when the pass is missing. *)
Definition optFallback : TOFCalibConfig.Options :=
  TOFCalibConfig.mkOptions "http://alice-ccdb.cern.ch" "GLO/Config/GRPLHCIF"
    (-1) "" "" "" "" "" "TOF/Calib/Params" "apass9" "unanchored"
    false true (-1) true.

Definition calibFallback : TOFCalibConfig.t := TOFCalibConfig.init optFallback.

(** The state after the first [processSetup] on [calibFallback]. *)
Definition setup1 : Result (TOFCalibConfig.t * TOFResoParamsV3 * World) :=
  Eval vm_compute in
    TOFCalibConfig.processSetup env calibFallback defaultParams bc1 world0.
Definition calib1 : TOFCalibConfig.t :=
  Eval vm_compute in
    match setup1 with Ok (c, _, _) => c | Fatal _ => calibFallback end.
Definition params1 : TOFResoParamsV3 :=
  Eval vm_compute in
    match setup1 with Ok (_, p, _) => p | Fatal _ => defaultParams end.
Definition world1 : World :=
  Eval vm_compute in
    match setup1 with Ok (_, _, w) => w | Fatal _ => world0 end.

(** The default options: empty pass, fatal when the pass is missing. *)
Definition calibDefault : TOFCalibConfig.t :=
  TOFCalibConfig.init TOFCalibConfig.defaultOptions.

(** An event-time maker that reports the estimate 100 +- 50 ps from four
    tracks and whose [removeBias] returns that estimate for every track. *)
Definition evLib : EvTimeLib :=
  mkEvTimeLib unit
    (fun _ _ _ _ => tt)
    (fun _ => F64.of_float (F32.of_Z 100))
    (fun _ => F64.of_float (F32.of_Z 50))
    (fun _ => 4)
    (fun _ _ _ n _ _ _ => (n + 1, F32.of_Z 100, F32.of_Z 50)).

(** The same with an estimate that fails the validity test: 0 +- 500 ps. *)
Definition evLibWide : EvTimeLib :=
  mkEvTimeLib unit
    (fun _ _ _ _ => tt)
    (fun _ => F64.of_float (F32.of_Z 0))
    (fun _ => F64.of_float (F32.of_Z 500))
    (fun _ => 0)
    (fun _ _ _ n _ _ _ => (n + 1, F32.zero, F32.of_Z 500)).

Definition track (idx cid : Z) (tof : bool) : Track :=
  mkTrack idx cid tof true true TrackTypeEnum_TrackIU 1
          (F32.of_Z 1) F32.zero (F32.of_Z 1) (F32.of_Z 20000) (F32.of_Z 100).

(** Collision 0 has a valid FT0 time of 0.1 ns with resolution 0.025 ns
    (stored in ns, hence 100 and 25 ps); collision 1 has a found but
    invalid FT0; collision 2 has a valid FT0 with equal A and C times, so
    a resolution of 0; the others have no FT0. *)
Definition lit_0_1f : float := S754_finite false 13421773 (-27).
Definition lit_0_025f : float := S754_finite false 13421773 (-29).
Definition cols : Collisions :=
  fun id =>
    if id =? 0 then mkCollision true true true lit_0_1f lit_0_025f F32.zero F32.zero
    else if id =? 1 then mkCollision true true false F32.zero F32.zero F32.zero F32.zero
    else if id =? 2 then mkCollision true true true lit_0_1f F32.zero F32.zero F32.zero
    else mkCollision true false false F32.zero F32.zero F32.zero F32.zero.

Definition evTask (withTOF withFT0 : Z) : tofEventTime.t :=
  tofEventTime.mk true true defaultParams calibDefault
    (F32.of_Z 0) (F32.of_Z 2) (F32.of_Z 100000) false withTOF withFT0.

(** Five tracks: two of collision 0, one without collision, two of
    collision 3. *)
Definition tracks5 : list Track :=
  [track 0 0 true; track 1 0 true; track 2 (-1) true;
   track 3 3 true; track 4 3 false].

(** The task and the record of accesses after [processRun3] on
    [evTask (-1) (-1)] (PbPb: TOF only). *)
Definition evTaskAuto : tofEventTime.t :=
  Eval vm_compute in
    match tofEventTime.processRun3 env evLib (evTask (-1) (-1)) cols bc1
            tracks5 world0 with
    | Ok (s, _, _) => s
    | Fatal _ => evTask (-1) (-1)
    end.
Definition worldAuto : World :=
  Eval vm_compute in
    match tofEventTime.processRun3 env evLib (evTask (-1) (-1)) cols bc1
            tracks5 world0 with
    | Ok (_, _, w) => w
    | Fatal _ => world0
    end.

(** A response with expected time 19800 ps and resolution 80 ps for every
    species; the packing keeps the sign of its argument. *)
Definition pidLib : PidLib :=
  mkPidLib (fun _ _ _ => F32.of_Z 19800) (fun _ _ _ => F32.of_Z 80)
           (fun x => if F32.ltb x F32.zero then -1 else 1)
           (fun _ => F32.one) (fun _ => F32.one)
           (fun _ _ => F32.one) (fun _ _ => F32.one) (fun _ _ => F32.zero).

Definition pidTask (f g : Z -> Z) : tofPidMerge.t :=
  tofPidMerge.mk defaultParams calibDefault
    (tofPidMerge.enabledIndices f) (tofPidMerge.enabledIndices g)
    true true false.

(** Pions in the tiny tables, pions and kaons in the full tables. *)
Definition flagsTiny (i : Z) : Z := if i =? kIdxPi then 1 else 0.
Definition flagsFull (i : Z) : Z :=
  if (i =? kIdxPi) || (i =? kIdxKa) then 1 else 0.

(** The variables of a collision before its first track. *)
Definition start : tofEventTime.PerCollision :=
  tofEventTime.mkPerCollision 0 (F32.zero, F32.zero) (F32.zero, lit_999f)
    tofEventTime.noTables.
Definition startTOF : tofEventTime.PerCollisionTOF :=
  tofEventTime.mkPerCollisionTOF 0 F32.zero F32.zero tofEventTime.noTables.

(** A track without a collision. *)
Definition orphan : Track := track 2 (-1) true.

(** 1.25 = 5 * 2^-2 = 10485760 * 2^-23 *)
Definition lit_1_25f : float := S754_finite false 10485760 (-23).

(** *** Fixtures of the [init] functions *)

(** Fully defined metadata; a workflow that requires every table; a flag
    left at -1 is switched on for a required table. *)
Definition md : MetadataInfo := mkMetadataInfo true true.

(** The options of the signal task with the pass taken from the
    metadata ([apass4] in [env]). *)
Definition optMetadata : TOFCalibConfig.Options :=
  TOFCalibConfig.mkOptions "http://alice-ccdb.cern.ch" "GLO/Config/GRPLHCIF"
    (-1) "" "" "" "" "" "TOF/Calib/Params" "metadata" "unanchored"
    true false (-1) true.

Definition ctx : InitContext :=
  mkInitContext (fun _ => true)
    (fun _ flag => if flag <? 0 then 1 else flag)
    (Some optMetadata).

(** The same store as [env] read with Run 2 metadata. *)
Definition envRun2 : Env :=
  mkEnv false false (fun _ => "apass4")
        (fun _ _ => [("unanchored", pars1); ("apass4", pars2)])
        (fun _ _ => kCollSysPbPb)
        (fun _ _ _ => None)
        (fun _ _ => [("unanchored", pars1)])
        (fun _ => None)
        systemName.

Definition switchesOff : Switches := mkSwitches false false.
Definition switchesOn : Switches := mkSwitches true true.

Definition particleNames (i : Z) : string :=
  nth (Z.to_nat i) ["El"; "Mu"; "Pi"; "Ka"; "Pr"; "De"; "Tr"; "He"; "Al"] "".

(** The default of [enableParticle]: -1 everywhere. *)
Definition enableParticle (_ _ : string) : Z := -1.

Definition pidSwitchesOff : tofPidMerge.ProcessSwitches :=
  tofPidMerge.mkProcessSwitches false false false false.

(** The signal task after [init]. *)
Definition signalInit : Result (tofSignal.Task * World) :=
  Eval vm_compute in
    tofSignal.init env md ctx optMetadata false switchesOff defaultParams world0.
Definition signalTask : tofSignal.Task :=
  Eval vm_compute in
    match signalInit with
    | Ok (t, _) => t
    | Fatal _ =>
        tofSignal.mkTask (tofSignal.mk false false) switchesOff calibDefault
          defaultParams []
    end.
Definition signalWorld : World :=
  Eval vm_compute in
    match signalInit with Ok (_, w) => w | Fatal _ => world0 end.

(** The event-time task after [init], with the momentum window
    0.5 < p < 2 and sets of at most 10 tracks. *)
Definition lit_0_5f : float := S754_finite false 8388608 (-24).
Definition evInit : Result (tofEventTime.Task * World) :=
  Eval vm_compute in
    tofEventTime.init env md ctx (evTask (-1) (-1)) lit_0_5f (F32.of_Z 2) 10
      switchesOff world0.
Definition evInitTask : tofEventTime.Task :=
  Eval vm_compute in
    match evInit with
    | Ok (t, _) => t
    | Fatal _ => tofEventTime.mkTask (evTask (-1) (-1)) switchesOff None
    end.
Definition evInitWorld : World :=
  Eval vm_compute in
    match evInit with Ok (_, w) => w | Fatal _ => world0 end.

(** The response task after [init] and the calibration set-up of its
    first call. *)
Definition pidInit : Result (tofPidMerge.Task * World) :=
  Eval vm_compute in
    tofPidMerge.init env md ctx particleNames enableParticle false false
      pidSwitchesOff defaultParams world0.
Definition pidInitTask : tofPidMerge.Task :=
  Eval vm_compute in
    match pidInit with
    | Ok (t, _) => t
    | Fatal _ =>
        tofPidMerge.mkTask (pidTask flagsTiny flagsFull) pidSwitchesOff []
    end.
Definition pidInitWorld : World :=
  Eval vm_compute in
    match pidInit with Ok (_, w) => w | Fatal _ => world0 end.
Definition pidSetup : Result (TOFCalibConfig.t * TOFResoParamsV3 * World) :=
  Eval vm_compute in
    TOFCalibConfig.processSetup env
      (tofPidMerge.mTOFCalibConfig (tofPidMerge.state pidInitTask))
      (tofPidMerge.mRespParamsV3 (tofPidMerge.state pidInitTask))
      bc1 pidInitWorld.
Definition pidCalib : TOFCalibConfig.t :=
  Eval vm_compute in
    match pidSetup with Ok (c, _, _) => c | Fatal _ => calibDefault end.
Definition pidParams : TOFResoParamsV3 :=
  Eval vm_compute in
    match pidSetup with Ok (_, p, _) => p | Fatal _ => defaultParams end.
Definition pidWorld : World :=
  Eval vm_compute in
    match pidSetup with Ok (_, _, w) => w | Fatal _ => world0 end.

(** A workflow that requires no table, in which the signal task runs
    with its default options; a flag left at -1 is switched off. *)
Definition ctxIdle : InitContext :=
  mkInitContext (fun _ => false)
    (fun _ flag => if flag <? 0 then 0 else flag)
    (Some TOFCalibConfig.defaultOptions).

(** A workflow that requires the table [EvTimeTOFOnly] and no other,
    and the event-time task after [init] in that workflow. *)
Definition ctxTOFOnly : InitContext :=
  mkInitContext (fun table => String.eqb table "EvTimeTOFOnly")
    (fun _ flag => if flag <? 0 then 0 else flag)
    (Some optMetadata).
Definition evInitTOFOnly : Result (tofEventTime.Task * World) :=
  Eval vm_compute in
    tofEventTime.init env md ctxTOFOnly (evTask (-1) (-1)) lit_0_5f
      (F32.of_Z 2) 10 switchesOff world0.
Definition evTaskTOFOnly : tofEventTime.t :=
  Eval vm_compute in
    match evInitTOFOnly with
    | Ok (t, _) => tofEventTime.state t
    | Fatal _ => evTask (-1) (-1)
    end.
Definition evWorldTOFOnly : World :=
  Eval vm_compute in
    match evInitTOFOnly with Ok (_, w) => w | Fatal _ => world0 end.

(** The TOF-only task with a cutoff that is not a number. *)
Definition evTaskNaN : tofEventTime.t :=
  tofEventTime.mk true true defaultParams calibDefault
    (F32.of_Z 0) (F32.of_Z 2) S754_nan false 1 0.

(** A collision whose FT0 is found and valid with a resolution of 1 ns,
    1000 ps: its weight 1e-6 is below [kWeightDiamond]. *)
Definition colCoarse : Collision :=
  mkCollision true true true lit_0_1f F32.one F32.zero F32.zero.

(** *** Fixtures of the calibration set-up *)

(** The state after [processSetup] on the default options. *)
Definition setupDefault : Result (TOFCalibConfig.t * TOFResoParamsV3 * World) :=
  Eval vm_compute in
    TOFCalibConfig.processSetup env calibDefault defaultParams bc1 world0.
Definition calibPbPb : TOFCalibConfig.t :=
  Eval vm_compute in
    match setupDefault with Ok (c, _, _) => c | Fatal _ => calibDefault end.
Definition worldPbPb : World :=
  Eval vm_compute in
    match setupDefault with Ok (_, _, w) => w | Fatal _ => world0 end.

(** The store of [env] with XeXe beams, and the configuration after
    [processSetup] on the default options there. *)
Definition envXeXe : Env :=
  mkEnv false true (fun _ => "apass4")
        (fun _ _ => [("unanchored", pars1); ("apass4", pars2)])
        (fun _ _ => 2)
        (fun _ _ _ => None)
        (fun _ _ => [("unanchored", pars1)])
        (fun _ => None)
        systemName.
Definition calibXeXe : TOFCalibConfig.t :=
  Eval vm_compute in
    match TOFCalibConfig.processSetup envXeXe calibDefault defaultParams bc1
            world0 with
    | Ok (c, _, _) => c
    | Fatal _ => calibDefault
    end.

(** Time-dependent response, pass [unanchored], the parametrization
    from the file [params.root] and the time shift of positive tracks
    from the file [shift.root]. *)
Definition optFile : TOFCalibConfig.Options :=
  TOFCalibConfig.mkOptions "http://alice-ccdb.cern.ch" "GLO/Config/GRPLHCIF"
    (-1) "shift.root" "" "" "" "params.root" "TOF/Calib/Params" "unanchored"
    "unanchored" true true (-1) true.

(** A store whose file [shift.root] holds a one-point time shift. *)
Definition shift1 : TGraph := [(F64.one, F64.one)].
Definition envFile : Env :=
  mkEnv false true (fun _ => "apass4")
        (fun _ _ => [("unanchored", pars1); ("apass4", pars2)])
        (fun _ _ => kCollSysPbPb)
        (fun _ _ _ => None)
        (fun _ _ => [("unanchored", pars1)])
        (fun _ => Some shift1)
        systemName.

Definition fileInit : Result (TOFCalibConfig.t * TOFResoParamsV3 * World) :=
  Eval vm_compute in
    TOFCalibConfig.initSetup envFile (TOFCalibConfig.init optFile)
      defaultParams world0.
Definition fileCalib : TOFCalibConfig.t :=
  Eval vm_compute in
    match fileInit with Ok (c, _, _) => c | Fatal _ => calibDefault end.
Definition fileParams : TOFResoParamsV3 :=
  Eval vm_compute in
    match fileInit with Ok (_, p, _) => p | Fatal _ => defaultParams end.
Definition fileWorld : World :=
  Eval vm_compute in
    match fileInit with Ok (_, _, w) => w | Fatal _ => world0 end.
Definition fileSetup : Result (TOFCalibConfig.t * TOFResoParamsV3 * World) :=
  Eval vm_compute in
    TOFCalibConfig.processSetup envFile fileCalib fileParams bc1 fileWorld.
Definition fileCalib2 : TOFCalibConfig.t :=
  Eval vm_compute in
    match fileSetup with Ok (c, _, _) => c | Fatal _ => calibDefault end.
Definition fileParams2 : TOFResoParamsV3 :=
  Eval vm_compute in
    match fileSetup with Ok (_, p, _) => p | Fatal _ => defaultParams end.
Definition fileWorld2 : World :=
  Eval vm_compute in
    match fileSetup with Ok (_, _, w) => w | Fatal _ => world0 end.

End Fixtures.

(** ** Vocabulary of the statements *)

(** The tracks of a collision are contiguous in the table: between two
    tracks of the same collision there are only tracks of that
    collision. *)
Definition grouped (tracks : list Track) : Prop :=
  forall l1 a l2 b l3,
    tracks = l1 ++ a :: l2 ++ b :: l3 ->
    has_collision a = true ->
    collisionId b = collisionId a ->
    forall x, In x l2 -> collisionId x = collisionId a.

(** The event-time tables hold one row for each track of [idx], in that
    order ([tableEvTimeTOFOnly] only when it is enabled). *)
Definition oneRowPerTrack (s : tofEventTime.t) (o : tofEventTime.Tables)
    (idx : list Z) : Prop :=
  tracksOf (tofEventTime.tableEvTime o) = idx
  /\ tracksOf (tofEventTime.tableFlags o) = idx
  /\ tracksOf (tofEventTime.tableEvTimeTOFOnly o)
     = if tofEventTime.enableTableEvTimeTOFOnly s then idx else [].

(** The tracks of [suf] whose rows a TOF loop has appended ahead of
    reaching them: the selected tracks of the collision [last] being
    cached. *)
Definition pending (s : tofEventTime.t) (cols : Collisions) (last : Z)
    (suf : list Track) : list Track :=
  filter (fun t => (collisionId t =? last)
                   && negb (tofEventTime.skipped s cols t)) suf.

(** The accesses to the store, by kind. *)
Definition isGrpFetch (f : Fetch) : bool :=
  match f with FetchGrpLhcIf _ _ => true | _ => false end.
Definition isParameterFetch (f : Fetch) : bool :=
  match f with FetchParameterCollection _ _ => true | _ => false end.
Definition isTimeShiftFetch (f : Fetch) : bool :=
  match f with FetchTimeShift _ _ _ => true | _ => false end.

Definition isCcdbFetch (f : Fetch) : bool :=
  match f with
  | LoadParamFile _ _ | LoadTimeShiftFile _ => false
  | _ => true
  end.

(** Every row of [l] is tagged with a track of the table; it is
    [sentinel] when that track is skipped by the two TOF loops and
    satisfies [good] when it is not. *)
Definition rowsAccounted (s : tofEventTime.t) (cols : Collisions)
    (tracks : list Track) (A : Type) (sentinel : A) (good : A -> Prop)
    (l : Table A) : Prop :=
  forall idx row,
    In (idx, row) l ->
    exists t, In t tracks /\ globalIndex t = idx
              /\ (tofEventTime.skipped s cols t = true -> row = sentinel)
              /\ (tofEventTime.skipped s cols t = false -> good row).

(** * Properties *)

(** ** Generic facts on tables and loops *)

Lemma tracksOf_append :
  forall (A : Type) (tb : Table A) (trk : Track) (row : A),
    tracksOf (append tb trk row) = tracksOf tb ++ [globalIndex trk].
Proof.
  intros; unfold tracksOf, append; now rewrite map_app.
Qed.

(** ** Part 1: the flag of the signal task *)

Lemma tofSignal_processRun3_fold :
  forall getTOFSignal tracks o,
    fold_left (tofSignal.trackRun3 getTOFSignal (tofSignal.mk true true))
      tracks o
    = tofSignal.mkTables
        (tofSignal.table o
         ++ map (fun trk => (globalIndex trk, getTOFSignal trk)) tracks)
        (tofSignal.tableFlags o
         ++ map (fun trk => (globalIndex trk, hasTOF trk)) tracks).
Proof.
  intros g tracks; induction tracks as [|trk l IH]; intros o; simpl.
  - destruct o; simpl; now rewrite !app_nil_r.
  - rewrite IH; unfold tofSignal.trackRun3; simpl.
    unfold append, isTrackGoodMatchForTOFPID.
    rewrite <- !app_assoc; simpl.
    destruct (hasTOF trk); reflexivity.
Qed.

Lemma tofSignal_processRun2_fold :
  forall getTOFSignal tracks o,
    fold_left (tofSignal.trackRun2 getTOFSignal (tofSignal.mk true true))
      tracks o
    = tofSignal.mkTables
        (tofSignal.table o
         ++ map (fun trk => (globalIndex trk, getTOFSignal trk)) tracks)
        (tofSignal.tableFlags o
         ++ map (fun trk => (globalIndex trk, true)) tracks).
Proof.
  intros g tracks; induction tracks as [|trk l IH]; intros o; simpl.
  - destruct o; simpl; now rewrite !app_nil_r.
  - rewrite IH; unfold tofSignal.trackRun2; simpl; unfold append.
    rewrite <- !app_assoc; reflexivity.
Qed.

(** C9 (as amended).  With both tables of the signal task enabled, the
    Run 3 path stores for every track, in track order, the flag
    [hasTOF]; the Run 2 path stores [true] for every track, whether or
    not it has a TOF hit. *)
Theorem C9_usable_flag_by_path :
  forall (getTOFSignal : Track -> float) (tracks : list Track),
    tofSignal.tableFlags
      (tofSignal.processRun3 getTOFSignal (tofSignal.mk true true) tracks)
    = map (fun trk => (globalIndex trk, hasTOF trk)) tracks
    /\ tofSignal.tableFlags
         (tofSignal.processRun2 getTOFSignal (tofSignal.mk true true) tracks)
       = map (fun trk => (globalIndex trk, true)) tracks.
Proof.
  intros g tracks; split.
  - unfold tofSignal.processRun3; simpl.
    rewrite tofSignal_processRun3_fold; reflexivity.
  - unfold tofSignal.processRun2; simpl.
    rewrite tofSignal_processRun2_fold; reflexivity.
Qed.

(** C9 as stated fails on the Run 2 path: a track without a TOF hit gets
    the flag [true]. *)
Lemma C9_run2_flag_without_TOF :
  hasTOF (Fixtures.track 0 0 false) = false
  /\ rowsOf (tofSignal.tableFlags
               (tofSignal.processRun2 tofSignal (tofSignal.mk true true)
                  [Fixtures.track 0 0 false]))
     = [true].
Proof. split; reflexivity. Qed.

(** ** The calibration set-up *)

Section CalibSetup.

Variable env : Env.

Lemma updateTimeShiftProcess_ok :
  forall c p name pos w,
  exists p' w',
    TOFCalibConfig.updateTimeShiftProcess env c p name pos w = Ok (p', w')
    /\ retrieved p' = retrieved p
    /\ resolutionParametrization p' = resolutionParametrization p
    /\ resolutionIsRun2 p' = resolutionIsRun2 p
    /\ momentumChargeShift p' = momentumChargeShift p
    /\ warnings w' = warnings w.
Proof.
  intros c p name pos w; unfold TOFCalibConfig.updateTimeShiftProcess.
  destruct (TOFCalibConfig.isEmpty name).
  { exists p, w; repeat split; reflexivity. }
  destruct (TOFCalibConfig.isFromFile name).
  { exists p, w; repeat split; reflexivity. }
  unfold bind, fetch, ret; simpl.
  eexists; eexists; split; [reflexivity|].
  unfold setTimeShiftParameters; destruct pos; simpl; repeat split; reflexivity.
Qed.

Lemma updateTimeShiftInit_ok :
  forall c p name pos w,
  exists p' w',
    TOFCalibConfig.updateTimeShiftInit env c p name pos w = Ok (p', w')
    /\ retrieved p' = retrieved p
    /\ resolutionParametrization p' = resolutionParametrization p
    /\ resolutionIsRun2 p' = resolutionIsRun2 p
    /\ momentumChargeShift p' = momentumChargeShift p
    /\ warnings w' = warnings w.
Proof.
  intros c p name pos w; unfold TOFCalibConfig.updateTimeShiftInit.
  destruct (TOFCalibConfig.isEmpty name).
  { exists p, w; repeat split; reflexivity. }
  destruct (TOFCalibConfig.isFromFile name).
  { unfold bind, fetch, ret; simpl.
    eexists; eexists; split; [reflexivity|].
    unfold setTimeShiftParameters; destruct pos; simpl; repeat split; reflexivity. }
  destruct (negb (TOFCalibConfig.mEnableTimeDependentResponse c)).
  { unfold bind, fetch, ret; simpl.
    eexists; eexists; split; [reflexivity|].
    unfold setTimeShiftParameters; destruct pos; simpl; repeat split; reflexivity. }
  exists p, w; repeat split; reflexivity.
Qed.

(** The run number recorded by a successful [processSetup] is the one of
    the bunch crossing it was called with. *)
Lemma processSetup_records_run :
  forall c p bc w c1 p1 w1,
    TOFCalibConfig.processSetup env c p bc w = Ok ((c1, p1), w1) ->
    TOFCalibConfig.mLastRunNumber c1 = runNumber bc.
Proof.
  intros c p bc w c1 p1 w1; unfold TOFCalibConfig.processSetup.
  destruct (TOFCalibConfig.mLastRunNumber c =? runNumber bc) eqn:E.
  - unfold ret; intros H; inversion H; subst. now apply Z.eqb_eq.
  - set (c0 := TOFCalibConfig.set_mTimestamp _ _).
    assert (L0 : TOFCalibConfig.mLastRunNumber c0 = runNumber bc) by reflexivity.
    unfold bind at 1.
    destruct (TOFCalibConfig.mCollisionSystem c0 =? -1).
    + unfold bind at 1; unfold fetch, ret at 1; simpl.
      match goal with
      | |- (if ?b then _ else _) _ = _ -> _ => destruct b
      end.
      * unfold ret; intros H; inversion H; subst; exact L0.
      * unfold bind.
        repeat match goal with
        | |- context [match ?m with Ok _ => _ | Fatal _ => _ end] =>
            destruct m as [[? ?]|?]; try discriminate
        end.
        unfold ret; intros H; inversion H; subst; exact L0.
    + unfold ret at 1.
      match goal with
      | |- (if ?b then _ else _) _ = _ -> _ => destruct b
      end.
      * unfold ret; intros H; inversion H; subst; exact L0.
      * unfold bind.
        repeat match goal with
        | |- context [match ?m with Ok _ => _ | Fatal _ => _ end] =>
            destruct m as [[? ?]|?]; try discriminate
        end.
        unfold ret; intros H; inversion H; subst; exact L0.
Qed.

(** C7.  After a successful [processSetup] for a bunch crossing, a second
    call for a bunch crossing of the same run returns at once: the
    configuration, the parameter bundle and the record of accesses to the
    store (no new fetch, no new message) are unchanged. *)
Theorem C7_processSetup_same_run_noop :
  forall c p bc w c1 p1 w1 bc',
    TOFCalibConfig.processSetup env c p bc w = Ok ((c1, p1), w1) ->
    runNumber bc' = runNumber bc ->
    TOFCalibConfig.processSetup env c1 p1 bc' w1 = Ok ((c1, p1), w1).
Proof.
  intros c p bc w c1 p1 w1 bc' H Hrun.
  apply processSetup_records_run in H.
  unfold TOFCalibConfig.processSetup.
  rewrite H, Hrun, Z.eqb_refl; reflexivity.
Qed.

End CalibSetup.

Lemma C7_witness :
  TOFCalibConfig.processSetup Fixtures.env Fixtures.calibFallback
    defaultParams Fixtures.bc1 Fixtures.world0
  = Ok ((Fixtures.calib1, Fixtures.params1), Fixtures.world1)
  /\ runNumber Fixtures.bc1' = runNumber Fixtures.bc1
  /\ TOFCalibConfig.processSetup Fixtures.env Fixtures.calib1
       Fixtures.params1 Fixtures.bc1' Fixtures.world1
     = Ok ((Fixtures.calib1, Fixtures.params1), Fixtures.world1).
Proof.
  split; [vm_compute; reflexivity|].
  split; [reflexivity|].
  apply (C7_processSetup_same_run_noop Fixtures.env
           Fixtures.calibFallback defaultParams Fixtures.bc1 Fixtures.world0).
  - vm_compute; reflexivity.
  - reflexivity.
Defined.

(** ** The reconstruction pass missing from the calibration object *)

Section MissingPass.

Variable env : Env.

(** The three outcomes of the look-up cascade when the requested pass is
    not in the collection. *)
Lemma loadParametrization_missing :
  forall origin pc c p w,
    getPars pc (TOFCalibConfig.mReconstructionPass c) = None ->
    (TOFCalibConfig.mFatalOnPassNotAvailable c = true ->
     TOFCalibConfig.loadParametrization env origin pc c p w
     = Fatal (TOFCalibConfig.msgNotAvailable
                (TOFCalibConfig.mReconstructionPass c) origin))
    /\ (TOFCalibConfig.mFatalOnPassNotAvailable c = false ->
        getPars pc (TOFCalibConfig.mReconstructionPassDefault c) = None ->
        TOFCalibConfig.loadParametrization env origin pc c p w
        = Fatal ("Cannot get default pass for calibration "
                 ++ TOFCalibConfig.mReconstructionPassDefault c)%string)
    /\ (forall v,
        TOFCalibConfig.mFatalOnPassNotAvailable c = false ->
        getPars pc (TOFCalibConfig.mReconstructionPassDefault c) = Some v ->
        TOFCalibConfig.loadParametrization env origin pc c p w
        = Ok (TOFCalibConfig.setParametrization env (setRetrieved p v) v,
              mkWorld (fetches w)
                (warnings w
                 ++ [(TOFCalibConfig.msgNotAvailable
                        (TOFCalibConfig.mReconstructionPass c) origin
                      ++ ", fetching '"
                      ++ TOFCalibConfig.mReconstructionPassDefault c
                      ++ "'")%string]))).
Proof.
  intros origin pc c p w Hmiss.
  unfold TOFCalibConfig.loadParametrization, retrieveParameters.
  rewrite Hmiss; simpl.
  split; [|split].
  - intros ->; reflexivity.
  - intros -> Hd; unfold bind, warning; simpl; rewrite Hd; reflexivity.
  - intros v -> Hd; unfold bind, warning; simpl; rewrite Hd; simpl.
    unfold TOFCalibConfig.parsOf; rewrite Hd; reflexivity.
Qed.

Lemma setParametrization_fields :
  forall p v,
    resolutionParametrization (TOFCalibConfig.setParametrization env p v) = v
    /\ momentumChargeShift (TOFCalibConfig.setParametrization env p v) = v
    /\ retrieved (TOFCalibConfig.setParametrization env p v) = retrieved p.
Proof.
  intros p v; unfold TOFCalibConfig.setParametrization.
  destruct (isRun3 env); simpl; repeat split; reflexivity.
Qed.

(** What follows the cascade in both set-up functions neither aborts nor
    touches the parametrization. *)
Lemma timeShifts_process_ok :
  forall c p w,
  exists p' w',
    bind (TOFCalibConfig.updateTimeShiftProcess env c p
            (TOFCalibConfig.nameShiftPos env c) true)
         (fun p =>
            bind (TOFCalibConfig.updateTimeShiftProcess env c p
                    (TOFCalibConfig.nameShiftNeg env c) false)
                 (fun p => ret (c, p))) w
    = Ok ((c, p'), w')
    /\ retrieved p' = retrieved p
    /\ resolutionParametrization p' = resolutionParametrization p
    /\ momentumChargeShift p' = momentumChargeShift p
    /\ warnings w' = warnings w.
Proof.
  intros c p w; unfold bind.
  destruct (updateTimeShiftProcess_ok env c p
              (TOFCalibConfig.nameShiftPos env c) true w)
    as (pa & wa & Ea & R1 & R2 & _ & R4 & R5).
  rewrite Ea.
  destruct (updateTimeShiftProcess_ok env c pa
              (TOFCalibConfig.nameShiftNeg env c) false wa)
    as (pb & wb & Eb & S1 & S2 & _ & S4 & S5).
  rewrite Eb; unfold ret.
  exists pb, wb; repeat split; congruence.
Qed.

Lemma timeShifts_init_ok :
  forall c p w,
  exists p' w',
    bind (TOFCalibConfig.updateTimeShiftInit env c p
            (TOFCalibConfig.nameShiftPos env c) true)
         (fun p =>
            bind (TOFCalibConfig.updateTimeShiftInit env c p
                    (TOFCalibConfig.nameShiftNeg env c) false)
                 (fun p => ret (c, p))) w
    = Ok ((c, p'), w')
    /\ retrieved p' = retrieved p
    /\ resolutionParametrization p' = resolutionParametrization p
    /\ momentumChargeShift p' = momentumChargeShift p
    /\ warnings w' = warnings w.
Proof.
  intros c p w; unfold bind.
  destruct (updateTimeShiftInit_ok env c p
              (TOFCalibConfig.nameShiftPos env c) true w)
    as (pa & wa & Ea & R1 & R2 & _ & R4 & R5).
  rewrite Ea.
  destruct (updateTimeShiftInit_ok env c pa
              (TOFCalibConfig.nameShiftNeg env c) false wa)
    as (pb & wb & Eb & S1 & S2 & _ & S4 & S5).
  rewrite Eb; unfold ret.
  exists pb, wb; repeat split; congruence.
Qed.

(** The configuration with which [processSetup] reaches the cascade. *)
Lemma processSetup_refresh :
  forall c p bc w,
    TOFCalibConfig.mLastRunNumber c <> runNumber bc ->
    TOFCalibConfig.mEnableTimeDependentResponse c = true ->
    TOFCalibConfig.mParamFileName c = "" ->
    exists c' w0,
      TOFCalibConfig.mReconstructionPass c' = TOFCalibConfig.mReconstructionPass c
      /\ TOFCalibConfig.mReconstructionPassDefault c'
         = TOFCalibConfig.mReconstructionPassDefault c
      /\ TOFCalibConfig.mFatalOnPassNotAvailable c'
         = TOFCalibConfig.mFatalOnPassNotAvailable c
      /\ warnings w0 = warnings w
      /\ TOFCalibConfig.processSetup env c p bc w
         = bind (TOFCalibConfig.loadParametrization env "CCDB object"
                   (ccdbParameterCollection env
                      (TOFCalibConfig.mParametrizationPath c) (timestamp bc))
                   c' p)
             (fun p =>
                bind (TOFCalibConfig.updateTimeShiftProcess env c' p
                        (TOFCalibConfig.nameShiftPos env c') true)
                  (fun p =>
                     bind (TOFCalibConfig.updateTimeShiftProcess env c' p
                             (TOFCalibConfig.nameShiftNeg env c') false)
                       (fun p => ret (c', p)))) w0.
Proof.
  intros c p bc w Hrun Htd Hfile.
  unfold TOFCalibConfig.processSetup.
  apply Z.eqb_neq in Hrun; rewrite Hrun.
  set (c0 := TOFCalibConfig.set_mTimestamp _ _).
  destruct (TOFCalibConfig.mCollisionSystem c0 =? -1) eqn:Esys.
  - eexists; eexists.
    split; [|split; [|split; [|split]]].
    5:{ unfold bind at 1. unfold bind at 1. unfold fetch at 1, ret at 1.
        cbv beta iota.
        replace (TOFCalibConfig.mEnableTimeDependentResponse
                   (TOFCalibConfig.set_mCollisionSystem c0 _)) with true
          by (symmetry; exact Htd).
        replace (TOFCalibConfig.mParamFileName
                   (TOFCalibConfig.set_mCollisionSystem c0 _)) with ""
          by (symmetry; exact Hfile).
        cbn [negb TOFCalibConfig.isEmpty String.eqb].
        unfold bind at 1. unfold bind at 1. unfold fetch at 1.
        cbv beta iota. reflexivity. }
    all: reflexivity.
  - exists c0; eexists.
    split; [|split; [|split; [|split]]].
    5:{ unfold bind at 1. unfold ret at 1. cbv beta iota.
        replace (TOFCalibConfig.mEnableTimeDependentResponse c0) with true
          by (symmetry; exact Htd).
        replace (TOFCalibConfig.mParamFileName c0) with ""
          by (symmetry; exact Hfile).
        cbn [negb TOFCalibConfig.isEmpty String.eqb].
        unfold bind at 1. unfold bind at 1. unfold fetch at 1.
        cbv beta iota. reflexivity. }
    all: reflexivity.
Qed.

End MissingPass.

Section MissingPassInit.

Variable env : Env.

(** The collection [initSetup] retrieves: from the parameter file when a
    file name is configured, else from the CCDB (when the response is not
    time dependent). *)
Lemma initSetup_reach :
  forall c p w,
    negb (TOFCalibConfig.isEmpty (TOFCalibConfig.mParamFileName c))
    || negb (TOFCalibConfig.mEnableTimeDependentResponse c) = true ->
    exists origin w0,
      let c' := TOFCalibConfig.passFromMetadata env
                  (TOFCalibConfig.set_mInitMode c 1) in
      warnings w0 = warnings w
      /\ TOFCalibConfig.initSetup env c p w
         = bind (TOFCalibConfig.loadParametrization env origin
                   (if negb (TOFCalibConfig.isEmpty
                               (TOFCalibConfig.mParamFileName c))
                    then fileParameterCollection env
                           (TOFCalibConfig.mParamFileName c)
                           (TOFCalibConfig.mParametrizationPath c)
                    else ccdbParameterCollection env
                           (TOFCalibConfig.mParametrizationPath c)
                           (TOFCalibConfig.mTimestamp c))
                   c' p)
             (fun p =>
                bind (TOFCalibConfig.updateTimeShiftInit env c' p
                        (TOFCalibConfig.nameShiftPos env c') true)
                  (fun p =>
                     bind (TOFCalibConfig.updateTimeShiftInit env c' p
                             (TOFCalibConfig.nameShiftNeg env c') false)
                       (fun p => ret (c', p)))) w0.
Proof.
  intros c p w Hret.
  unfold TOFCalibConfig.initSetup.
  set (c' := TOFCalibConfig.passFromMetadata env _).
  assert (Ef : TOFCalibConfig.mParamFileName c' = TOFCalibConfig.mParamFileName c).
  { unfold c', TOFCalibConfig.passFromMetadata.
    destruct (String.eqb _ _); reflexivity. }
  assert (Ep : TOFCalibConfig.mParametrizationPath c'
               = TOFCalibConfig.mParametrizationPath c).
  { unfold c', TOFCalibConfig.passFromMetadata.
    destruct (String.eqb _ _); reflexivity. }
  assert (Et : TOFCalibConfig.mTimestamp c' = TOFCalibConfig.mTimestamp c).
  { unfold c', TOFCalibConfig.passFromMetadata.
    destruct (String.eqb _ _); reflexivity. }
  assert (Ed : TOFCalibConfig.mEnableTimeDependentResponse c'
               = TOFCalibConfig.mEnableTimeDependentResponse c).
  { unfold c', TOFCalibConfig.passFromMetadata.
    destruct (String.eqb _ _); reflexivity. }
  rewrite Ef, Ep, Et, Ed.
  destruct (negb (TOFCalibConfig.isEmpty (TOFCalibConfig.mParamFileName c))).
  - eexists; eexists; cbv zeta; split.
    2:{ unfold bind at 1. unfold bind at 1. unfold fetch at 1.
        cbv beta iota. unfold bind at 3. reflexivity. }
    reflexivity.
  - simpl in Hret; rewrite Hret.
    eexists; eexists; cbv zeta; split.
    2:{ unfold bind at 1. unfold bind at 1. unfold fetch at 1.
        cbv beta iota. unfold bind at 3. reflexivity. }
    reflexivity.
Qed.

End MissingPassInit.

(** C8.  When the requested pass is missing from the retrieved
    calibration object, [processSetup] (first part) and [initSetup]
    (second part) abort the process if [fatalOnPassNotAvailable] is set;
    otherwise they log one warning and go to the default pass, abort if
    that one is missing too, and else return with the parameters of the
    default pass installed in the bundle. *)
Theorem C8_missing_pass_fallback_or_fatal :
  (forall env c p bc w,
     TOFCalibConfig.mLastRunNumber c <> runNumber bc ->
     TOFCalibConfig.mEnableTimeDependentResponse c = true ->
     TOFCalibConfig.mParamFileName c = "" ->
     let pc := ccdbParameterCollection env
                 (TOFCalibConfig.mParametrizationPath c) (timestamp bc) in
     getPars pc (TOFCalibConfig.mReconstructionPass c) = None ->
     (TOFCalibConfig.mFatalOnPassNotAvailable c = true ->
      exists msg, TOFCalibConfig.processSetup env c p bc w = Fatal msg)
     /\ (TOFCalibConfig.mFatalOnPassNotAvailable c = false ->
         getPars pc (TOFCalibConfig.mReconstructionPassDefault c) = None ->
         exists msg, TOFCalibConfig.processSetup env c p bc w = Fatal msg)
     /\ (forall v,
         TOFCalibConfig.mFatalOnPassNotAvailable c = false ->
         getPars pc (TOFCalibConfig.mReconstructionPassDefault c) = Some v ->
         exists c1 p1 w1 msg,
           TOFCalibConfig.processSetup env c p bc w = Ok ((c1, p1), w1)
           /\ retrieved p1 = v
           /\ resolutionParametrization p1 = v
           /\ momentumChargeShift p1 = v
           /\ warnings w1 = warnings w ++ [msg]))
  /\
  (forall env c p w,
     negb (TOFCalibConfig.isEmpty (TOFCalibConfig.mParamFileName c))
     || negb (TOFCalibConfig.mEnableTimeDependentResponse c) = true ->
     let c' := TOFCalibConfig.passFromMetadata env
                 (TOFCalibConfig.set_mInitMode c 1) in
     let pc := if negb (TOFCalibConfig.isEmpty (TOFCalibConfig.mParamFileName c))
               then fileParameterCollection env
                      (TOFCalibConfig.mParamFileName c)
                      (TOFCalibConfig.mParametrizationPath c)
               else ccdbParameterCollection env
                      (TOFCalibConfig.mParametrizationPath c)
                      (TOFCalibConfig.mTimestamp c) in
     getPars pc (TOFCalibConfig.mReconstructionPass c') = None ->
     (TOFCalibConfig.mFatalOnPassNotAvailable c = true ->
      exists msg, TOFCalibConfig.initSetup env c p w = Fatal msg)
     /\ (TOFCalibConfig.mFatalOnPassNotAvailable c = false ->
         getPars pc (TOFCalibConfig.mReconstructionPassDefault c) = None ->
         exists msg, TOFCalibConfig.initSetup env c p w = Fatal msg)
     /\ (forall v,
         TOFCalibConfig.mFatalOnPassNotAvailable c = false ->
         getPars pc (TOFCalibConfig.mReconstructionPassDefault c) = Some v ->
         exists c1 p1 w1 msg,
           TOFCalibConfig.initSetup env c p w = Ok ((c1, p1), w1)
           /\ retrieved p1 = v
           /\ resolutionParametrization p1 = v
           /\ momentumChargeShift p1 = v
           /\ warnings w1 = warnings w ++ [msg])).
Proof.
  split.
  - intros env c p bc w Hrun Htd Hfile pc Hmiss.
    destruct (processSetup_refresh env c p bc w Hrun Htd Hfile)
      as (c' & w0 & Epass & Edef & Efatal & Ew & ->).
    fold pc.
    rewrite <- Epass in Hmiss.
    destruct (loadParametrization_missing env "CCDB object" pc c' p w0 Hmiss)
      as (Ha & Hb & Hc).
    split; [|split].
    + intros Hf; rewrite <- Efatal in Hf.
      unfold bind at 1; rewrite (Ha Hf); eauto.
    + intros Hf Hd; rewrite <- Efatal in Hf; rewrite <- Edef in Hd.
      unfold bind at 1; rewrite (Hb Hf Hd); eauto.
    + intros v Hf Hd; rewrite <- Efatal in Hf; rewrite <- Edef in Hd.
      unfold bind at 1; rewrite (Hc v Hf Hd).
      set (p0 := TOFCalibConfig.setParametrization env (setRetrieved p v) v).
      match goal with
      | |- context [bind _ _ ?b] => set (wa := b)
      end.
      destruct (timeShifts_process_ok env c' p0 wa)
        as (p1 & w1 & E1 & R1 & R2 & R3 & R4).
      rewrite E1.
      destruct (setParametrization_fields env (setRetrieved p v) v)
        as (F1 & F2 & F3).
      exists c', p1, w1; eexists; split; [reflexivity|].
      split; [rewrite R1; unfold p0; rewrite F3; reflexivity|].
      split; [rewrite R2; exact F1|].
      split; [rewrite R3; exact F2|].
      rewrite R4; unfold wa; simpl; rewrite Ew; reflexivity.
  - intros env c p w Hret c' pc Hmiss.
    destruct (initSetup_reach env c p w Hret) as (origin & w0 & H).
    cbv zeta in H; destruct H as (Ew & ->).
    fold c'; fold pc.
    assert (Efatal : TOFCalibConfig.mFatalOnPassNotAvailable c'
                     = TOFCalibConfig.mFatalOnPassNotAvailable c).
    { unfold c', TOFCalibConfig.passFromMetadata.
      destruct (String.eqb _ _); reflexivity. }
    assert (Edef : TOFCalibConfig.mReconstructionPassDefault c'
                   = TOFCalibConfig.mReconstructionPassDefault c).
    { unfold c', TOFCalibConfig.passFromMetadata.
      destruct (String.eqb _ _); reflexivity. }
    destruct (loadParametrization_missing env origin pc c' p w0 Hmiss)
      as (Ha & Hb & Hc).
    split; [|split].
    + intros Hf; rewrite <- Efatal in Hf.
      unfold bind at 1; rewrite (Ha Hf); eauto.
    + intros Hf Hd; rewrite <- Efatal in Hf; rewrite <- Edef in Hd.
      unfold bind at 1; rewrite (Hb Hf Hd); eauto.
    + intros v Hf Hd; rewrite <- Efatal in Hf; rewrite <- Edef in Hd.
      unfold bind at 1; rewrite (Hc v Hf Hd).
      set (p0 := TOFCalibConfig.setParametrization env (setRetrieved p v) v).
      match goal with
      | |- context [bind _ _ ?b] => set (wa := b)
      end.
      destruct (timeShifts_init_ok env c' p0 wa)
        as (p1 & w1 & E1 & R1 & R2 & R3 & R4).
      rewrite E1.
      destruct (setParametrization_fields env (setRetrieved p v) v)
        as (F1 & F2 & F3).
      exists c', p1, w1; eexists; split; [reflexivity|].
      split; [rewrite R1; unfold p0; rewrite F3; reflexivity|].
      split; [rewrite R2; exact F1|].
      split; [rewrite R3; exact F2|].
      rewrite R4; unfold wa; simpl; rewrite Ew; reflexivity.
Qed.

Lemma C8_witness :
  exists c1 p1 w1 msg,
    TOFCalibConfig.processSetup Fixtures.env Fixtures.calibFallback
      defaultParams Fixtures.bc1 Fixtures.world0 = Ok ((c1, p1), w1)
    /\ retrieved p1 = Fixtures.pars1
    /\ resolutionParametrization p1 = Fixtures.pars1
    /\ momentumChargeShift p1 = Fixtures.pars1
    /\ warnings w1 = warnings Fixtures.world0 ++ [msg].
Proof.
  destruct (proj1 C8_missing_pass_fallback_or_fatal Fixtures.env
              Fixtures.calibFallback defaultParams Fixtures.bc1
              Fixtures.world0) as (_ & _ & H).
  - vm_compute; discriminate.
  - reflexivity.
  - reflexivity.
  - reflexivity.
  - apply (H Fixtures.pars1); reflexivity.
Defined.

(** ** Part 2: the validity test of the TOF-only mode *)

(** For a cutoff that is a number, [maxEvTimeTOF <= 0] is the negation of
    [0 < maxEvTimeTOF]. *)
Lemma leb_zero_not_positive :
  forall m : float,
    F32.is_nan m = false ->
    F32.leb m F32.zero = negb (F32.ltb F32.zero m).
Proof.
  intros m Hn; destruct m as [s|s| |s mm e]; try discriminate;
    destruct s; reflexivity.
Qed.

Lemma trackTOFOnly_rows :
  forall lib s maker st trk n v e,
    tofEventTime.unbias lib s maker trk (tofEventTime.nGood st)
      (tofEventTime.et st) (tofEventTime.erret st) = (n, v, e) ->
    let st' := tofEventTime.trackTOFOnly lib s maker st trk in
    let r := tofEventTime.checkedTOF s v e in
    tofEventTime.tableFlags (tofEventTime.outTOF st')
    = append (tofEventTime.tableFlags (tofEventTime.outTOF st)) trk (fst (fst r))
    /\ tofEventTime.tableEvTime (tofEventTime.outTOF st')
       = append (tofEventTime.tableEvTime (tofEventTime.outTOF st)) trk
           (snd (fst r), snd r)
    /\ tofEventTime.et st' = snd (fst r)
    /\ tofEventTime.erret st' = snd r.
Proof.
  intros lib s maker st trk n v e H; cbv zeta.
  unfold tofEventTime.trackTOFOnly; rewrite H.
  destruct (tofEventTime.checkedTOF s v e) as [[fl v'] e'].
  destruct (tofEventTime.enableTableEvTimeTOFOnly s); simpl; auto.
Qed.

(** A cutoff that is not a number is neither below zero nor above
    anything. *)
Lemma leb_nan_false :
  forall m : float, F32.is_nan m = true -> F32.leb m F32.zero = false.
Proof. intros m H; destruct m; try discriminate; reflexivity. Qed.

Lemma ltb_nan_false :
  forall x m : float, F32.is_nan m = true -> F32.ltb x m = false.
Proof. intros x m H; destruct m; try discriminate; destruct x; reflexivity. Qed.

(** C5 (as amended).  TOF-only mode, for a track of a selected
    collision.  With (v, e) the value and error returned by [removeBias]
    for the track: if e is not below [kErrDiamond], or the cutoff is not
    at or below zero and |v| is not below it, the rows appended are flags
    0 and (0, kErrDiamond); otherwise they are the flag [EvTimeTOF] and
    (v, e).  For a cutoff that is a number, not at or below zero means
    positive; a cutoff that is not a number is not positive and yet
    rejects every track. *)
Theorem C5_TOF_only_validity :
  forall lib s maker st trk n v e,
    tofEventTime.unbias lib s maker trk (tofEventTime.nGood st)
      (tofEventTime.et st) (tofEventTime.erret st) = (n, v, e) ->
    let st' := tofEventTime.trackTOFOnly lib s maker st trk in
    let cutoff := tofEventTime.maxEvTimeTOF s in
    let rejected :=
      negb (F32.ltb e tofEventTime.kErrDiamond)
      || (negb (F32.leb cutoff F32.zero)
          && negb (F32.ltb (F32.abs v) cutoff)) in
    (rejected = true ->
     tofEventTime.tableFlags (tofEventTime.outTOF st')
     = append (tofEventTime.tableFlags (tofEventTime.outTOF st)) trk 0
     /\ tofEventTime.tableEvTime (tofEventTime.outTOF st')
        = append (tofEventTime.tableEvTime (tofEventTime.outTOF st)) trk
            (F32.zero, tofEventTime.kErrDiamond))
    /\ (rejected = false ->
        tofEventTime.tableFlags (tofEventTime.outTOF st')
        = append (tofEventTime.tableFlags (tofEventTime.outTOF st)) trk
            EvTimeTOF
        /\ tofEventTime.tableEvTime (tofEventTime.outTOF st')
           = append (tofEventTime.tableEvTime (tofEventTime.outTOF st)) trk
               (v, e))
    /\ (F32.is_nan cutoff = false ->
        negb (F32.leb cutoff F32.zero) = F32.ltb F32.zero cutoff)
    /\ (F32.is_nan cutoff = true ->
        F32.ltb F32.zero cutoff = false /\ rejected = true).
Proof.
  intros lib s maker st trk n v e Hub st' cutoff rejected.
  destruct (trackTOFOnly_rows lib s maker st trk n v e Hub) as (Hf & Hv & _).
  fold st' in Hf, Hv.
  assert (Hacc : tofEventTime.acceptTOF s v e = negb rejected).
  { unfold tofEventTime.acceptTOF, rejected, cutoff.
    destruct (F32.ltb e tofEventTime.kErrDiamond),
             (F32.leb (tofEventTime.maxEvTimeTOF s) F32.zero),
             (F32.ltb (F32.abs v) (tofEventTime.maxEvTimeTOF s)); reflexivity. }
  unfold tofEventTime.checkedTOF in Hf, Hv; rewrite Hacc in Hf, Hv.
  split; [|split; [|split]].
  - intros Hr; rewrite Hr in Hf, Hv; simpl in Hf, Hv; auto.
  - intros Hr; rewrite Hr in Hf, Hv; simpl in Hf, Hv; auto.
  - intros Hn; rewrite (leb_zero_not_positive _ Hn), negb_involutive.
    reflexivity.
  - intros Hn; split; [apply ltb_nan_false; exact Hn|].
    unfold rejected.
    rewrite (leb_nan_false _ Hn), (ltb_nan_false _ _ Hn); simpl.
    apply orb_true_r.
Qed.

Lemma C5_witness :
  tofEventTime.tableFlags
    (tofEventTime.outTOF
       (tofEventTime.trackTOFOnly Fixtures.evLibWide (Fixtures.evTask 1 0) tt
          Fixtures.startTOF (Fixtures.track 0 0 true)))
  = [(0, 0)]
  /\ tofEventTime.tableEvTime
       (tofEventTime.outTOF
          (tofEventTime.trackTOFOnly Fixtures.evLibWide (Fixtures.evTask 1 0)
             tt Fixtures.startTOF (Fixtures.track 0 0 true)))
     = [(0, (F32.zero, tofEventTime.kErrDiamond))].
Proof.
  refine (proj1 (C5_TOF_only_validity Fixtures.evLibWide (Fixtures.evTask 1 0)
                   tt Fixtures.startTOF (Fixtures.track 0 0 true)
                   1 F32.zero (F32.of_Z 500) _) _).
  - reflexivity.
  - vm_compute; reflexivity.
Defined.

(** C5 as stated fails: with a cutoff that is not a number, the estimate
    100 +- 50 ps has an error below [kErrDiamond] and no positive cutoff
    is configured, yet the rows are flags 0 and (0, kErrDiamond). *)
Lemma C5_cutoff_not_a_number :
  tofEventTime.unbias Fixtures.evLib Fixtures.evTaskNaN tt
    (Fixtures.track 0 0 true) 0 F32.zero F32.zero
  = (1, F32.of_Z 100, F32.of_Z 50)
  /\ F32.ltb (F32.of_Z 50) tofEventTime.kErrDiamond = true
  /\ F32.ltb F32.zero (tofEventTime.maxEvTimeTOF Fixtures.evTaskNaN) = false
  /\ tofEventTime.tableFlags
       (tofEventTime.outTOF
          (tofEventTime.trackTOFOnly Fixtures.evLib Fixtures.evTaskNaN tt
             Fixtures.startTOF (Fixtures.track 0 0 true)))
     = [(0, 0)]
  /\ tofEventTime.tableEvTime
       (tofEventTime.outTOF
          (tofEventTime.trackTOFOnly Fixtures.evLib Fixtures.evTaskNaN tt
             Fixtures.startTOF (Fixtures.track 0 0 true)))
     = [(0, (F32.zero, tofEventTime.kErrDiamond))]
  /\ rowsOf (tofEventTime.tableFlags
               (tofEventTime.loopTOFOnly Fixtures.evLib Fixtures.evTaskNaN
                  Fixtures.cols [Fixtures.track 0 0 true]))
     = [0]
  /\ EvTimeTOF <> 0
  /\ (F32.zero, tofEventTime.kErrDiamond) <> (F32.of_Z 100, F32.of_Z 50).
Proof.
  repeat split; try (vm_compute; reflexivity); vm_compute; discriminate.
Qed.

(** ** Part 2: the combination of TOF and FT0 *)

Lemma trackTOFFT0_rows :
  forall lib s collision maker st trk,
    let a := tofEventTime.floorSums
               (tofEventTime.sumsOfTrack lib s collision maker st trk) in
    let st' := tofEventTime.trackTOFFT0 lib s collision maker st trk in
    tofEventTime.tableFlags (tofEventTime.out st')
    = append (tofEventTime.tableFlags (tofEventTime.out st)) trk
        (tofEventTime.flags a)
    /\ tofEventTime.tableEvTime (tofEventTime.out st')
       = append (tofEventTime.tableEvTime (tofEventTime.out st)) trk
           (F32.div (tofEventTime.eventTime a) (tofEventTime.sumOfWeights a),
            tofEventTime.errorOfWeights (tofEventTime.sumOfWeights a)).
Proof.
  intros lib s collision maker st trk; cbv zeta.
  unfold tofEventTime.trackTOFFT0, tofEventTime.sumsOfTrack.
  destruct (tofEventTime.unbias _ _ _ _ _ _ _) as [[n v] e].
  destruct (tofEventTime.addFT0 _ _ _) as [t0ac a]; simpl.
  unfold tofEventTime.combined.
  destruct (tofEventTime.enableTableEvTimeTOFOnly s); simpl; auto.
Qed.

Lemma kWeightDiamond_value :
  tofEventTime.kWeightDiamond = S754_finite false 13724888 (-39).
Proof. vm_compute; reflexivity. Qed.

Lemma kErrDiamond_value :
  tofEventTime.kErrDiamond = S754_finite false 13116273 (-16).
Proof. vm_compute; reflexivity. Qed.

(** The literal of the source is the binary32 number nearest to
    33.356409: the distance is at most half a unit in the last place,
    2^-19. *)
Lemma lit_33_356409f_nearest :
  lit_33_356409f = S754_finite false 8744182 (-18)
  /\ bounded 24 128 8744182 (-18) = true
  /\ 2 * Z.abs (8744182 * 10 ^ 6 - 33356409 * 2 ^ 18) <= 10 ^ 6.
Proof. repeat split; vm_compute; congruence. Qed.

(** The floored accumulators are never below the floor. *)
Lemma floorSums_not_below :
  forall a,
    F32.ltb (tofEventTime.sumOfWeights (tofEventTime.floorSums a))
      tofEventTime.kWeightDiamond = false.
Proof.
  intros a; unfold tofEventTime.floorSums.
  destruct (F32.ltb (tofEventTime.sumOfWeights a) tofEventTime.kWeightDiamond)
    eqn:E; [vm_compute; reflexivity | exact E].
Qed.

Lemma not_below_floor_nonzero :
  forall x z,
    F32.ltb x tofEventTime.kWeightDiamond = false -> x <> S754_zero z.
Proof.
  intros x z H ->; destruct z; vm_compute in H; discriminate.
Qed.


(** While the FT0 of the collision is not both found and valid, the
    array [t0AC] keeps the value it was initialised with. *)
Lemma t0AC_kept :
  forall lib s collision maker l st,
    has_foundFT0 collision && t0ACValid collision = false ->
    tofEventTime.t0ACvar
      (fold_left (tofEventTime.trackTOFFT0 lib s collision maker) l st)
    = tofEventTime.t0ACvar st.
Proof.
  intros lib s collision maker l; induction l as [|trk l IH]; intros st H.
  - reflexivity.
  - simpl; rewrite (IH _ H).
    unfold tofEventTime.trackTOFFT0, tofEventTime.addFT0.
    destruct (tofEventTime.unbias _ _ _ _ _ _ _) as [[n v] e].
    destruct (has_foundFT0 collision); [|reflexivity].
    destruct (t0ACValid collision); [discriminate|].
    destruct (tofEventTime.combined _) as [[fl va] er]; reflexivity.
Qed.





(** A found and valid FT0 whose flag is not emitted: with a resolution
    of 1 ns and the TOF estimate rejected, the sum of weights is below
    the floor. *)
Lemma coarse_FT0_flag_not_emitted :
  has_foundFT0 Fixtures.colCoarse && t0ACValid Fixtures.colCoarse = true
  /\ tofEventTime.flags
       (tofEventTime.sumsOfTrack Fixtures.evLibWide (Fixtures.evTask 1 1)
          Fixtures.colCoarse tt Fixtures.start (Fixtures.track 0 0 true))
     = EvTimeT0AC
  /\ tofEventTime.tableFlags
       (tofEventTime.out
          (tofEventTime.trackTOFFT0 Fixtures.evLibWide (Fixtures.evTask 1 1)
             Fixtures.colCoarse tt Fixtures.start (Fixtures.track 0 0 true)))
     = [(0, 0)].
Proof. repeat split; vm_compute; reflexivity. Qed.

(** ** Part 3: the loops on the enabled species *)

Lemma speciesOfIndex_index :
  forall id sp,
    tofPidMerge.speciesOfIndex id = Some sp ->
    tofPidMerge.indexOfSpecies sp = id.
Proof.
  intros id sp; destruct id as [|q|q]; simpl; try discriminate.
  - intros H; inversion H; reflexivity.
  - do 4 (try destruct q as [q|q|]; simpl; try discriminate);
      intros H; inversion H; reflexivity.
Qed.

Lemma Species_eqb_true :
  forall a b, tofPidMerge.Species_eqb a b = true -> a = b.
Proof.
  intros a b; destruct a, b; intros H; try reflexivity;
    vm_compute in H; discriminate.
Qed.

Lemma existsb_eqb_filter :
  forall (q : Z -> bool) (k : Z) (l : list Z),
    existsb (Z.eqb k) (filter q l) = q k && existsb (Z.eqb k) l.
Proof.
  intros q k l; induction l as [|a l IH]; simpl.
  - now rewrite andb_false_r.
  - destruct (q a) eqn:Ea; simpl; rewrite IH.
    + destruct (k =? a) eqn:Ek; simpl; [|reflexivity].
      apply Z.eqb_eq in Ek; subst a; rewrite Ea; reflexivity.
    + destruct (k =? a) eqn:Ek; simpl; [|reflexivity].
      apply Z.eqb_eq in Ek; subst a; rewrite Ea; reflexivity.
Qed.

Lemma enabledIndices_spec :
  forall flag sp,
    existsb (Z.eqb (tofPidMerge.indexOfSpecies sp))
      (tofPidMerge.enabledIndices flag)
    = (flag (tofPidMerge.indexOfSpecies sp) =? 1).
Proof.
  intros flag sp; unfold tofPidMerge.enabledIndices.
  rewrite existsb_eqb_filter.
  destruct sp; simpl; now rewrite andb_true_r.
Qed.

Lemma enabledIndices_valid :
  forall flag id,
    In id (tofPidMerge.enabledIndices flag) ->
    tofPidMerge.speciesOfIndex id <> None.
Proof.
  intros flag id H; unfold tofPidMerge.enabledIndices in H.
  apply filter_In in H; destruct H as [H _]; simpl in H.
  repeat (destruct H as [<-|H]; [simpl; discriminate|]); contradiction.
Qed.

Lemma enabledIndices_NoDup :
  forall flag, NoDup (tofPidMerge.enabledIndices flag).
Proof.
  intros flag; unfold tofPidMerge.enabledIndices.
  apply NoDup_filter; simpl.
  repeat (constructor; [simpl; intuition discriminate|]); constructor.
Qed.

Section SpeciesLoops.

Variable trk : Track.

(** A loop whose body appends the row [r sp] to the tiny table of the
    species of its index appends it once to the table of every index of
    the list and leaves the other tables as they are. *)
Lemma forEach_putTiny :
  forall (r : Species -> Z) (msg : string)
         (body : tofPidMerge.Tables -> Z -> Result tofPidMerge.Tables),
    (forall o id,
       body o id = match tofPidMerge.speciesOfIndex id with
                   | Some sp => Ok (tofPidMerge.putTiny o sp trk (r sp))
                   | None => Fatal msg
                   end) ->
    forall ids out,
      (forall id, In id ids -> tofPidMerge.speciesOfIndex id <> None) ->
      NoDup ids ->
      exists out',
        tofPidMerge.forEach ids body out = Ok out'
        /\ tofPidMerge.full out' = tofPidMerge.full out
        /\ forall sp,
             tofPidMerge.tiny out' sp
             = if existsb (Z.eqb (tofPidMerge.indexOfSpecies sp)) ids
               then append (tofPidMerge.tiny out sp) trk (r sp)
               else tofPidMerge.tiny out sp.
Proof.
  intros r msg body Hbody ids; induction ids as [|id ids IH];
    intros out Hvalid Hnd.
  - exists out; simpl; auto.
  - simpl; rewrite Hbody.
    destruct (tofPidMerge.speciesOfIndex id) as [sp0|] eqn:Esp;
      [|exfalso; apply (Hvalid id); [now left|exact Esp]].
    inversion Hnd as [|? ? Hnotin Hnd']; subst.
    destruct (IH (tofPidMerge.putTiny out sp0 trk (r sp0))) as (o' & E & Hfull & Htiny);
      [intros; apply Hvalid; now right | exact Hnd' |].
    exists o'; split; [exact E|]; split; [exact Hfull|].
    intros sp; rewrite Htiny; simpl.
    pose proof (speciesOfIndex_index _ _ Esp) as Hidx.
    destruct (tofPidMerge.Species_eqb sp sp0) eqn:Eeq.
    + apply Species_eqb_true in Eeq; subst sp0.
      rewrite Hidx, Z.eqb_refl; simpl.
      destruct (existsb (Z.eqb id) ids) eqn:Eex; [|reflexivity].
      exfalso; apply Hnotin.
      apply existsb_exists in Eex; destruct Eex as (x & Hin & Hx).
      apply Z.eqb_eq in Hx; now subst x.
    + assert ((tofPidMerge.indexOfSpecies sp =? id) = false) as ->.
      { rewrite <- Hidx; exact Eeq. }
      reflexivity.
Qed.

Lemma forEach_putFull :
  forall (r : Species -> float * float) (msg : string)
         (body : tofPidMerge.Tables -> Z -> Result tofPidMerge.Tables),
    (forall o id,
       body o id = match tofPidMerge.speciesOfIndex id with
                   | Some sp =>
                       Ok (tofPidMerge.putFull o sp trk (fst (r sp)) (snd (r sp)))
                   | None => Fatal msg
                   end) ->
    forall ids out,
      (forall id, In id ids -> tofPidMerge.speciesOfIndex id <> None) ->
      NoDup ids ->
      exists out',
        tofPidMerge.forEach ids body out = Ok out'
        /\ tofPidMerge.tiny out' = tofPidMerge.tiny out
        /\ forall sp,
             tofPidMerge.full out' sp
             = if existsb (Z.eqb (tofPidMerge.indexOfSpecies sp)) ids
               then append (tofPidMerge.full out sp) trk (r sp)
               else tofPidMerge.full out sp.
Proof.
  intros r msg body Hbody ids; induction ids as [|id ids IH];
    intros out Hvalid Hnd.
  - exists out; simpl; auto.
  - simpl; rewrite Hbody.
    destruct (tofPidMerge.speciesOfIndex id) as [sp0|] eqn:Esp;
      [|exfalso; apply (Hvalid id); [now left|exact Esp]].
    inversion Hnd as [|? ? Hnotin Hnd']; subst.
    destruct (IH (tofPidMerge.putFull out sp0 trk (fst (r sp0)) (snd (r sp0))))
      as (o' & E & Htiny & Hfull);
      [intros; apply Hvalid; now right | exact Hnd' |].
    exists o'; split; [exact E|]; split; [exact Htiny|].
    intros sp; rewrite Hfull; simpl.
    pose proof (speciesOfIndex_index _ _ Esp) as Hidx.
    destruct (tofPidMerge.Species_eqb sp sp0) eqn:Eeq.
    + apply Species_eqb_true in Eeq; subst sp0.
      rewrite Hidx, Z.eqb_refl; simpl.
      rewrite <- surjective_pairing.
      destruct (existsb (Z.eqb id) ids) eqn:Eex; [|reflexivity].
      exfalso; apply Hnotin.
      apply existsb_exists in Eex; destruct Eex as (x & Hin & Hx).
      apply Z.eqb_eq in Hx; now subst x.
    + assert ((tofPidMerge.indexOfSpecies sp =? id) = false) as ->.
      { rewrite <- Hidx; exact Eeq. }
      reflexivity.
Qed.

Variable lib : PidLib.
Variable s : tofPidMerge.t.
Variables flagTiny flagFull : Z -> Z.
Hypothesis Htiny :
  tofPidMerge.mEnabledParticles s = tofPidMerge.enabledIndices flagTiny.
Hypothesis Hfull :
  tofPidMerge.mEnabledParticlesFull s = tofPidMerge.enabledIndices flagFull.

(** The rows a track gets: the packed Nsigma and (resolution, Nsigma)
    when it has a collision, the packed -999 and (-999, -999) when it has
    none. *)
Lemma trackStep_rows :
  forall out,
  exists out',
    tofPidMerge.trackStep lib s out trk = Ok out'
    /\ (forall sp,
          tofPidMerge.tiny out' sp
          = if flagTiny (tofPidMerge.indexOfSpecies sp) =? 1
            then append (tofPidMerge.tiny out sp) trk
                   (packInTable lib
                      (if has_collision trk
                       then GetSeparation lib sp (tofPidMerge.mRespParamsV3 s) trk
                       else lit_m999f))
            else tofPidMerge.tiny out sp)
    /\ (forall sp,
          tofPidMerge.full out' sp
          = if flagFull (tofPidMerge.indexOfSpecies sp) =? 1
            then append (tofPidMerge.full out sp) trk
                   (if has_collision trk
                    then (GetExpectedSigma lib sp (tofPidMerge.mRespParamsV3 s) trk,
                          GetSeparation lib sp (tofPidMerge.mRespParamsV3 s) trk)
                    else (lit_m999f, lit_m999f))
            else tofPidMerge.full out sp).
Proof.
  intros out; unfold tofPidMerge.trackStep; rewrite Htiny, Hfull.
  destruct (has_collision trk); simpl.
  - destruct (forEach_putTiny
                (fun sp => packInTable lib
                   (GetSeparation lib sp (tofPidMerge.mRespParamsV3 s) trk))
                "Wrong particle ID for standard tables"
                (tofPidMerge.fillTiny lib (tofPidMerge.mRespParamsV3 s) trk)
                (fun o id => eq_refl)
                (tofPidMerge.enabledIndices flagTiny) out
                (enabledIndices_valid flagTiny) (enabledIndices_NoDup flagTiny))
      as (o1 & E1 & F1 & T1).
    rewrite E1.
    destruct (forEach_putFull
                (fun sp => (GetExpectedSigma lib sp (tofPidMerge.mRespParamsV3 s) trk,
                            GetSeparation lib sp (tofPidMerge.mRespParamsV3 s) trk))
                "Wrong particle ID for full tables"
                (tofPidMerge.fillFull lib (tofPidMerge.mRespParamsV3 s) trk))
      with (ids := tofPidMerge.enabledIndices flagFull) (out := o1)
      as (o2 & E2 & T2 & F2).
    { intros o id; unfold tofPidMerge.fillFull.
      destruct (tofPidMerge.speciesOfIndex id) as [sp|]; [|reflexivity].
      destruct sp; reflexivity. }
    { apply enabledIndices_valid. }
    { apply enabledIndices_NoDup. }
    exists o2; split; [exact E2|]; split.
    + intros sp; rewrite T2, T1, enabledIndices_spec; reflexivity.
    + intros sp; rewrite F2, F1, enabledIndices_spec; reflexivity.
  - destruct (forEach_putTiny
                (fun _ => packInTable lib lit_m999f)
                ("Wrong particle ID in makeTableEmpty()"
                 ++ tofPidMerge.forTables false)
                (fun o id => tofPidMerge.makeTableEmpty lib o trk id false)
                (fun o id => eq_refl)
                (tofPidMerge.enabledIndices flagTiny) out
                (enabledIndices_valid flagTiny) (enabledIndices_NoDup flagTiny))
      as (o1 & E1 & F1 & T1).
    rewrite E1.
    destruct (forEach_putFull
                (fun _ => (lit_m999f, lit_m999f))
                ("Wrong particle ID in makeTableEmpty()"
                 ++ tofPidMerge.forTables true)
                (fun o id => tofPidMerge.makeTableEmpty lib o trk id true)
                (fun o id => eq_refl)
                (tofPidMerge.enabledIndices flagFull) o1
                (enabledIndices_valid flagFull) (enabledIndices_NoDup flagFull))
      as (o2 & E2 & T2 & F2).
    exists o2; split; [exact E2|]; split.
    + intros sp; rewrite T2, T1, enabledIndices_spec; reflexivity.
    + intros sp; rewrite F2, F1, enabledIndices_spec; reflexivity.
Qed.

End SpeciesLoops.

Lemma forEach_reserveTable :
  forall fullTable ids out,
    (forall id, In id ids -> tofPidMerge.speciesOfIndex id <> None) ->
    tofPidMerge.forEach ids
      (fun o id => tofPidMerge.reserveTable o id fullTable) out = Ok out.
Proof.
  intros fullTable ids; induction ids as [|id ids IH]; intros out Hvalid.
  - reflexivity.
  - simpl; unfold tofPidMerge.reserveTable at 1.
    destruct (tofPidMerge.speciesOfIndex id) eqn:E;
      [|exfalso; apply (Hvalid id); [now left|exact E]].
    apply IH; intros; apply Hvalid; now right.
Qed.

Section NsigmaTables.

Variable lib : PidLib.
Variable s : tofPidMerge.t.
Variables flagTiny flagFull : Z -> Z.
Hypothesis Htiny :
  tofPidMerge.mEnabledParticles s = tofPidMerge.enabledIndices flagTiny.
Hypothesis Hfull :
  tofPidMerge.mEnabledParticlesFull s = tofPidMerge.enabledIndices flagFull.

Lemma trackLoop_rows :
  forall tracks out,
  exists out',
    tofPidMerge.trackLoop lib s tracks out = Ok out'
    /\ (forall sp,
          tofPidMerge.tiny out' sp
          = if flagTiny (tofPidMerge.indexOfSpecies sp) =? 1
            then tofPidMerge.tiny out sp
                 ++ map (fun trk =>
                           (globalIndex trk,
                            packInTable lib
                              (if has_collision trk
                               then GetSeparation lib sp
                                      (tofPidMerge.mRespParamsV3 s) trk
                               else lit_m999f))) tracks
            else tofPidMerge.tiny out sp)
    /\ (forall sp,
          tofPidMerge.full out' sp
          = if flagFull (tofPidMerge.indexOfSpecies sp) =? 1
            then tofPidMerge.full out sp
                 ++ map (fun trk =>
                           (globalIndex trk,
                            if has_collision trk
                            then (GetExpectedSigma lib sp
                                    (tofPidMerge.mRespParamsV3 s) trk,
                                  GetSeparation lib sp
                                    (tofPidMerge.mRespParamsV3 s) trk)
                            else (lit_m999f, lit_m999f))) tracks
            else tofPidMerge.full out sp).
Proof.
  intros tracks; induction tracks as [|trk l IH]; intros out.
  - exists out; simpl; split; [reflexivity|].
    split; intros sp; rewrite app_nil_r;
      match goal with |- _ = if ?b then _ else _ => destruct b end;
      reflexivity.
  - simpl.
    destruct (trackStep_rows trk lib s flagTiny flagFull Htiny Hfull out)
      as (o1 & E1 & T1 & F1).
    rewrite E1.
    destruct (IH o1) as (o2 & E2 & T2 & F2).
    exists o2; split; [exact E2|].
    split; intros sp.
    + rewrite T2, T1.
      destruct (flagTiny (tofPidMerge.indexOfSpecies sp) =? 1); [|reflexivity].
      unfold append; rewrite <- app_assoc; reflexivity.
    + rewrite F2, F1.
      destruct (flagFull (tofPidMerge.indexOfSpecies sp) =? 1); [|reflexivity].
      unfold append; rewrite <- app_assoc; reflexivity.
Qed.

End NsigmaTables.

(** C1 (as amended).  With the species lists built by [init] from the
    enable flags, and once the calibration set-up has returned,
    [processRun3] of the response task fills every enabled table with one
    row per track, in track order.  For a track with a collision and a
    TOF hit the Nsigma of species [sp] is
    (tofSignal - tofEvTime - expectedTime sp) / expectedSigma sp, packed
    in the tiny table and stored next to the resolution in the full table
    (all nine species, the pion included).  For a track with a collision
    and no TOF hit the response returns the value -999 of a quantity that
    is not computed, and that value is packed and stored in place of the
    quotient.  A track without a collision gets -999 from the task
    itself.  On the fixture signal = 20000, event time = 100, expected
    time = 19800, sigma = 80, of a track with a TOF hit, the value is
    1.25. *)
Theorem C1_nsigma_formula :
  forall env lib s bc tracks w flagTiny flagFull c1 p1 w1,
    tofPidMerge.mEnabledParticles s = tofPidMerge.enabledIndices flagTiny ->
    tofPidMerge.mEnabledParticlesFull s = tofPidMerge.enabledIndices flagFull ->
    TOFCalibConfig.processSetup env (tofPidMerge.mTOFCalibConfig s)
      (tofPidMerge.mRespParamsV3 s) bc w = Ok ((c1, p1), w1) ->
    let nsigma sp trk :=
      if hasTOF trk then
        F32.div
          (F32.sub (F32.sub (tofSignal trk) (tofEvTime trk))
                   (GetCorrectedExpectedSignal lib sp p1 trk))
          (GetExpectedSigma lib sp p1 trk)
      else lit_m999f in
    (exists out,
       tofPidMerge.processRun3 env lib s bc tracks w
       = Ok ((tofPidMerge.set_calib s c1 p1, out), w1)
       /\ forall sp,
            tofPidMerge.tiny out sp
            = (if flagTiny (tofPidMerge.indexOfSpecies sp) =? 1
               then map (fun trk =>
                           (globalIndex trk,
                            packInTable lib
                              (if has_collision trk then nsigma sp trk
                               else lit_m999f))) tracks
               else [])
            /\ tofPidMerge.full out sp
               = (if flagFull (tofPidMerge.indexOfSpecies sp) =? 1
                  then map (fun trk =>
                              (globalIndex trk,
                               if has_collision trk
                               then (GetExpectedSigma lib sp p1 trk,
                                     nsigma sp trk)
                               else (lit_m999f, lit_m999f))) tracks
                  else []))
    /\ (let trk := Fixtures.track 0 0 true in
        hasTOF trk = true
        /\ tofSignal trk = F32.of_Z 20000
        /\ tofEvTime trk = F32.of_Z 100
        /\ GetCorrectedExpectedSignal Fixtures.pidLib Pion defaultParams trk
           = F32.of_Z 19800
        /\ GetExpectedSigma Fixtures.pidLib Pion defaultParams trk = F32.of_Z 80
        /\ GetSeparation Fixtures.pidLib Pion defaultParams trk
           = Fixtures.lit_1_25f
        /\ 4 * 10485760 = 5 * 2 ^ 23).
Proof.
  intros env lib s bc tracks w flagTiny flagFull c1 p1 w1 Ht Hf Hsetup nsigma.
  split; [|cbv zeta; repeat split; vm_compute; reflexivity].
  unfold tofPidMerge.processRun3, bind; rewrite Hsetup; simpl.
  rewrite Ht, Hf.
  rewrite !forEach_reserveTable by (apply enabledIndices_valid).
  destruct (trackLoop_rows lib (tofPidMerge.set_calib s c1 p1)
              flagTiny flagFull Ht Hf tracks tofPidMerge.noTables)
    as (out & E & T & F).
  rewrite E; exists out; split; [reflexivity|].
  intros sp; rewrite T, F; simpl; split; reflexivity.
Qed.

Lemma C1_witness :
  exists out,
    tofPidMerge.processRun3 Fixtures.env Fixtures.pidLib
      (Fixtures.pidTask Fixtures.flagsTiny Fixtures.flagsFull)
      Fixtures.bc1 Fixtures.tracks5 Fixtures.world0
    = Ok ((tofPidMerge.set_calib
             (Fixtures.pidTask Fixtures.flagsTiny Fixtures.flagsFull)
             (TOFCalibConfig.set_mCollisionSystem
                (TOFCalibConfig.set_mTimestamp
                   (TOFCalibConfig.set_mLastRunNumber Fixtures.calibDefault
                      (runNumber Fixtures.bc1))
                   (timestamp Fixtures.bc1))
                kCollSysPbPb)
             defaultParams, out),
          mkWorld [FetchGrpLhcIf "GLO/Config/GRPLHCIF" (timestamp Fixtures.bc1)] [])
    /\ rowsOf (tofPidMerge.full out Pion)
       = [(F32.of_Z 80, Fixtures.lit_1_25f); (F32.of_Z 80, Fixtures.lit_1_25f);
          (lit_m999f, lit_m999f);
          (F32.of_Z 80, Fixtures.lit_1_25f); (F32.of_Z 80, lit_m999f)].
Proof.
  destruct (proj1 (C1_nsigma_formula Fixtures.env Fixtures.pidLib
              (Fixtures.pidTask Fixtures.flagsTiny Fixtures.flagsFull)
              Fixtures.bc1 Fixtures.tracks5 Fixtures.world0
              Fixtures.flagsTiny Fixtures.flagsFull
              _ _ _ eq_refl eq_refl eq_refl))
    as (out & E & H).
  exists out; split; [exact E|].
  destruct (H Pion) as (_ & ->); vm_compute; reflexivity.
Defined.

(** C1 as stated fails: the last of the five tracks of the fixtures has
    a collision and no TOF hit.  The quotient of the claim is 1.25 on it
    as on its neighbours, and the rows it gets hold the value -999 of a
    quantity that is not computed. *)
Lemma C1_track_without_TOF_hit :
  has_collision (Fixtures.track 4 3 false) = true
  /\ hasTOF (Fixtures.track 4 3 false) = false
  /\ F32.div
       (F32.sub (F32.sub (tofSignal (Fixtures.track 4 3 false))
                         (tofEvTime (Fixtures.track 4 3 false)))
                (GetCorrectedExpectedSignal Fixtures.pidLib Pion defaultParams
                   (Fixtures.track 4 3 false)))
       (GetExpectedSigma Fixtures.pidLib Pion defaultParams
          (Fixtures.track 4 3 false))
     = Fixtures.lit_1_25f
  /\ match tofPidMerge.processRun3 Fixtures.env Fixtures.pidLib
             (Fixtures.pidTask Fixtures.flagsTiny Fixtures.flagsFull)
             Fixtures.bc1 Fixtures.tracks5 Fixtures.world0 with
     | Ok (_, out, _) =>
         nth 4 (tofPidMerge.full out Pion) (0, (F32.zero, F32.zero))
     | Fatal _ => (0, (F32.zero, F32.zero))
     end = (4, (F32.of_Z 80, lit_m999f))
  /\ lit_m999f <> Fixtures.lit_1_25f.
Proof. repeat split; try (vm_compute; reflexivity); discriminate. Qed.

(** ** A track without a collision *)

(** C3 (as amended).  For a track without a collision: in the two TOF
    modes of the event-time task the track is skipped with the rows
    flags 0, (0, 999) and, when enabled, (0, 0, 0, -1); the FT0-only mode
    and the Run 2 function append flags 0 and (0, 999) as well; every
    enabled Nsigma table gets the packed -999 (tiny) or (-999, -999)
    (full).  The beta and mass rows are the values of [GetBeta] and
    [GetTOFMass] for the track: the beta and mass function does not look
    at the collision of a track. *)
Theorem C3_track_without_collision :
  forall trk,
    has_collision trk = false ->
    (forall lib s cols tracks last o,
       tofEventTime.stepTOFFT0 lib s cols tracks (last, o) trk
       = (last, tofEventTime.putNotComputed s o trk)
       /\ tofEventTime.stepTOFOnly lib s cols tracks (last, o) trk
          = (last, tofEventTime.putNotComputed s o trk))
    /\ (forall s o,
          let o' := tofEventTime.putNotComputed s o trk in
          tofEventTime.tableFlags o'
          = append (tofEventTime.tableFlags o) trk 0
          /\ tofEventTime.tableEvTime o'
             = append (tofEventTime.tableEvTime o) trk (F32.zero, lit_999f)
          /\ tofEventTime.tableEvTimeTOFOnly o'
             = if tofEventTime.enableTableEvTimeTOFOnly s
               then append (tofEventTime.tableEvTimeTOFOnly o) trk
                      (0, F32.zero, F32.zero, -1)
               else tofEventTime.tableEvTimeTOFOnly o)
    /\ (forall s cols o,
          let o' := tofEventTime.stepFT0Only s cols o trk in
          tofEventTime.tableFlags o'
          = append (tofEventTime.tableFlags o) trk 0
          /\ tofEventTime.tableEvTime o'
             = append (tofEventTime.tableEvTime o) trk (F32.zero, lit_999f))
    /\ (forall cols o,
          tofEventTime.trackRun2 cols o trk
          = tofEventTime.putEvTime (tofEventTime.putFlags o trk 0) trk
              F32.zero lit_999f)
    /\ (forall lib s flagTiny flagFull out,
          tofPidMerge.mEnabledParticles s
          = tofPidMerge.enabledIndices flagTiny ->
          tofPidMerge.mEnabledParticlesFull s
          = tofPidMerge.enabledIndices flagFull ->
          exists out',
            tofPidMerge.trackStep lib s out trk = Ok out'
            /\ forall sp,
                 tofPidMerge.tiny out' sp
                 = (if flagTiny (tofPidMerge.indexOfSpecies sp) =? 1
                    then append (tofPidMerge.tiny out sp) trk
                           (packInTable lib lit_m999f)
                    else tofPidMerge.tiny out sp)
                 /\ tofPidMerge.full out' sp
                    = (if flagFull (tofPidMerge.indexOfSpecies sp) =? 1
                       then append (tofPidMerge.full out sp) trk
                              (lit_m999f, lit_m999f)
                       else tofPidMerge.full out sp))
    /\ (forall lib s o,
          let beta := GetBeta lib trk in
          let o' := tofPidMerge.trackBetaM lib s o trk in
          tofPidMerge.tablePIDBeta o'
          = (if tofPidMerge.enableTableBeta s
             then append (tofPidMerge.tablePIDBeta o) trk
                    (beta, GetBetaExpectedSigma lib trk)
             else tofPidMerge.tablePIDBeta o)
          /\ tofPidMerge.tablePIDTOFMass o'
             = (if tofPidMerge.enableTableMass s
                then append (tofPidMerge.tablePIDTOFMass o) trk
                       (if tofPidMerge.enableTOFParamsForBetaMass s
                        then GetTOFMassOfMomentum lib
                               (F32.div (tofExpMom trk)
                                  (F32.add F32.one
                                     (F32.mul (F32.of_Z (sign trk))
                                        (getMomentumChargeShift lib
                                           (tofPidMerge.mRespParamsV3 s)
                                           (eta trk)))))
                               beta
                        else GetTOFMassOfTrack lib trk beta)
                else tofPidMerge.tablePIDTOFMass o)).
Proof.
  intros trk Hno.
  split; [|split; [|split; [|split; [|split]]]].
  - intros lib s cols tracks last o.
    unfold tofEventTime.stepTOFFT0, tofEventTime.stepTOFOnly,
      tofEventTime.skipped.
    rewrite Hno; simpl; split; reflexivity.
  - intros s o; cbv zeta; unfold tofEventTime.putNotComputed.
    destruct (tofEventTime.enableTableEvTimeTOFOnly s); simpl; auto.
  - intros s cols o; cbv zeta; unfold tofEventTime.stepFT0Only.
    rewrite Hno; simpl.
    destruct (tofEventTime.enableTableEvTimeTOFOnly s); simpl; auto.
  - intros cols o; unfold tofEventTime.trackRun2; rewrite Hno; reflexivity.
  - intros lib s flagTiny flagFull out Ht Hf.
    destruct (trackStep_rows trk lib s flagTiny flagFull Ht Hf out)
      as (o' & E & T & F).
    exists o'; split; [exact E|].
    intros sp; rewrite T, F, Hno; split; reflexivity.
  - intros lib s o; cbv zeta; unfold tofPidMerge.trackBetaM.
    destruct (tofPidMerge.enableTableBeta s), (tofPidMerge.enableTableMass s),
      (tofPidMerge.enableTOFParamsForBetaMass s); simpl; auto.
Qed.

Lemma C3_witness :
  tofEventTime.stepTOFFT0 Fixtures.evLib (Fixtures.evTask 1 1) Fixtures.cols
    Fixtures.tracks5 (0, tofEventTime.noTables) Fixtures.orphan
  = (0, tofEventTime.putNotComputed (Fixtures.evTask 1 1)
          tofEventTime.noTables Fixtures.orphan).
Proof.
  refine (proj1 (proj1 (C3_track_without_collision Fixtures.orphan _)
                   Fixtures.evLib (Fixtures.evTask 1 1) Fixtures.cols
                   Fixtures.tracks5 0 tofEventTime.noTables)).
  reflexivity.
Defined.

(** C3 as stated fails on the error of the event time: a track without a
    collision gets the error 999, in each of the three modes, and 999 is
    not [kErrDiamond] (200.138...).  The beta it gets is whatever
    [GetBeta] returns for the track, here 1. *)
Lemma C3_error_is_999_not_kErrDiamond :
  has_collision Fixtures.orphan = false
  /\ rowsOf (tofEventTime.tableEvTime
               (tofEventTime.loopTOFFT0 Fixtures.evLib (Fixtures.evTask 1 1)
                  Fixtures.cols [Fixtures.orphan])) = [(F32.zero, lit_999f)]
  /\ rowsOf (tofEventTime.tableEvTime
               (tofEventTime.loopTOFOnly Fixtures.evLib (Fixtures.evTask 1 0)
                  Fixtures.cols [Fixtures.orphan])) = [(F32.zero, lit_999f)]
  /\ rowsOf (tofEventTime.tableEvTime
               (tofEventTime.loopFT0Only (Fixtures.evTask 0 1)
                  Fixtures.cols [Fixtures.orphan])) = [(F32.zero, lit_999f)]
  /\ lit_999f <> tofEventTime.kErrDiamond
  /\ F32.ltb tofEventTime.kErrDiamond lit_999f = true
  /\ rowsOf (tofPidMerge.tablePIDBeta
               (tofPidMerge.processRun3BetaM Fixtures.pidLib
                  (Fixtures.pidTask Fixtures.flagsTiny Fixtures.flagsFull)
                  [Fixtures.orphan])) = [(F32.one, F32.one)].
Proof.
  repeat split; try (vm_compute; reflexivity).
  vm_compute; discriminate.
Qed.

(** ** One row per track, in track order *)

Lemma oneRowPerTrack_putNotComputed :
  forall s o trk l,
    oneRowPerTrack s o l ->
    oneRowPerTrack s (tofEventTime.putNotComputed s o trk)
      (l ++ [globalIndex trk]).
Proof.
  intros s o trk l (H1 & H2 & H3).
  unfold oneRowPerTrack, tofEventTime.putNotComputed.
  destruct (tofEventTime.enableTableEvTimeTOFOnly s); simpl;
    rewrite ?tracksOf_append, ?H1, ?H2, ?H3; auto.
Qed.

Lemma oneRowPerTrack_trackTOFFT0 :
  forall lib s collision maker trs st l,
    oneRowPerTrack s (tofEventTime.out st) l ->
    oneRowPerTrack s
      (tofEventTime.out
         (fold_left (tofEventTime.trackTOFFT0 lib s collision maker) trs st))
      (l ++ map globalIndex trs).
Proof.
  intros lib s collision maker trs; induction trs as [|trk trs IH];
    intros st l H; simpl.
  - now rewrite app_nil_r.
  - replace (l ++ globalIndex trk :: map globalIndex trs)
      with ((l ++ [globalIndex trk]) ++ map globalIndex trs)
      by (rewrite <- app_assoc; reflexivity).
    apply IH.
    destruct H as (H1 & H2 & H3).
    unfold oneRowPerTrack, tofEventTime.trackTOFFT0.
    destruct (tofEventTime.unbias _ _ _ _ _ _ _) as [[n v] e].
    destruct (tofEventTime.addFT0 _ _ _) as [t0ac a].
    destruct (tofEventTime.combined a) as [[fl va] er].
    destruct (tofEventTime.enableTableEvTimeTOFOnly s); simpl;
      rewrite ?tracksOf_append, ?H1, ?H2, ?H3; auto.
Qed.

Lemma oneRowPerTrack_trackTOFOnly :
  forall lib s maker trs st l,
    oneRowPerTrack s (tofEventTime.outTOF st) l ->
    oneRowPerTrack s
      (tofEventTime.outTOF
         (fold_left (tofEventTime.trackTOFOnly lib s maker) trs st))
      (l ++ map globalIndex trs).
Proof.
  intros lib s maker trs; induction trs as [|trk trs IH];
    intros st l H; simpl.
  - now rewrite app_nil_r.
  - replace (l ++ globalIndex trk :: map globalIndex trs)
      with ((l ++ [globalIndex trk]) ++ map globalIndex trs)
      by (rewrite <- app_assoc; reflexivity).
    apply IH.
    destruct H as (H1 & H2 & H3).
    unfold oneRowPerTrack, tofEventTime.trackTOFOnly.
    destruct (tofEventTime.unbias _ _ _ _ _ _ _) as [[n v] e].
    destruct (tofEventTime.checkedTOF s v e) as [[fl va] er].
    destruct (tofEventTime.enableTableEvTimeTOFOnly s); simpl;
      rewrite ?tracksOf_append, ?H1, ?H2, ?H3; auto.
Qed.

Lemma oneRowPerTrack_FT0Only :
  forall s cols trs o l,
    oneRowPerTrack s o l ->
    oneRowPerTrack s (fold_left (tofEventTime.stepFT0Only s cols) trs o)
      (l ++ map globalIndex trs).
Proof.
  intros s cols trs; induction trs as [|trk trs IH]; intros o l H; simpl.
  - now rewrite app_nil_r.
  - replace (l ++ globalIndex trk :: map globalIndex trs)
      with ((l ++ [globalIndex trk]) ++ map globalIndex trs)
      by (rewrite <- app_assoc; reflexivity).
    apply IH.
    destruct H as (H1 & H2 & H3).
    unfold oneRowPerTrack, tofEventTime.stepFT0Only.
    destruct (tofEventTime.enableTableEvTimeTOFOnly s),
      (negb (has_collision trk)),
      (has_foundFT0 (cols (collisionId trk)) && t0ACValid (cols (collisionId trk)));
      simpl; rewrite ?tracksOf_append, ?H1, ?H2, ?H3; auto.
Qed.

Lemma skipped_same_collision :
  forall s cols a b,
    collisionId a = collisionId b ->
    tofEventTime.skipped s cols a = tofEventTime.skipped s cols b.
Proof.
  intros s cols a b H; unfold tofEventTime.skipped, has_collision.
  now rewrite H.
Qed.

Lemma not_skipped_has_collision :
  forall s cols a,
    tofEventTime.skipped s cols a = false -> has_collision a = true.
Proof.
  intros s cols a H; unfold tofEventTime.skipped in H.
  destruct (has_collision a); [reflexivity | discriminate].
Qed.

(** In a grouped table, a track between two tracks of one collision
    belongs to that collision. *)
Lemma grouped_between :
  forall pre t suf x y,
    grouped (pre ++ t :: suf) ->
    In x pre -> In y suf ->
    has_collision x = true ->
    collisionId y = collisionId x ->
    collisionId t = collisionId x.
Proof.
  intros pre t suf x y G Hx Hy Hc He.
  apply in_split in Hx; destruct Hx as (p1 & p2 & ->).
  apply in_split in Hy; destruct Hy as (s1 & s2 & ->).
  apply (G p1 x (p2 ++ t :: s1) y s2); auto.
  - rewrite <- !app_assoc; simpl; rewrite <- ?app_assoc; reflexivity.
  - apply in_or_app; right; now left.
Qed.

Section GroupLoop.

Variable s : tofEventTime.t.
Variable cols : Collisions.
Variable tracks : list Track.
Hypothesis Hgrouped : grouped tracks.

(** The shape shared by the two TOF loops: [inner trk o] stands for the
    tables after the loop on the tracks of the collision of [trk]. *)
Variable inner : Track -> tofEventTime.Tables -> tofEventTime.Tables.
Variable step : Z * tofEventTime.Tables -> Track -> Z * tofEventTime.Tables.
Hypothesis Hstep :
  forall last o trk,
    step (last, o) trk
    = if tofEventTime.skipped s cols trk
      then (last, tofEventTime.putNotComputed s o trk)
      else if collisionId trk =? last then (last, o)
      else (collisionId trk, inner trk o).
Hypothesis Hinner :
  forall trk o l,
    oneRowPerTrack s o l ->
    oneRowPerTrack s (inner trk o)
      (l ++ map globalIndex (sliceBy tracks (collisionId trk))).

Lemma pending_none :
  forall last suf,
    (forall y, In y suf -> collisionId y = last ->
               tofEventTime.skipped s cols y = true) ->
    pending s cols last suf = [].
Proof.
  intros last suf H; unfold pending.
  induction suf as [|y suf IH]; [reflexivity|]; simpl.
  destruct (collisionId y =? last) eqn:E; simpl.
  - apply Z.eqb_eq in E; rewrite (H y (or_introl eq_refl) E); simpl.
    apply IH; intros; apply H; auto; now right.
  - apply IH; intros; apply H; auto; now right.
Qed.

Lemma groupLoop_rows :
  forall suf pre last o,
    tracks = pre ++ suf ->
    oneRowPerTrack s o (map globalIndex pre ++ map globalIndex (pending s cols last suf)) ->
    (forall x y, In x pre -> In y suf ->
                 tofEventTime.skipped s cols x = false ->
                 collisionId y = collisionId x -> collisionId x = last) ->
    (last = -1 \/ exists x, In x pre /\ collisionId x = last
                            /\ has_collision x = true) ->
    oneRowPerTrack s (snd (fold_left step suf (last, o)))
      (map globalIndex tracks).
Proof.
  intros suf; induction suf as [|t suf IH]; intros pre last o Htr Hrows HK Hlast.
  - simpl in *; rewrite app_nil_r in Hrows, Htr; subst; exact Hrows.
  - simpl; rewrite Hstep.
    assert (Htr' : tracks = (pre ++ [t]) ++ suf)
      by (rewrite <- app_assoc; exact Htr).
    assert (G : grouped (pre ++ t :: suf)) by (rewrite <- Htr; exact Hgrouped).
    (* no track of the cached collision follows a track of another one *)
    assert (Hclosed :
              collisionId t <> last \/ tofEventTime.skipped s cols t = true ->
              forall y, In y suf -> collisionId y = last ->
                        tofEventTime.skipped s cols y = true).
    { intros Ht y Hy Hyl.
      destruct (tofEventTime.skipped s cols y) eqn:Hsy; [reflexivity|exfalso].
      destruct Hlast as [->|(x & Hx & Hxl & Hxc)].
      - apply not_skipped_has_collision in Hsy.
        unfold has_collision in Hsy; rewrite Hyl in Hsy; discriminate.
      - assert (Et : collisionId t = collisionId x)
          by (apply (grouped_between pre t suf x y); auto; congruence).
        destruct Ht as [Ht|Ht]; [congruence|].
        rewrite (skipped_same_collision s cols t y) in Ht by congruence.
        congruence. }
    destruct (tofEventTime.skipped s cols t) eqn:Hskip.
    + (* the track is skipped: one row *)
      apply (IH (pre ++ [t]) last); auto.
      * rewrite (pending_none last suf) by (apply Hclosed; now right).
        rewrite app_nil_r, map_app; simpl.
        apply oneRowPerTrack_putNotComputed.
        replace (pending s cols last (t :: suf)) with (@nil Track) in Hrows.
        -- now rewrite app_nil_r in Hrows.
        -- symmetry; apply pending_none.
           intros y [<-|Hy] Hyl; [exact Hskip|].
           apply Hclosed; auto.
      * intros x y Hx Hy Hsx Hxy.
        apply in_app_or in Hx; destruct Hx as [Hx|[<-|[]]].
        -- apply (HK x y); auto; now right.
        -- congruence.
      * destruct Hlast as [->|(x & Hx & Hxl & Hxc)]; [now left|right].
        exists x; split; [apply in_or_app; now left|auto].
    + destruct (collisionId t =? last) eqn:Elast.
      * (* a further track of the cached collision: its row is there *)
        apply Z.eqb_eq in Elast.
        apply (IH (pre ++ [t]) last); auto.
        -- unfold pending in Hrows; simpl in Hrows.
           rewrite Elast, Z.eqb_refl, Hskip in Hrows; simpl in Hrows.
           rewrite map_app, <- app_assoc; exact Hrows.
        -- intros x y Hx Hy Hsx Hxy.
           apply in_app_or in Hx; destruct Hx as [Hx|[<-|[]]].
           ++ apply (HK x y); auto; now right.
           ++ exact Elast.
        -- right; exists t; split; [apply in_or_app; right; now left|].
           split; [exact Elast|].
           apply (not_skipped_has_collision s cols); exact Hskip.
      * (* the first track of a collision: the rows of all its tracks *)
        apply Z.eqb_neq in Elast.
        assert (Hc : has_collision t = true)
          by (apply (not_skipped_has_collision s cols); exact Hskip).
        assert (Hpre : forall x, In x pre ->
                         (collisionId x =? collisionId t) = false).
        { intros x Hx; apply Z.eqb_neq; intros Ex; apply Elast.
          rewrite <- Ex.
          apply (HK x t); [exact Hx|now left| |congruence].
          rewrite (skipped_same_collision s cols x t Ex); exact Hskip. }
        assert (Hold : pending s cols last (t :: suf) = []).
        { apply pending_none.
          intros y [<-|Hy] Hyl; [congruence|].
          apply Hclosed; auto. }
        assert (Hslice :
                  sliceBy tracks (collisionId t)
                  = t :: pending s cols (collisionId t) suf).
        { rewrite Htr; unfold sliceBy; rewrite filter_app; simpl.
          rewrite Z.eqb_refl.
          replace (filter (fun t0 => collisionId t0 =? collisionId t) pre)
            with (@nil Track).
          - simpl; f_equal; unfold pending.
            apply filter_ext_in; intros y Hy.
            destruct (collisionId y =? collisionId t) eqn:Ey; [|reflexivity].
            apply Z.eqb_eq in Ey.
            rewrite (skipped_same_collision s cols y t Ey), Hskip.
            reflexivity.
          - symmetry; clear - Hpre.
            induction pre as [|x pre IHpre]; [reflexivity|]; simpl.
            rewrite (Hpre x (or_introl eq_refl)).
            apply IHpre; intros; apply Hpre; now right. }
        apply (IH (pre ++ [t]) (collisionId t)); auto.
        -- rewrite Hold, app_nil_r in Hrows.
           pose proof (Hinner t o _ Hrows) as Hin.
           rewrite Hslice in Hin; simpl in Hin.
           rewrite map_app, <- app_assoc; exact Hin.
        -- intros x y Hx Hy Hsx Hxy.
           apply in_app_or in Hx; destruct Hx as [Hx|[<-|[]]]; [|reflexivity].
           symmetry; apply (grouped_between pre t suf x y); auto.
           apply (not_skipped_has_collision s cols); exact Hsx.
        -- right; exists t; split; [apply in_or_app; right; now left|auto].
Qed.

End GroupLoop.

Lemma autoset_keeps :
  forall env s w s1 w1,
    tofEventTime.autoset env s w = Ok (s1, w1) ->
    w1 = w
    /\ tofEventTime.enableTableEvTimeTOFOnly s1
       = tofEventTime.enableTableEvTimeTOFOnly s
    /\ tofEventTime.mRespParamsV3 s1 = tofEventTime.mRespParamsV3 s.
Proof.
  intros env s w s1 w1; unfold tofEventTime.autoset.
  destruct ((tofEventTime.mComputeEvTimeWithTOF s =? -1)
            || (tofEventTime.mComputeEvTimeWithFT0 s =? -1)).
  - destruct (_ =? kCollSyspp).
    + unfold ret; intros H; inversion H; subst; auto.
    + destruct (_ =? kCollSysPbPb).
      * unfold ret; intros H; inversion H; subst; auto.
      * discriminate.
  - unfold ret; intros H; inversion H; subst; auto.
Qed.

(** C4 (as amended).  Event-time task, Run 3, with the event-time table
    [TOFEvTime] enabled, the tracks grouped by collision, the calibration
    set-up returned and one of the three supported combinations of
    estimators selected (explicitly or by the automatic choice): the
    function returns, and each of its tables ([tableEvTime],
    [tableFlags], and [tableEvTimeTOFOnly] when enabled) holds exactly
    one row per input track, row i being the one appended for input
    track i; skipped tracks and tracks of an already cached collision
    are included. *)
Theorem C4_one_row_per_track :
  forall env lib s cols bc tracks w c1 p1 w1 s1 w2,
    grouped tracks ->
    tofEventTime.enableTableTOFEvTime s = true ->
    TOFCalibConfig.processSetup env (tofEventTime.mTOFCalibConfig s)
      (tofEventTime.mRespParamsV3 s) bc w = Ok ((c1, p1), w1) ->
    tofEventTime.autoset env (tofEventTime.set_calib s c1 p1) w1
    = Ok (s1, w2) ->
    (tofEventTime.mComputeEvTimeWithTOF s1 = 1
     /\ tofEventTime.mComputeEvTimeWithFT0 s1 = 1)
    \/ (tofEventTime.mComputeEvTimeWithTOF s1 = 1
        /\ tofEventTime.mComputeEvTimeWithFT0 s1 = 0)
    \/ (tofEventTime.mComputeEvTimeWithTOF s1 = 0
        /\ tofEventTime.mComputeEvTimeWithFT0 s1 = 1) ->
    exists out,
      tofEventTime.processRun3 env lib s cols bc tracks w = Ok ((s1, out), w2)
      /\ oneRowPerTrack s1 out (map globalIndex tracks)
      /\ tofEventTime.enableTableEvTimeTOFOnly s1
         = tofEventTime.enableTableEvTimeTOFOnly s.
Proof.
  intros env lib s cols bc tracks w c1 p1 w1 s1 w2 G Hen Hsetup Hauto Hmode.
  destruct (autoset_keeps _ _ _ _ _ Hauto) as (_ & Hflag & _).
  unfold tofEventTime.processRun3; rewrite Hen; simpl.
  unfold bind; rewrite Hsetup; simpl; rewrite Hauto.
  assert (Hnil : oneRowPerTrack s1 tofEventTime.noTables
                   (map globalIndex [] ++ map globalIndex (pending s1 cols (-1) tracks))).
  { rewrite (pending_none s1 cols).
    - unfold oneRowPerTrack; simpl.
      destruct (tofEventTime.enableTableEvTimeTOFOnly s1); auto.
    - intros y _ Hy; unfold tofEventTime.skipped, has_collision.
      rewrite Hy; reflexivity. }
  destruct Hmode as [(-> & ->)|[(-> & ->)|(-> & ->)]]; simpl; unfold ret.
  - eexists; split; [reflexivity|]; split; [|exact Hflag].
    unfold tofEventTime.loopTOFFT0.
    apply (groupLoop_rows s1 cols tracks G
             (fun trk o =>
                tofEventTime.out
                  (fold_left
                     (tofEventTime.trackTOFFT0 lib s1 (cols (collisionId trk))
                        (tofEventTime.evTimeMakerForTracks lib s1
                           (sliceBy tracks (collisionId trk))
                           (tofEventTime.mRespParamsV3 s1)
                           tofEventTime.kDiamond))
                     (sliceBy tracks (collisionId trk))
                     (tofEventTime.mkPerCollision 0
                        (F64.to_float (mEventTime lib
                           (tofEventTime.evTimeMakerForTracks lib s1
                              (sliceBy tracks (collisionId trk))
                              (tofEventTime.mRespParamsV3 s1)
                              tofEventTime.kDiamond)),
                         F64.to_float (mEventTimeError lib
                           (tofEventTime.evTimeMakerForTracks lib s1
                              (sliceBy tracks (collisionId trk))
                              (tofEventTime.mRespParamsV3 s1)
                              tofEventTime.kDiamond)))
                        (F32.zero, lit_999f) o)))
             (tofEventTime.stepTOFFT0 lib s1 cols tracks))
      with (pre := []); auto.
    + intros trk o l H; apply oneRowPerTrack_trackTOFFT0; exact H.
    + intros x y [].
  - eexists; split; [reflexivity|]; split; [|exact Hflag].
    unfold tofEventTime.loopTOFOnly.
    apply (groupLoop_rows s1 cols tracks G
             (fun trk o =>
                tofEventTime.outTOF
                  (fold_left
                     (tofEventTime.trackTOFOnly lib s1
                        (tofEventTime.evTimeMakerForTracks lib s1
                           (sliceBy tracks (collisionId trk))
                           (tofEventTime.mRespParamsV3 s1)
                           tofEventTime.kDiamond))
                     (sliceBy tracks (collisionId trk))
                     (tofEventTime.mkPerCollisionTOF 0
                        (F64.to_float (mEventTime lib
                           (tofEventTime.evTimeMakerForTracks lib s1
                              (sliceBy tracks (collisionId trk))
                              (tofEventTime.mRespParamsV3 s1)
                              tofEventTime.kDiamond)))
                        (F64.to_float (mEventTimeError lib
                           (tofEventTime.evTimeMakerForTracks lib s1
                              (sliceBy tracks (collisionId trk))
                              (tofEventTime.mRespParamsV3 s1)
                              tofEventTime.kDiamond)))
                        o)))
             (tofEventTime.stepTOFOnly lib s1 cols tracks))
      with (pre := []); auto.
    + intros trk o l H; apply oneRowPerTrack_trackTOFOnly; exact H.
    + intros x y [].
  - eexists; split; [reflexivity|]; split; [|exact Hflag].
    unfold tofEventTime.loopFT0Only.
    apply (oneRowPerTrack_FT0Only s1 cols tracks tofEventTime.noTables []).
    unfold oneRowPerTrack; simpl.
    destruct (tofEventTime.enableTableEvTimeTOFOnly s1); auto.
Qed.

Ltac crack H :=
  repeat match type of H with
  | _ = ?l ++ _ => is_var l; destruct l; simpl in H
  | [] = _ :: _ => discriminate H
  | _ :: _ = [] => discriminate H
  | ?x :: ?r = ?y :: ?r' =>
      let E := fresh "E" in
      injection H as E H; try subst y
  end.

Lemma grouped_tracks5 : grouped Fixtures.tracks5.
Proof.
  unfold grouped, Fixtures.tracks5.
  intros l1 a l2 b l3 H Ha Hb x Hx.
  crack H; simpl in *; try discriminate; try contradiction;
  repeat match goal with
  | H : _ \/ _ |- _ => destruct H; subst
  | H : False |- _ => contradiction
  end; try reflexivity; try discriminate.
Qed.

Lemma C4_witness :
  exists out,
    tofEventTime.processRun3 Fixtures.env Fixtures.evLib
      (Fixtures.evTask (-1) (-1)) Fixtures.cols Fixtures.bc1
      Fixtures.tracks5 Fixtures.world0
    = Ok ((Fixtures.evTaskAuto, out), Fixtures.worldAuto)
    /\ oneRowPerTrack Fixtures.evTaskAuto out [0; 1; 2; 3; 4]
    /\ tofEventTime.enableTableEvTimeTOFOnly Fixtures.evTaskAuto = true.
Proof.
  refine (C4_one_row_per_track Fixtures.env Fixtures.evLib
            (Fixtures.evTask (-1) (-1)) Fixtures.cols Fixtures.bc1
            Fixtures.tracks5 Fixtures.world0
            (tofEventTime.mTOFCalibConfig Fixtures.evTaskAuto)
            defaultParams Fixtures.worldAuto
            Fixtures.evTaskAuto Fixtures.worldAuto
            grouped_tracks5 _ _ _ _).
  - reflexivity.
  - vm_compute; reflexivity.
  - vm_compute; reflexivity.
  - right; left; split; reflexivity.
Defined.

(** C4 as stated fails: in a workflow that requires the table
    [EvTimeTOFOnly] and not [TOFEvTime], [init] sets the task up, and
    [processRun3] returns at its first test, before any row: the enabled
    table holds no row for the five tracks. *)
Lemma C4_TOF_only_table_alone :
  tofEventTime.init Fixtures.env Fixtures.md Fixtures.ctxTOFOnly
    (Fixtures.evTask (-1) (-1)) Fixtures.lit_0_5f (F32.of_Z 2) 10
    Fixtures.switchesOff Fixtures.world0
  = Ok (tofEventTime.mkTask Fixtures.evTaskTOFOnly (mkSwitches false true)
          (Some 10), Fixtures.evWorldTOFOnly)
  /\ tofEventTime.enableTableTOFEvTime Fixtures.evTaskTOFOnly = false
  /\ tofEventTime.enableTableEvTimeTOFOnly Fixtures.evTaskTOFOnly = true
  /\ grouped Fixtures.tracks5
  /\ tofEventTime.processRun3 Fixtures.env Fixtures.evLib
       Fixtures.evTaskTOFOnly Fixtures.cols Fixtures.bc1 Fixtures.tracks5
       Fixtures.evWorldTOFOnly
     = Ok ((Fixtures.evTaskTOFOnly, tofEventTime.noTables),
           Fixtures.evWorldTOFOnly)
  /\ tracksOf (tofEventTime.tableEvTimeTOFOnly tofEventTime.noTables) = []
  /\ map globalIndex Fixtures.tracks5 = [0; 1; 2; 3; 4]
  /\ ~ oneRowPerTrack Fixtures.evTaskTOFOnly tofEventTime.noTables
         (map globalIndex Fixtures.tracks5).
Proof.
  split; [vm_compute; reflexivity|].
  split; [reflexivity|].
  split; [reflexivity|].
  split; [exact grouped_tracks5|].
  split; [vm_compute; reflexivity|].
  split; [reflexivity|].
  split; [reflexivity|].
  intros (H & _); vm_compute in H; discriminate H.
Qed.

(** ** Rounding in the normal range *)

Lemma digits2_pos_bounds :
  forall m : positive,
    2 ^ (Zpos (digits2_pos m) - 1) <= Zpos m < 2 ^ Zpos (digits2_pos m).
Proof.
  induction m as [m IH|m IH|]; simpl digits2_pos.
  - rewrite Pos2Z.inj_succ.
    replace (Z.succ (Zpos (digits2_pos m)) - 1) with (Zpos (digits2_pos m)) by lia.
    rewrite Z.pow_succ_r by lia.
    assert (0 < 2 ^ (Zpos (digits2_pos m) - 1)) by (apply Z.pow_pos_nonneg; lia).
    replace (2 ^ Zpos (digits2_pos m)) with (2 * 2 ^ (Zpos (digits2_pos m) - 1)) in *
      by (rewrite <- Z.pow_succ_r by lia; f_equal; lia).
    lia.
  - rewrite Pos2Z.inj_succ.
    replace (Z.succ (Zpos (digits2_pos m)) - 1) with (Zpos (digits2_pos m)) by lia.
    rewrite Z.pow_succ_r by lia.
    replace (2 ^ Zpos (digits2_pos m)) with (2 * 2 ^ (Zpos (digits2_pos m) - 1)) in *
      by (rewrite <- Z.pow_succ_r by lia; f_equal; lia).
    lia.
  - simpl; lia.
Qed.

Lemma digits2_pos_unique :
  forall (m : positive) (d : Z),
    2 ^ (d - 1) <= Zpos m < 2 ^ d -> Zpos (digits2_pos m) = d.
Proof.
  intros m d [Hlo Hhi].
  destruct (digits2_pos_bounds m) as [Hlo' Hhi'].
  assert (0 < d).
  { destruct (Z_lt_le_dec 0 d); [assumption|].
    destruct (Z.eq_dec d 0) as [->|]; [simpl in Hhi; lia|].
    rewrite Z.pow_neg_r in Hhi by lia; lia. }
  destruct (Z_lt_le_dec (Zpos (digits2_pos m)) d) as [Hlt|Hge].
  - assert (2 ^ Zpos (digits2_pos m) <= 2 ^ (d - 1))
      by (apply Z.pow_le_mono_r; lia).
    lia.
  - destruct (Z_lt_le_dec d (Zpos (digits2_pos m))) as [Hlt|Hle]; [|lia].
    assert (2 ^ d <= 2 ^ (Zpos (digits2_pos m) - 1))
      by (apply Z.pow_le_mono_r; lia).
    lia.
Qed.

(** [iter_pos] is iteration. *)
Lemma iter_pos_comm :
  forall (A : Type) (f : A -> A) (n : positive) (x : A),
    iter_pos f n (f x) = f (iter_pos f n x).
Proof.
  intros A f n; induction n as [n IH|n IH|]; intros x; simpl.
  - now rewrite !IH.
  - now rewrite !IH.
  - reflexivity.
Qed.

Lemma iter_pos_succ :
  forall (A : Type) (f : A -> A) (n : positive) (x : A),
    iter_pos f (Pos.succ n) x = f (iter_pos f n x).
Proof.
  intros A f n; induction n as [n IH|n IH|]; intros x; simpl.
  - rewrite !IH, !iter_pos_comm; reflexivity.
  - rewrite !iter_pos_comm; reflexivity.
  - reflexivity.
Qed.

(** One step of the shift: the mantissa is halved, the round bit is the
    bit shifted out, the sticky bit collects the earlier ones. *)
Lemma shr_1_spec :
  forall m r s,
    0 <= m ->
    shr_1 (Build_shr_record m r s)
    = Build_shr_record (m / 2) (Z.odd m) (r || s).
Proof.
  intros m r s Hm; destruct m as [|q|q]; [reflexivity| |lia].
  destruct q as [q|q|]; simpl shr_1; f_equal.
  - rewrite Pos2Z.inj_xI. apply (Z.div_unique _ 2 _ 1); lia.
  - rewrite Pos2Z.inj_xO. apply (Z.div_unique _ 2 _ 0); lia.
Qed.

(** [n] steps: the mantissa is divided by [2^n]; the two bits are both
    clear exactly when nothing but zeros was shifted out of an exact
    value. *)
Lemma shr_iter_spec :
  forall (n : positive) m r s,
    0 <= m ->
    let res := iter_pos shr_1 n (Build_shr_record m r s) in
    shr_m res = m / 2 ^ Zpos n
    /\ (shr_r res || shr_s res = false
        <-> (r || s = false /\ m mod 2 ^ Zpos n = 0)).
Proof.
  intros n; induction n as [|n IH] using Pos.peano_ind; intros m r s Hm.
  - cbv zeta.
    change (iter_pos shr_1 1 (Build_shr_record m r s))
      with (shr_1 (Build_shr_record m r s)).
    rewrite shr_1_spec by exact Hm; simpl.
    split; [reflexivity|].
    change (2 ^ 1) with 2; rewrite Zmod_odd.
    destruct (Z.odd m), (r || s); simpl; intuition congruence.
  - cbv zeta; rewrite iter_pos_succ.
    specialize (IH m r s Hm); cbv zeta in IH.
    destruct (iter_pos shr_1 n (Build_shr_record m r s)) as [mk rk sk].
    cbn [shr_m shr_r shr_s] in IH; destruct IH as [IHm IHx].
    assert (Hp : 0 < 2 ^ Zpos n) by (apply Z.pow_pos_nonneg; lia).
    assert (Hk : 0 <= mk) by (subst mk; apply Z.div_pos; lia).
    rewrite shr_1_spec by exact Hk; cbn [shr_m shr_r shr_s].
    rewrite Pos2Z.inj_succ, Z.pow_succ_r by lia.
    split.
    + subst mk. rewrite Z.div_div by lia. f_equal; lia.
    + assert (Hsplit : m mod (2 * 2 ^ Zpos n) = 0
                       <-> (m mod 2 ^ Zpos n = 0 /\ Z.odd mk = false)).
      { subst mk. rewrite Z.mul_comm, Z.rem_mul_r by lia.
        assert (H0 : 0 <= m mod 2 ^ Zpos n < 2 ^ Zpos n)
          by (apply Z.mod_pos_bound; lia).
        pose proof (Zmod_odd (m / 2 ^ Zpos n)) as Ho.
        destruct (Z.odd (m / 2 ^ Zpos n)); rewrite Ho; split; intros; try lia;
          try (destruct H; discriminate). }
      destruct (Z.odd mk), (rk || sk) eqn:Ek; simpl; intuition (try congruence).
Qed.

Lemma loc_of_shr_record_exact :
  forall res,
    loc_of_shr_record res = loc_Exact <-> shr_r res || shr_s res = false.
Proof.
  intros [m r s]; destruct r, s; simpl; split; congruence.
Qed.

Lemma shr_spec :
  forall m l e n,
    0 <= m -> 0 <= n ->
    snd (shr (shr_record_of_loc m l) e n) = e + n
    /\ shr_m (fst (shr (shr_record_of_loc m l) e n)) = m / 2 ^ n
    /\ (l = loc_Exact -> m mod 2 ^ n = 0 ->
        loc_of_shr_record (fst (shr (shr_record_of_loc m l) e n)) = loc_Exact).
Proof.
  intros m l e n Hm Hn; destruct n as [|pn|pn]; [| |lia].
  - simpl; rewrite Z.add_0_r, Z.div_1_r.
    split; [reflexivity|]; split.
    + destruct l as [|[]]; reflexivity.
    + intros -> _; reflexivity.
  - unfold shr; cbn [fst snd].
    split; [reflexivity|].
    assert (Hrec : exists r s, shr_record_of_loc m l = Build_shr_record m r s
                               /\ (l = loc_Exact -> r || s = false)).
    { destruct l as [|[]]; simpl; eexists; eexists; split;
        try reflexivity; intros; congruence. }
    destruct Hrec as (r & s & -> & Hex).
    destruct (shr_iter_spec pn m r s Hm) as [H1 H2].
    split; [exact H1|].
    intros Hl Hmod; apply loc_of_shr_record_exact, H2; auto.
Qed.

Lemma round_nearest_even_cases :
  forall m l,
    (round_nearest_even m l = m \/ round_nearest_even m l = m + 1)
    /\ (l = loc_Exact -> round_nearest_even m l = m).
Proof.
  intros m l; destruct l as [|[]]; simpl; try (destruct (Z.even m));
    split; auto; intros; discriminate.
Qed.

Section RoundAux.

Variables prec emax : Z.
Hypothesis Hprec : 0 < prec.

(** Rounding a mantissa of at least [prec] digits whose exponent after
    the shift is not below [emin]: the mantissa is cut to [prec] digits
    and moved by at most one unit; when the unit carries into digit
    [prec + 1] the exponent goes up by one. *)
Lemma binary_round_aux_normal :
  forall sx (mx : positive) ex lx,
    let d := Zpos (digits2_pos mx) in
    let n := d - prec in
    let e1 := ex + n in
    let m1 := Zpos mx / 2 ^ n in
    prec <= d ->
    emin prec emax <= e1 ->
    2 ^ (prec - 1) <= m1 < 2 ^ prec
    /\ exists m2 : positive,
         (Zpos m2 = m1 \/ Zpos m2 = m1 + 1)
         /\ (lx = loc_Exact -> Zpos mx mod 2 ^ n = 0 -> Zpos m2 = m1)
         /\ binary_round_aux prec emax sx (Zpos mx) ex lx
            = if Zpos m2 <? 2 ^ prec
              then (if e1 <=? emax - prec
                    then S754_finite sx m2 e1 else S754_infinity sx)
              else (if e1 + 1 <=? emax - prec
                    then S754_finite sx (Z.to_pos (2 ^ (prec - 1))) (e1 + 1)
                    else S754_infinity sx).
Proof.
  intros sx mx ex lx d n e1 m1 Hd He.
  destruct (digits2_pos_bounds mx) as [Hlo Hhi]; fold d in Hlo, Hhi.
  assert (Hn : 0 <= n) by (unfold n; lia).
  assert (Hpn : 0 < 2 ^ n) by (apply Z.pow_pos_nonneg; lia).
  assert (Hm1 : 2 ^ (prec - 1) <= m1 < 2 ^ prec).
  { unfold m1; split.
    - apply Z.div_le_lower_bound; [lia|].
      rewrite <- Z.pow_add_r by lia.
      replace (n + (prec - 1)) with (d - 1) by (unfold n; lia); exact Hlo.
    - apply Z.div_lt_upper_bound; [lia|].
      rewrite <- Z.pow_add_r by lia.
      replace (n + prec) with d by (unfold n; lia); exact Hhi. }
  split; [exact Hm1|].
  assert (Hpp : 0 < 2 ^ (prec - 1)) by (apply Z.pow_pos_nonneg; lia).
  unfold binary_round_aux, shr_fexp.
  change (Zdigits2 (Zpos mx)) with d.
  assert (Hfexp : fexp prec emax (d + ex) - ex = n).
  { unfold fexp; rewrite Z.max_l by (unfold e1, n in He; lia). unfold n; lia. }
  rewrite Hfexp.
  destruct (shr_spec (Zpos mx) lx ex n (Pos2Z.is_nonneg mx) Hn)
    as (Hse & Hsm & Hsx).
  destruct (shr (shr_record_of_loc (Zpos mx) lx) ex n) as [mrs' e'].
  cbn [fst snd] in Hse, Hsm, Hsx; subst e'; fold e1; fold m1 in Hsm.
  rewrite Hsm.
  destruct (round_nearest_even_cases m1 (loc_of_shr_record mrs')) as [Hc Hx].
  set (m2z := round_nearest_even m1 (loc_of_shr_record mrs')) in *.
  assert (Hm2pos : 0 < m2z) by lia.
  destruct m2z as [|m2|m2] eqn:Em2; try lia.
  exists m2; split; [exact Hc|].
  split; [intros Hl Hmod; apply Hx, Hsx; assumption|].
  change (Zdigits2 (Zpos m2)) with (Zpos (digits2_pos m2)).
  destruct (Zpos m2 <? 2 ^ prec) eqn:Elt.
  - apply Z.ltb_lt in Elt.
    rewrite (digits2_pos_unique m2 prec) by lia.
    assert (Hf2 : fexp prec emax (prec + e1) - e1 = 0).
    { unfold fexp; rewrite Z.max_l by lia; lia. }
    rewrite Hf2; simpl; reflexivity.
  - apply Z.ltb_ge in Elt.
    assert (Heq : Zpos m2 = 2 ^ prec) by lia.
    rewrite (digits2_pos_unique m2 (prec + 1)).
    2:{ replace (prec + 1 - 1) with prec by lia.
        rewrite Heq, Z.pow_add_r by lia. lia. }
    assert (Hf2 : fexp prec emax (prec + 1 + e1) - e1 = 1).
    { unfold fexp; rewrite Z.max_l by lia; lia. }
    rewrite Hf2.
    unfold shr; cbn [shr_record_of_loc].
    change (iter_pos shr_1 1 ?x) with (shr_1 x).
    rewrite shr_1_spec by lia; cbn [shr_m].
    rewrite Heq.
    replace (2 ^ prec / 2) with (2 ^ (prec - 1)).
    2:{ replace prec with (Z.succ (prec - 1)) at 2 by lia.
        rewrite Z.pow_succ_r by lia.
        rewrite Z.mul_comm, Z.div_mul by lia; reflexivity. }
    destruct (2 ^ (prec - 1)) as [|q|q] eqn:Eq; try lia.
    simpl Z.to_pos; reflexivity.
Qed.

(** Rounding does not cross a number of the format: when the exact value
    (the mantissa, or the next integer when the location is inexact) does
    not exceed [mv * 2^ev] with [mv] of at most [prec] digits, neither
    does the rounded value, which is then finite. *)
Lemma binary_round_aux_le :
  forall (mx : positive) ex lx (mv ev : Z),
    let d := Zpos (digits2_pos mx) in
    let e1 := ex + (d - prec) in
    prec <= d ->
    emin prec emax <= e1 ->
    0 < mv < 2 ^ prec ->
    ev <= emax - prec ->
    ex <= ev ->
    Zpos mx + (match lx with loc_Exact => 0 | _ => 1 end) <= mv * 2 ^ (ev - ex) ->
    exists m3 e3,
      binary_round_aux prec emax false (Zpos mx) ex lx = S754_finite false m3 e3
      /\ 2 ^ (prec - 1) <= Zpos m3 < 2 ^ prec
      /\ e1 <= e3 <= ev
      /\ Zpos m3 <= mv * 2 ^ (ev - e3).
Proof.
  intros mx ex lx mv ev d e1 Hd He Hmv Hev Hex Hu.
  destruct (binary_round_aux_normal false mx ex lx Hd He)
    as (Hm1 & m2 & Hc & Hx & ->).
  fold d in Hm1, Hc, Hx |- *.
  set (n := d - prec) in *; fold e1.
  set (m1 := Zpos mx / 2 ^ n) in *.
  destruct (digits2_pos_bounds mx) as [Hlo Hhi]; fold d in Hlo, Hhi.
  assert (Hn : 0 <= n) by (unfold n; lia).
  assert (Hpn : 0 < 2 ^ n) by (apply Z.pow_pos_nonneg; lia).
  assert (Hpe : 0 < 2 ^ (ev - ex)) by (apply Z.pow_pos_nonneg; lia).
  assert (Hmx : Zpos mx <= mv * 2 ^ (ev - ex)) by (destruct lx; lia).
  (* the threshold lies on the grid of the rounded value *)
  assert (Ht : n <= ev - ex).
  { destruct (Z_lt_le_dec (ev - ex) n) as [Hlt|]; [exfalso|assumption].
    assert (2 ^ (prec + (ev - ex)) <= 2 ^ (d - 1))
      by (apply Z.pow_le_mono_r; unfold n in Hlt; lia).
    rewrite Z.pow_add_r in H by lia.
    assert (mv * 2 ^ (ev - ex) < 2 ^ prec * 2 ^ (ev - ex))
      by (apply Z.mul_lt_mono_pos_r; lia).
    lia. }
  set (t := ev - e1).
  assert (Ht0 : 0 <= t) by (unfold t, e1; fold n; lia).
  assert (Hpt : 0 < 2 ^ t) by (apply Z.pow_pos_nonneg; lia).
  set (k := mv * 2 ^ t).
  assert (Hk : mv * 2 ^ (ev - ex) = 2 ^ n * k).
  { unfold k. replace (ev - ex) with (t + n) by (unfold t, e1; fold n; lia).
    rewrite Z.pow_add_r by lia. ring. }
  rewrite Hk in Hu, Hmx.
  assert (Hm2 : Zpos m2 <= k).
  { destruct Hc as [Hc|Hc]; rewrite Hc.
    - unfold m1; apply Z.div_le_upper_bound; lia.
    - assert (m1 < k); [|lia].
      unfold m1; apply Z.div_lt_upper_bound; [lia|].
      destruct lx; try lia.
      destruct (Z.eq_dec (Zpos mx) (2 ^ n * k)) as [Heq|]; [exfalso|lia].
      assert (Zpos m2 = m1); [|lia].
      apply Hx; [reflexivity|].
      rewrite Heq, Z.mul_comm; apply Z.mod_mul; lia. }
  destruct (Zpos m2 <? 2 ^ prec) eqn:Elt.
  - apply Z.ltb_lt in Elt.
    assert (El : (e1 <=? emax - prec) = true) by (apply Z.leb_le; unfold t in Ht0; lia).
    rewrite El.
    exists m2, e1; split; [reflexivity|].
    split; [lia|]. split; [unfold t in Ht0; lia|exact Hm2].
  - apply Z.ltb_ge in Elt.
    assert (Ht1 : 1 <= t).
    { destruct (Z.eq_dec t 0) as [E0|]; [|lia].
      unfold k in Hm2; rewrite E0 in Hm2; simpl in Hm2; lia. }
    assert (El : (e1 + 1 <=? emax - prec) = true) by (apply Z.leb_le; unfold t in Ht1; lia).
    rewrite El.
    assert (Hpp : 0 < 2 ^ (prec - 1)) by (apply Z.pow_pos_nonneg; lia).
    exists (Z.to_pos (2 ^ (prec - 1))), (e1 + 1); split; [reflexivity|].
    rewrite Z2Pos.id by lia.
    assert (Hp2 : 2 ^ prec = 2 * 2 ^ (prec - 1)).
    { replace prec with (Z.succ (prec - 1)) at 1 by lia.
      rewrite Z.pow_succ_r by lia; reflexivity. }
    split; [lia|]. split; [unfold t in Ht1; lia|].
    replace (ev - (e1 + 1)) with (t - 1) by (unfold t; lia).
    assert (Ht2 : 2 ^ t = 2 * 2 ^ (t - 1)).
    { replace t with (Z.succ (t - 1)) at 1 by lia.
      rewrite Z.pow_succ_r by lia; reflexivity. }
    unfold k in Hm2; rewrite Ht2 in Hm2. lia.
Qed.

End RoundAux.

Lemma div_eucl_div_mod :
  forall a b, Z.div_eucl a b = (a / b, a mod b).
Proof.
  intros a b; unfold Z.div, Z.modulo; destruct (Z.div_eucl a b); reflexivity.
Qed.

Lemma new_location_exact :
  forall nb r,
    (r = 0 -> new_location nb r = loc_Exact)
    /\ (r <> 0 -> exists c, new_location nb r = loc_Inexact c).
Proof.
  intros nb r; unfold new_location, new_location_even, new_location_odd.
  split.
  - intros ->; destruct (Z.even nb); reflexivity.
  - intros Hr; apply Z.eqb_neq in Hr.
    destruct (Z.even nb); rewrite Hr; eexists; reflexivity.
Qed.

Lemma pos_iter_xO :
  forall (n m : positive), Zpos (Pos.iter xO m n) = Zpos m * 2 ^ Zpos n.
Proof.
  intros n m; induction n as [|n IH] using Pos.peano_ind.
  - simpl; lia.
  - rewrite Pos.iter_succ, Pos2Z.inj_xO, IH, Pos2Z.inj_succ.
    rewrite Z.pow_succ_r by lia; ring.
Qed.

(** *** The four operations of [errorOfWeights] *)

(** A normal binary32 number converts to the same value with a 53-bit
    mantissa. *)
Lemma of_float_normal :
  forall (m : positive) (e : Z),
    2 ^ 23 <= Zpos m < 2 ^ 24 -> -149 <= e <= 104 ->
    exists M : positive,
      Zpos M = Zpos m * 2 ^ 29
      /\ F64.of_float (S754_finite false m e) = S754_finite false M (e - 29).
Proof.
  intros m e Hm He.
  unfold F64.of_float, binary_round, F64.prec, F64.emax.
  rewrite (digits2_pos_unique m 24) by (simpl; lia).
  assert (Hf : fexp 53 1024 (24 + e) = e - 29).
  { unfold fexp, emin; lia. }
  rewrite Hf; unfold shl_align.
  replace (e - 29 - e) with (-29) by lia.
  set (M := Pos.iter xO m 29).
  assert (HM : Zpos M = Zpos m * 2 ^ 29) by (apply pos_iter_xO).
  exists M; split; [exact HM|].
  assert (HdM : Zpos (digits2_pos M) = 53).
  { apply digits2_pos_unique; rewrite HM.
    change (2 ^ (53 - 1)) with (2 ^ 23 * 2 ^ 29).
    change (2 ^ 53) with (2 ^ 24 * 2 ^ 29). lia. }
  destruct (binary_round_aux_normal 53 1024 ltac:(lia) false M (e - 29) loc_Exact)
    as (_ & m2 & _ & Hx & ->).
  - rewrite HdM; lia.
  - rewrite HdM; unfold emin; lia.
  - rewrite HdM in *.
    replace (53 - 53) with 0 in * by lia.
    rewrite Z.add_0_r.
    assert (Hm2 : Zpos m2 = Zpos M).
    { rewrite Hx; [apply Z.div_1_r|reflexivity|apply Z.mod_1_r]. }
    injection Hm2 as ->.
    assert (Hlt : (Zpos M <? 2 ^ 53) = true).
    { apply Z.ltb_lt; rewrite HM; change (2 ^ 53) with (2 ^ 24 * 2 ^ 29); lia. }
    rewrite Hlt.
    assert (Hle : (e - 29 <=? 1024 - 53) = true) by (apply Z.leb_le; lia).
    rewrite Hle; reflexivity.
Qed.

(** The reciprocal, in binary64, of a number with a 53-bit mantissa does
    not exceed a binary64 number [mv * 2^ev] that the exact reciprocal
    does not exceed. *)
Lemma reciprocal_le :
  forall (M : positive) (E mv ev : Z),
    2 ^ 52 <= Zpos M < 2 ^ 53 ->
    E <= 900 ->
    0 < mv < 2 ^ 53 ->
    ev <= 971 ->
    - 105 - E <= ev ->
    2 ^ 105 <= mv * 2 ^ (ev + 105 + E) * Zpos M ->
    exists my ey,
      F64.div F64.one (S754_finite false M E) = S754_finite false my ey
      /\ 2 ^ 52 <= Zpos my < 2 ^ 53
      /\ - 105 - E <= ey <= ev
      /\ Zpos my <= mv * 2 ^ (ev - ey).
Proof.
  intros M E mv ev HM HE Hmv Hev Hex Hval.
  unfold F64.div.
  change F64.one with (S754_finite false 4503599627370496 (-52)).
  unfold SFdiv; cbn [xorb].
  assert (Hcore :
            SFdiv_core_binary F64.prec F64.emax 4503599627370496 (-52) (Zpos M) E
            = (2 ^ 105 / Zpos M, - 105 - E,
               new_location (Zpos M) (2 ^ 105 mod Zpos M))).
  { unfold SFdiv_core_binary, F64.prec, F64.emax.
    change (Zdigits2 4503599627370496) with 53.
    change (Zdigits2 (Zpos M)) with (Zpos (digits2_pos M)).
    rewrite (digits2_pos_unique M 53) by (simpl; lia).
    assert (Hf : Z.min (fexp 53 1024 (53 + -52 - (53 + E))) (-52 - E) = - 105 - E).
    { unfold fexp, emin; lia. }
    rewrite Hf.
    replace (-52 - E - (- 105 - E)) with 53 by lia.
    change (Z.shiftl 4503599627370496 53) with (2 ^ 105).
    rewrite div_eucl_div_mod; reflexivity. }
  rewrite Hcore.
  set (q := 2 ^ 105 / Zpos M).
  set (r := 2 ^ 105 mod Zpos M).
  assert (Hqr : 2 ^ 105 = Zpos M * q + r) by (apply Z.div_mod; lia).
  assert (Hr : 0 <= r < Zpos M) by (apply Z.mod_pos_bound; lia).
  assert (Hq : 2 ^ 52 <= q).
  { unfold q; apply Z.div_le_lower_bound; [lia|].
    change (2 ^ 105) with (2 ^ 53 * 2 ^ 52). nia. }
  destruct q as [|qp|qp] eqn:Eq; try lia.
  destruct (digits2_pos_bounds qp) as [Hdlo Hdhi].
  assert (Hd : 53 <= Zpos (digits2_pos qp)).
  { destruct (Z_lt_le_dec (Zpos (digits2_pos qp)) 53); [exfalso|assumption].
    assert (2 ^ Zpos (digits2_pos qp) <= 2 ^ 52) by (apply Z.pow_le_mono_r; lia).
    lia. }
  assert (Hk : 0 <= ev + 105 + E) by lia.
  destruct (binary_round_aux_le 53 1024 ltac:(lia) qp (- 105 - E)
              (new_location (Zpos M) r) mv ev)
    as (my & ey & Hres & Hmy & Hey & Hle); try lia.
  - unfold emin; lia.
  - replace (ev - (- 105 - E)) with (ev + 105 + E) by lia.
    set (k := mv * 2 ^ (ev + 105 + E)) in *.
    destruct (new_location_exact (Zpos M) r) as [H0 H1].
    destruct (Z.eq_dec r 0) as [Er|Er].
    + rewrite (H0 Er). nia.
    + destruct (H1 Er) as (c & ->). nia.
  - exists my, ey; split; [exact Hres|].
    split; [exact Hmy|]. split; [lia|exact Hle].
Qed.

(** The square root, in binary64, of a number with a 53-bit mantissa does
    not exceed a binary64 number whose square the argument does not
    exceed. *)
Lemma sqrt_le :
  forall (my : positive) (ey mv ev : Z),
    2 ^ 52 <= Zpos my < 2 ^ 53 ->
    - 2000 <= ey ->
    0 < mv < 2 ^ 53 ->
    ev <= 971 ->
    ey / 2 - 26 <= ev ->
    Zpos my * 2 ^ (ey - 2 * (ey / 2 - 26))
    <= (mv * 2 ^ (ev - (ey / 2 - 26))) * (mv * 2 ^ (ev - (ey / 2 - 26))) ->
    exists mz ez,
      F64.sqrt (S754_finite false my ey) = S754_finite false mz ez
      /\ 2 ^ 52 <= Zpos mz < 2 ^ 53
      /\ ey / 2 - 26 <= ez <= ev
      /\ Zpos mz <= mv * 2 ^ (ev - ez).
Proof.
  intros my ey mv ev Hmy Hey Hmv Hev Hex Hval.
  set (h := ey / 2) in *.
  set (e' := h - 26) in *.
  set (s := ey - 2 * e') in *.
  assert (Hh : 2 * h <= ey <= 2 * h + 1).
  { unfold h; pose proof (Z.div_mod ey 2 ltac:(lia)).
    pose proof (Z.mod_pos_bound ey 2 ltac:(lia)). lia. }
  assert (Hs : s = 52 \/ s = 53) by (unfold s, e'; lia).
  unfold F64.sqrt, SFsqrt.
  assert (Hcore :
            SFsqrt_core_binary F64.prec F64.emax (Zpos my) ey
            = (fst (Z.sqrtrem (Zpos my * 2 ^ s)), e',
               if snd (Z.sqrtrem (Zpos my * 2 ^ s)) =? 0 then loc_Exact
               else loc_Inexact
                      (if snd (Z.sqrtrem (Zpos my * 2 ^ s))
                          <=? fst (Z.sqrtrem (Zpos my * 2 ^ s))
                       then Lt else Gt))).
  { unfold SFsqrt_core_binary, F64.prec, F64.emax.
    change (Zdigits2 (Zpos my)) with (Zpos (digits2_pos my)).
    rewrite (digits2_pos_unique my 53) by (simpl; lia).
    rewrite !Z.div2_div.
    replace ((53 + ey + 1) / 2) with (27 + h).
    2:{ unfold h. replace (53 + ey + 1) with (ey + 27 * 2) by lia.
        rewrite Z.div_add by lia. lia. }
    fold h.
    assert (Hf : Z.min (fexp 53 1024 (27 + h)) h = e').
    { unfold fexp, emin, e'; lia. }
    rewrite Hf; fold s.
    assert (Hsh : match s with
                  | Zpos _ => Z.shiftl (Zpos my) s
                  | 0 => Zpos my
                  | Zneg _ => 0
                  end = Zpos my * 2 ^ s).
    { destruct s as [|ps|ps] eqn:Es; try lia.
      apply Z.shiftl_mul_pow2; lia. }
    rewrite Hsh.
    destruct (Z.sqrtrem (Zpos my * 2 ^ s)) as [q r]; reflexivity. }
  rewrite Hcore.
  set (m' := Zpos my * 2 ^ s) in *.
  assert (Hm' : 2 ^ 52 * 2 ^ 52 <= m' < 2 ^ 53 * 2 ^ 53).
  { unfold m'; destruct Hs as [-> | ->]; lia. }
  pose proof (Z.sqrtrem_spec m' ltac:(lia)) as Hsq.
  destruct (Z.sqrtrem m') as [q r]; cbn [fst snd] in *.
  destruct Hsq as [Hq Hr].
  assert (Hqb : 2 ^ 52 <= q < 2 ^ 53) by nia.
  destruct q as [|qp|qp] eqn:Eq; try lia.
  assert (Hd : Zpos (digits2_pos qp) = 53)
    by (apply digits2_pos_unique; simpl; lia).
  destruct (binary_round_aux_le 53 1024 ltac:(lia) qp e'
              (if r =? 0 then loc_Exact
               else loc_Inexact (if r <=? Zpos qp then Lt else Gt)) mv ev)
    as (mz & ez & Hres & Hmz & Hez & Hle); try lia.
  - rewrite Hd; unfold emin, e'; lia.
  - set (k := mv * 2 ^ (ev - e')) in *.
    assert (0 <= k) by (unfold k; apply Z.mul_nonneg_nonneg;
                        [lia|apply Z.pow_nonneg; lia]).
    destruct (r =? 0) eqn:Er.
    + apply Z.eqb_eq in Er. nia.
    + apply Z.eqb_neq in Er. nia.
  - rewrite Hd in Hez.
    exists mz, ez; split; [exact Hres|].
    split; [exact Hmz|]. split; [lia|exact Hle].
Qed.

(** A binary64 number with a 53-bit mantissa that does not exceed a
    binary32 number rounds to a binary32 number that does not exceed it
    either. *)
Lemma to_float_le :
  forall (mz : positive) (ez mv ev : Z),
    2 ^ 52 <= Zpos mz < 2 ^ 53 ->
    - 178 <= ez ->
    0 < mv < 2 ^ 24 ->
    ev <= 104 ->
    ez <= ev ->
    Zpos mz <= mv * 2 ^ (ev - ez) ->
    exists mr er,
      F64.to_float (S754_finite false mz ez) = S754_finite false mr er
      /\ 2 ^ 23 <= Zpos mr < 2 ^ 24
      /\ ez + 29 <= er <= ev
      /\ Zpos mr <= mv * 2 ^ (ev - er).
Proof.
  intros mz ez mv ev Hmz Hez Hmv Hev Hex Hval.
  unfold F64.to_float, binary_round, F32.prec, F32.emax.
  assert (Hd : Zpos (digits2_pos mz) = 53)
    by (apply digits2_pos_unique; simpl; lia).
  rewrite Hd.
  assert (Hf : fexp 24 128 (53 + ez) = ez + 29) by (unfold fexp, emin; lia).
  rewrite Hf; unfold shl_align.
  replace (ez + 29 - ez) with 29 by lia.
  destruct (binary_round_aux_le 24 128 ltac:(lia) mz ez loc_Exact mv ev)
    as (mr & er & Hres & Hmr & Her & Hle); try lia.
  - rewrite Hd; unfold emin; lia.
  - rewrite Hd in Her.
    exists mr, er; split; [exact Hres|].
    split; [exact Hmr|]. split; [lia|exact Hle].
Qed.

(** ** The error of the combined event time *)

(** A finite binary32 number that is not below [kWeightDiamond] is a
    positive normal number of value at least 13724888 * 2^-39. *)
Lemma not_below_floor_normal :
  forall s : float,
    F32.finite s = true ->
    F32.ltb s tofEventTime.kWeightDiamond = false ->
    exists (m : positive) (e : Z),
      s = S754_finite false m e
      /\ 2 ^ 23 <= Zpos m < 2 ^ 24
      /\ - 39 <= e <= 104
      /\ 13724888 <= Zpos m * 2 ^ (e + 39).
Proof.
  intros s Hfin Hlt; rewrite kWeightDiamond_value in Hlt.
  destruct s as [sg|sg| |sg m e];
    [destruct sg; discriminate Hlt
    |discriminate Hfin
    |discriminate Hfin
    |].
  destruct sg; [discriminate Hlt|].
  unfold F32.finite, bounded, canonical_mantissa, F32.prec, F32.emax in Hfin.
  apply andb_true_iff in Hfin; destruct Hfin as [Hcan Hmax].
  apply Z.eqb_eq in Hcan; apply Z.leb_le in Hmax.
  unfold F32.ltb, SFltb, SFcompare in Hlt.
  assert (He : - 39 <= e).
  { destruct (e ?= -39) eqn:Ec; try discriminate;
      [apply Z.compare_eq in Ec|apply Z.compare_gt_iff in Ec]; lia. }
  assert (Hd : Zpos (digits2_pos m) = 24)
    by (unfold fexp, emin in Hcan; lia).
  pose proof (digits2_pos_bounds m) as Hb; rewrite Hd in Hb.
  change (2 ^ (24 - 1)) with (2 ^ 23) in Hb.
  exists m, e; split; [reflexivity|].
  split; [exact Hb|]. split; [lia|].
  destruct (e ?= -39) eqn:Ec; try discriminate.
  - apply Z.compare_eq in Ec; subst e.
    change (2 ^ (-39 + 39)) with 1.
    destruct (Pos.compare_cont Eq m 13724888) eqn:Em; try discriminate Hlt.
    + pose proof (Pos.compare_eq m 13724888 Em) as Hm; subst m; lia.
    + pose proof (proj1 (Pos.compare_gt_iff m 13724888) Em) as Hm; lia.
  - apply Z.compare_gt_iff in Ec.
    assert (H2 : 2 ^ 1 <= 2 ^ (e + 39)) by (apply Z.pow_le_mono_r; lia).
    change (2 ^ 1) with 2 in H2. simpl in Hb. nia.
Qed.

(** For a finite sum of weights that is not below the floor, the error
    sqrt(1 / sumOfWeights), computed in binary64 and stored in binary32,
    is a positive normal number that does not exceed
    13116273 * 2^-16 = [kErrDiamond]. *)
Lemma errorOfWeights_normal :
  forall s : float,
    F32.finite s = true ->
    F32.ltb s tofEventTime.kWeightDiamond = false ->
    exists (mr : positive) (er : Z),
      tofEventTime.errorOfWeights s = S754_finite false mr er
      /\ 2 ^ 23 <= Zpos mr < 2 ^ 24
      /\ - 87 <= er <= - 16
      /\ Zpos mr <= 13116273 * 2 ^ (- 16 - er).
Proof.
  intros s Hfin Hlt.
  destruct (not_below_floor_normal s Hfin Hlt) as (m & e & -> & Hm & He & Hw).
  unfold tofEventTime.errorOfWeights.
  (* float to double *)
  destruct (of_float_normal m e Hm ltac:(lia)) as (M & HM & ->).
  assert (HMb : 2 ^ 52 <= Zpos M < 2 ^ 53).
  { rewrite HM. change (2 ^ 52) with (2 ^ 23 * 2 ^ 29).
    change (2 ^ 53) with (2 ^ 24 * 2 ^ 29). lia. }
  (* 1 / s does not exceed kErrDiamond^2 = 5505171757136928 * 2^-37 *)
  destruct (reciprocal_le M (e - 29) 5505171757136928 (-37) HMb)
    as (my & ey & -> & Hmy & Hey & Hyle); try lia.
  { replace (-37 + 105 + (e - 29)) with (e + 39) by lia.
    rewrite HM.
    assert (0 < 2 ^ (e + 39)) by (apply Z.pow_pos_nonneg; lia).
    set (P := 2 ^ (e + 39)) in *.
    change (2 ^ 29) with 536870912. change (2 ^ 105) with 40564819207303340847894502572032.
    nia. }
  (* its square root does not exceed kErrDiamond = 7041745447550976 * 2^-45 *)
  assert (Hh : 2 * (ey / 2) <= ey <= 2 * (ey / 2) + 1).
  { pose proof (Z.div_mod ey 2 ltac:(lia)).
    pose proof (Z.mod_pos_bound ey 2 ltac:(lia)). lia. }
  destruct (sqrt_le my ey 7041745447550976 (-45) Hmy)
    as (mz & ez & -> & Hmz & Hez & Hzle); try lia.
  { set (e' := ey / 2 - 26) in *.
    set (a := - 45 - e').
    assert (Ha : 0 <= a) by (unfold a, e'; lia).
    replace (-45 - e') with a by reflexivity.
    assert (Hp1 : 2 ^ (-37 - ey) * 2 ^ (ey - 2 * e') = 2 ^ a * 2 ^ a * 2 ^ 53).
    { rewrite <- !Z.pow_add_r by (unfold a, e'; lia).
      f_equal; unfold a; lia. }
    assert (0 < 2 ^ a) by (apply Z.pow_pos_nonneg; lia).
    assert (0 < 2 ^ (ey - 2 * e')) by (apply Z.pow_pos_nonneg; unfold e'; lia).
    assert (0 < 2 ^ (-37 - ey)) by (apply Z.pow_pos_nonneg; lia).
    set (t := 2 ^ a) in *.
    set (u := 2 ^ (ey - 2 * e')) in *.
    set (v := 2 ^ (-37 - ey)) in *.
    change (2 ^ 53) with 9007199254740992 in Hp1.
    assert (Hl : Zpos my * u <= 5505171757136928 * v * u)
      by (apply Z.mul_le_mono_nonneg_r; lia).
    replace (5505171757136928 * v * u) with (5505171757136928 * (v * u)) in Hl by ring.
    rewrite Hp1 in Hl.
    replace (7041745447550976 * t * (7041745447550976 * t))
      with (5505171757136928 * (t * t * 9007199254740992)) by ring.
    exact Hl. }
  (* and it rounds to a binary32 number that does not exceed kErrDiamond *)
  destruct (to_float_le mz ez 13116273 (-16) Hmz)
    as (mr & er & -> & Hmr & Her & Hrle); try lia.
  { replace (7041745447550976 * 2 ^ (-45 - ez))
      with (13116273 * 2 ^ (-16 - ez)) in Hzle; [exact Hzle|].
    replace (-16 - ez) with (29 + (-45 - ez)) by lia.
    rewrite Z.pow_add_r by lia.
    change (2 ^ 29) with 536870912. ring. }
  exists mr, er; split; [reflexivity|].
  split; [exact Hmr|]. split; [lia|exact Hrle].
Qed.

Lemma errorOfWeights_bounds :
  forall s : float,
    F32.finite s = true ->
    F32.ltb s tofEventTime.kWeightDiamond = false ->
    F32.finite (tofEventTime.errorOfWeights s) = true
    /\ F32.ltb F32.zero (tofEventTime.errorOfWeights s) = true
    /\ F32.leb (tofEventTime.errorOfWeights s) tofEventTime.kErrDiamond = true
    /\ F32.ltb (tofEventTime.errorOfWeights s) lit_999f = true.
Proof.
  intros s Hfin Hlt.
  destruct (errorOfWeights_normal s Hfin Hlt) as (mr & er & -> & Hmr & Her & Hle).
  assert (Hd : Zpos (digits2_pos mr) = 24)
    by (apply digits2_pos_unique; simpl; lia).
  split; [|split; [reflexivity|split]].
  - unfold F32.finite, bounded, canonical_mantissa, F32.prec, F32.emax.
    rewrite Hd; apply andb_true_iff; split.
    + apply Z.eqb_eq; unfold fexp, emin; lia.
    + apply Z.leb_le; lia.
  - rewrite kErrDiamond_value.
    unfold F32.leb, SFleb, SFcompare.
    destruct (er ?= -16) eqn:Ec.
    + apply Z.compare_eq in Ec; subst er.
      destruct (Pos.compare_cont Eq mr 13116273) eqn:Em; try reflexivity.
      pose proof (proj1 (Pos.compare_gt_iff mr 13116273) Em) as Hgt.
      change (2 ^ (-16 - -16)) with 1 in Hle; lia.
    + reflexivity.
    + apply Z.compare_gt_iff in Ec; lia.
  - change lit_999f with (S754_finite false 16367616 (-14)).
    unfold F32.ltb, SFltb, SFcompare.
    assert (Ec : (er ?= -14) = Lt) by (apply Z.compare_lt_iff; lia).
    rewrite Ec; reflexivity.
Qed.

(** C2.  Combined mode.  When the accumulated sum of weights of a track
    is below [kWeightDiamond], the rows appended for it are flags 0 and
    (0, kErrDiamond), both finite numbers.  For every track the appended
    pair is (eventTime / w, sqrt(1 / w)) for a divisor w that is not
    below [kWeightDiamond], hence never a zero; and the error
    sqrt(1 / w) of a finite w is finite. *)
Theorem C2_weight_floor_sentinel :
  forall lib s collision maker st trk,
    let a := tofEventTime.sumsOfTrack lib s collision maker st trk in
    let st' := tofEventTime.trackTOFFT0 lib s collision maker st trk in
    (F32.ltb (tofEventTime.sumOfWeights a) tofEventTime.kWeightDiamond = true ->
     tofEventTime.tableFlags (tofEventTime.out st')
     = append (tofEventTime.tableFlags (tofEventTime.out st)) trk 0
     /\ tofEventTime.tableEvTime (tofEventTime.out st')
        = append (tofEventTime.tableEvTime (tofEventTime.out st)) trk
            (F32.zero, tofEventTime.kErrDiamond)
     /\ F32.finite F32.zero = true
     /\ F32.finite tofEventTime.kErrDiamond = true)
    /\ (exists num w,
          tofEventTime.tableEvTime (tofEventTime.out st')
          = append (tofEventTime.tableEvTime (tofEventTime.out st)) trk
              (F32.div num w, tofEventTime.errorOfWeights w)
          /\ F32.ltb w tofEventTime.kWeightDiamond = false
          /\ (forall z, w <> S754_zero z)
          /\ (F32.finite w = true ->
              F32.finite (tofEventTime.errorOfWeights w) = true)).
Proof.
  intros lib s collision maker st trk a st'.
  destruct (trackTOFFT0_rows lib s collision maker st trk) as (Hf & Hv).
  fold a in Hf, Hv; fold st' in Hf, Hv.
  split.
  - intros Hlow.
    unfold tofEventTime.floorSums in Hf, Hv; rewrite Hlow in Hf, Hv.
    cbn [tofEventTime.flags tofEventTime.eventTime tofEventTime.sumOfWeights]
      in Hf, Hv.
    split; [exact Hf|].
    split; [rewrite Hv; vm_compute; reflexivity|].
    split; vm_compute; reflexivity.
  - exists (tofEventTime.eventTime (tofEventTime.floorSums a)),
           (tofEventTime.sumOfWeights (tofEventTime.floorSums a)).
    split; [exact Hv|].
    split; [apply floorSums_not_below|].
    split; [intros z; apply not_below_floor_nonzero, floorSums_not_below|].
    intros Hfin; apply errorOfWeights_bounds;
      [exact Hfin|apply floorSums_not_below].
Qed.

Lemma C2_witness :
  tofEventTime.tableFlags
    (tofEventTime.out
       (tofEventTime.trackTOFFT0 Fixtures.evLibWide (Fixtures.evTask 1 1)
          (Fixtures.cols 1) tt Fixtures.start (Fixtures.track 0 1 true)))
  = [(0, 0)]
  /\ tofEventTime.tableEvTime
       (tofEventTime.out
          (tofEventTime.trackTOFFT0 Fixtures.evLibWide (Fixtures.evTask 1 1)
             (Fixtures.cols 1) tt Fixtures.start (Fixtures.track 0 1 true)))
     = [(0, (F32.zero, tofEventTime.kErrDiamond))]
  /\ F32.finite F32.zero = true
  /\ F32.finite tofEventTime.kErrDiamond = true.
Proof.
  refine (proj1 (C2_weight_floor_sentinel Fixtures.evLibWide
                   (Fixtures.evTask 1 1) (Fixtures.cols 1) tt
                   Fixtures.start (Fixtures.track 0 1 true)) _).
  vm_compute; reflexivity.
Defined.

(** C10 (as amended).  Combined mode, for every track of a selected
    collision.  The error appended is sqrt(1 / w), evaluated in binary64
    and stored in binary32, for a divisor w that is not below
    [kWeightDiamond].  When w is a finite number, the error is finite,
    positive, at most [kErrDiamond] and below the 999 of a track without
    collision.  A divisor that is not finite passes the floor as well:
    for w = +infinity (an input error of exactly zero) the error is 0,
    and for w = NaN it is NaN. *)
Theorem C10_combined_error_bounded :
  forall lib s collision maker st trk,
    let a := tofEventTime.floorSums
               (tofEventTime.sumsOfTrack lib s collision maker st trk) in
    let w := tofEventTime.sumOfWeights a in
    let st' := tofEventTime.trackTOFFT0 lib s collision maker st trk in
    tofEventTime.tableEvTime (tofEventTime.out st')
    = append (tofEventTime.tableEvTime (tofEventTime.out st)) trk
        (F32.div (tofEventTime.eventTime a) w, tofEventTime.errorOfWeights w)
    /\ F32.ltb w tofEventTime.kWeightDiamond = false
    /\ (F32.finite w = true ->
        F32.finite (tofEventTime.errorOfWeights w) = true
        /\ F32.ltb F32.zero (tofEventTime.errorOfWeights w) = true
        /\ F32.leb (tofEventTime.errorOfWeights w) tofEventTime.kErrDiamond
           = true
        /\ F32.ltb (tofEventTime.errorOfWeights w) lit_999f = true)
    /\ (F32.is_inf w = true ->
        tofEventTime.errorOfWeights w = S754_zero false)
    /\ (F32.is_nan w = true -> tofEventTime.errorOfWeights w = S754_nan).
Proof.
  intros lib s collision maker st trk a w st'.
  destruct (trackTOFFT0_rows lib s collision maker st trk) as (_ & Hv).
  fold a in Hv; fold w in Hv; fold st' in Hv.
  pose proof (floorSums_not_below
                (tofEventTime.sumsOfTrack lib s collision maker st trk)) as Hnb.
  fold a in Hnb; fold w in Hnb.
  split; [exact Hv|]. split; [exact Hnb|].
  split; [|split].
  - intros Hfin; apply errorOfWeights_bounds; assumption.
  - intros Hinf; destruct w as [sg|sg| |sg m e]; try discriminate Hinf.
    destruct sg; [vm_compute in Hnb; discriminate Hnb|reflexivity].
  - intros Hnan; destruct w as [sg|sg| |sg m e]; try discriminate Hnan.
    reflexivity.
Qed.

Lemma C10_witness :
  tofEventTime.sumOfWeights
    (tofEventTime.floorSums
       (tofEventTime.sumsOfTrack Fixtures.evLib (Fixtures.evTask 1 1)
          (Fixtures.cols 0) tt Fixtures.start (Fixtures.track 0 0 true)))
  = S754_finite false 8589934 (-32)
  /\ F32.finite
       (tofEventTime.errorOfWeights (S754_finite false 8589934 (-32))) = true
  /\ F32.ltb F32.zero
       (tofEventTime.errorOfWeights (S754_finite false 8589934 (-32))) = true
  /\ F32.leb (tofEventTime.errorOfWeights (S754_finite false 8589934 (-32)))
       tofEventTime.kErrDiamond = true
  /\ F32.ltb (tofEventTime.errorOfWeights (S754_finite false 8589934 (-32)))
       lit_999f = true.
Proof.
  split; [vm_compute; reflexivity|].
  refine (proj1 (proj2 (proj2 (C10_combined_error_bounded Fixtures.evLib
                                 (Fixtures.evTask 1 1) (Fixtures.cols 0) tt
                                 Fixtures.start (Fixtures.track 0 0 true))))
            _).
  vm_compute; reflexivity.
Defined.

(** C10 as stated fails: collision 2 of the fixtures is selected and has
    a valid FT0 whose resolution is exactly 0.  The weight 1 / 0^2 is
    +infinity, the floor does not apply, and the row appended for its
    track is (NaN, 0): the error is not positive. *)
Lemma C10_zero_resolution_gives_zero_error :
  tofEventTime.skipped (Fixtures.evTask 1 1) Fixtures.cols
    (Fixtures.track 0 2 true) = false
  /\ t0ACValid (Fixtures.cols 2) = true
  /\ t0resolution (Fixtures.cols 2) = F32.zero
  /\ tofEventTime.sumOfWeights
       (tofEventTime.sumsOfTrack Fixtures.evLib (Fixtures.evTask 1 1)
          (Fixtures.cols 2) tt Fixtures.start (Fixtures.track 0 2 true))
     = S754_infinity false
  /\ rowsOf (tofEventTime.tableEvTime
               (tofEventTime.loopTOFFT0 Fixtures.evLib (Fixtures.evTask 1 1)
                  Fixtures.cols [Fixtures.track 0 2 true]))
     = [(S754_nan, S754_zero false)]
  /\ F32.ltb F32.zero (S754_zero false) = false.
Proof. repeat split; vm_compute; reflexivity. Qed.

(** * Further properties of the three tasks *)

(** ** The signal task for every configuration *)

Lemma trackRun3_fold :
  forall getTOFSignal s tracks o,
    fold_left (tofSignal.trackRun3 getTOFSignal s) tracks o
    = tofSignal.mkTables
        (tofSignal.table o
         ++ map (fun trk => (globalIndex trk, getTOFSignal trk)) tracks)
        (tofSignal.tableFlags o
         ++ (if tofSignal.enableTablepidTOFFlags s
             then map (fun trk => (globalIndex trk, hasTOF trk)) tracks
             else [])).
Proof.
  intros g s tracks; induction tracks as [|trk l IH]; intros o; simpl.
  - destruct o, (tofSignal.enableTablepidTOFFlags s); simpl;
      now rewrite !app_nil_r.
  - rewrite IH; unfold tofSignal.trackRun3, append, isTrackGoodMatchForTOFPID.
    destruct (tofSignal.enableTablepidTOFFlags s); simpl;
      rewrite <- ?app_assoc; simpl; [destruct (hasTOF trk)|]; reflexivity.
Qed.

Lemma trackRun2_fold :
  forall getTOFSignal s tracks o,
    fold_left (tofSignal.trackRun2 getTOFSignal s) tracks o
    = tofSignal.mkTables
        (tofSignal.table o
         ++ map (fun trk => (globalIndex trk, getTOFSignal trk)) tracks)
        (tofSignal.tableFlags o
         ++ (if tofSignal.enableTablepidTOFFlags s
             then map (fun trk => (globalIndex trk, true)) tracks
             else [])).
Proof.
  intros g s tracks; induction tracks as [|trk l IH]; intros o; simpl.
  - destruct o, (tofSignal.enableTablepidTOFFlags s); simpl;
      now rewrite !app_nil_r.
  - rewrite IH; unfold tofSignal.trackRun2, append.
    destruct (tofSignal.enableTablepidTOFFlags s); simpl;
      rewrite <- ?app_assoc; reflexivity.
Qed.

(** X1.  The signal task, for every choice of enabled tables: the signal
    table holds the TOF signal of every track, in track order, when it is
    enabled; the flags table is filled only when both tables are enabled
    (a workflow that requires the flags alone gets no row), with
    [hasTOF] on Run 3 and [true] on Run 2. *)
Theorem X1_signal_tables_by_configuration :
  forall (getTOFSignal : Track -> float) (s : tofSignal.t)
         (tracks : list Track),
    tofSignal.processRun3 getTOFSignal s tracks
    = tofSignal.mkTables
        (if tofSignal.enableTableTOFSignal s
         then map (fun trk => (globalIndex trk, getTOFSignal trk)) tracks
         else [])
        (if tofSignal.enableTableTOFSignal s
            && tofSignal.enableTablepidTOFFlags s
         then map (fun trk => (globalIndex trk, hasTOF trk)) tracks
         else [])
    /\ tofSignal.processRun2 getTOFSignal s tracks
       = tofSignal.mkTables
           (if tofSignal.enableTableTOFSignal s
            then map (fun trk => (globalIndex trk, getTOFSignal trk)) tracks
            else [])
           (if tofSignal.enableTableTOFSignal s
               && tofSignal.enableTablepidTOFFlags s
            then map (fun trk => (globalIndex trk, true)) tracks
            else []).
Proof.
  intros g s tracks.
  unfold tofSignal.processRun3, tofSignal.processRun2.
  rewrite trackRun3_fold, trackRun2_fold.
  destruct (tofSignal.enableTableTOFSignal s); simpl; split; reflexivity.
Qed.

(** ** [init] of the signal task *)

Lemma initSetup_mode :
  forall env c p w c1 p1 w1,
    TOFCalibConfig.initSetup env c p w = Ok ((c1, p1), w1) ->
    TOFCalibConfig.mInitMode c1 = 1
    /\ TOFCalibConfig.mLastRunNumber c1 = TOFCalibConfig.mLastRunNumber c
    /\ TOFCalibConfig.mAutoSetProcessFunctions c1
       = TOFCalibConfig.mAutoSetProcessFunctions c.
Proof.
  intros env c p w c1 p1 w1; unfold TOFCalibConfig.initSetup.
  set (c' := TOFCalibConfig.passFromMetadata env _).
  assert (Hc' : TOFCalibConfig.mInitMode c' = 1
                /\ TOFCalibConfig.mLastRunNumber c'
                   = TOFCalibConfig.mLastRunNumber c
                /\ TOFCalibConfig.mAutoSetProcessFunctions c'
                   = TOFCalibConfig.mAutoSetProcessFunctions c).
  { unfold c', TOFCalibConfig.passFromMetadata.
    destruct (String.eqb _ _); repeat split; reflexivity. }
  unfold bind.
  repeat match goal with
  | |- context [match ?m with Ok _ => _ | Fatal _ => _ end] =>
      destruct m as [[? ?]|?]; try discriminate
  end.
  unfold ret; intros H; inversion H; subst; exact Hc'.
Qed.

(** The configuration [initSetup] returns: the one it was given, marked
    as initialised and with the pass resolved from the metadata. *)
Lemma initSetup_config :
  forall env c p w c1 p1 w1,
    TOFCalibConfig.initSetup env c p w = Ok ((c1, p1), w1) ->
    c1 = TOFCalibConfig.passFromMetadata env (TOFCalibConfig.set_mInitMode c 1).
Proof.
  intros env c p w c1 p1 w1; unfold TOFCalibConfig.initSetup, bind.
  repeat match goal with
  | |- context [match ?m with Ok _ => _ | Fatal _ => _ end] =>
      destruct m as [[? ?]|?]; try discriminate
  end.
  unfold ret; intros H; inversion H; subst; reflexivity.
Qed.

(** X2.  [init] of the signal task with no process switch set by hand and
    one of its tables required: unless the autodetection is on and the
    metadata is fully defined and says Run 3, the task aborts with the
    message that neither function is enabled.  In particular Run 2
    metadata aborts: the Run 2 branch of the autodetection writes [false]
    into [doprocessRun2]. *)
Theorem X2_signal_init_needs_run3_metadata :
  forall env md ctx cfg qa sw p w,
    doprocessRun2 sw = false ->
    doprocessRun3 sw = false ->
    isTableRequiredInWorkflow ctx "TOFSignal"
    || isTableRequiredInWorkflow ctx "pidTOFFlags" = true ->
    TOFCalibConfig.cfgAutoSetProcessFunctions cfg
    && isFullyDefined md && isRun3 env = false ->
    tofSignal.init env md ctx cfg qa sw p w
    = Fatal "Neither processRun2 nor processRun3 are enabled. Pick one of the two".
Proof.
  intros env md ctx cfg qa [r2 r3] p w H2 H3 Hreq Hno; simpl in H2, H3; subst.
  unfold tofSignal.init, TOFCalibConfig.autoSetProcessFunctions,
    TOFCalibConfig.mAutoSetProcessFunctions; simpl.
  destruct (isTableRequiredInWorkflow ctx "TOFSignal"),
    (isTableRequiredInWorkflow ctx "pidTOFFlags"); try discriminate Hreq;
    simpl;
    destruct (TOFCalibConfig.cfgAutoSetProcessFunctions cfg),
      (isFullyDefined md), (isRun3 env); try discriminate Hno; reflexivity.
Qed.

Lemma X2_witness :
  tofSignal.init Fixtures.envRun2 Fixtures.md Fixtures.ctx Fixtures.optMetadata
    false Fixtures.switchesOff defaultParams Fixtures.world0
  = Fatal "Neither processRun2 nor processRun3 are enabled. Pick one of the two".
Proof.
  apply (X2_signal_init_needs_run3_metadata Fixtures.envRun2 Fixtures.md
           Fixtures.ctx Fixtures.optMetadata false Fixtures.switchesOff
           defaultParams Fixtures.world0); reflexivity.
Defined.

(** X3.  [init] of the signal task, when it returns.  The enable flags are
    the answers of the workflow; [doprocessRun2] is what the
    configuration set (the autodetection never enables it).  Either
    nothing is required and no switch is set, and then the task is left
    as it was and no store is accessed; or exactly one of the two process
    functions is enabled and the calibration set-up has run. *)
Theorem X3_signal_init_returns :
  forall env md ctx cfg qa sw p w task w1,
    tofSignal.init env md ctx cfg qa sw p w = Ok (task, w1) ->
    tofSignal.tables task
    = tofSignal.mk (isTableRequiredInWorkflow ctx "TOFSignal")
        (isTableRequiredInWorkflow ctx "pidTOFFlags")
    /\ doprocessRun2 (tofSignal.switches task) = doprocessRun2 sw
    /\ ((isTableRequiredInWorkflow ctx "TOFSignal" = false
         /\ isTableRequiredInWorkflow ctx "pidTOFFlags" = false
         /\ tofSignal.switches task = mkSwitches false false
         /\ tofSignal.mTOFCalibConfig task = TOFCalibConfig.init cfg
         /\ tofSignal.mRespParamsV3 task = p
         /\ w1 = w)
        \/ (xorb (doprocessRun2 (tofSignal.switches task))
                 (doprocessRun3 (tofSignal.switches task)) = true
            /\ TOFCalibConfig.mInitMode (tofSignal.mTOFCalibConfig task) = 1)).
Proof.
  intros env md ctx cfg qa [r2 r3] p w task w1.
  unfold tofSignal.init; cbn [doprocessRun2 doprocessRun3].
  destruct (isTableRequiredInWorkflow ctx "TOFSignal") eqn:Es,
    (isTableRequiredInWorkflow ctx "pidTOFFlags") eqn:Ef, r2, r3;
    cbn [negb andb];
    try (unfold ret; intros H; inversion H; subst; simpl;
         split; [reflexivity|]; split; [reflexivity|]; left; auto 10; fail);
    destruct (TOFCalibConfig.autoSetProcessFunctions (TOFCalibConfig.init cfg)),
      (isFullyDefined md), (isRun3 env);
    cbn [negb andb doprocessRun2 doprocessRun3];
    try (unfold fatal; discriminate);
    unfold bind;
    destruct (TOFCalibConfig.initSetup env (TOFCalibConfig.init cfg) p w)
      as [[[c1 p1] w2]|msg] eqn:E; try discriminate;
    unfold ret; intros H; inversion H; subst; simpl;
    (split; [reflexivity|]; split; [reflexivity|]; right;
     split; [reflexivity|]; apply (initSetup_mode _ _ _ _ _ _ _ E)).
Qed.

Lemma X3_witness :
  tofSignal.init Fixtures.env Fixtures.md Fixtures.ctx Fixtures.optMetadata
    false Fixtures.switchesOff defaultParams Fixtures.world0
  = Ok (Fixtures.signalTask, Fixtures.signalWorld)
  /\ tofSignal.switches Fixtures.signalTask = mkSwitches false true
  /\ TOFCalibConfig.mInitMode (tofSignal.mTOFCalibConfig Fixtures.signalTask)
     = 1.
Proof.
  split; [vm_compute; reflexivity|].
  destruct (X3_signal_init_returns Fixtures.env Fixtures.md Fixtures.ctx
              Fixtures.optMetadata false Fixtures.switchesOff defaultParams
              Fixtures.world0 Fixtures.signalTask Fixtures.signalWorld)
    as (_ & _ & [(H & _)|(_ & H)]).
  - vm_compute; reflexivity.
  - vm_compute in H; discriminate H.
  - split; [vm_compute; reflexivity | exact H].
Defined.

(** ** [init] of the event-time task *)

(** X4.  [init] of the event-time task with both process switches on
    (the value both are declared with) and one of its tables required
    aborts, whatever the metadata and the options: the autodetection only
    switches a function on. *)
Theorem X4_evtime_init_both_switches_fatal :
  forall env md ctx s minMomentum maxMomentum maxNtracks sw w,
    doprocessRun2 sw = true ->
    doprocessRun3 sw = true ->
    isTableRequiredInWorkflow ctx "TOFEvTime"
    || isTableRequiredInWorkflow ctx "EvTimeTOFOnly" = true ->
    exists msg,
      tofEventTime.init env md ctx s minMomentum maxMomentum maxNtracks sw w
      = Fatal msg.
Proof.
  intros env md ctx s mn mx n [r2 r3] w H2 H3 Hreq; simpl in H2, H3; subst.
  unfold tofEventTime.init, bind, TOFCalibConfig.inheritFromBaseTask.
  destruct (baseTaskOptions ctx) as [o|]; [|unfold fatal; eauto].
  unfold ret at 1; cbv beta iota.
  destruct (isTableRequiredInWorkflow ctx "TOFEvTime"),
    (isTableRequiredInWorkflow ctx "EvTimeTOFOnly"); try discriminate Hreq;
    cbn [negb andb];
    destruct (TOFCalibConfig.autoSetProcessFunctions _),
      (isFullyDefined md), (isRun3 env);
    cbn [negb andb doprocessRun2 doprocessRun3 Z.add Z.ltb Z.compare
         Pos.compare Pos.compare_cont Pos.add];
    unfold fatal; eauto.
Qed.

Lemma X4_witness :
  exists msg,
    tofEventTime.init Fixtures.env Fixtures.md Fixtures.ctx
      (Fixtures.evTask (-1) (-1)) Fixtures.lit_0_5f (F32.of_Z 2) 10
      Fixtures.switchesOn Fixtures.world0
    = Fatal msg.
Proof.
  apply (X4_evtime_init_both_switches_fatal Fixtures.env Fixtures.md
           Fixtures.ctx (Fixtures.evTask (-1) (-1)) Fixtures.lit_0_5f
           (F32.of_Z 2) 10 Fixtures.switchesOn Fixtures.world0); reflexivity.
Defined.

(** X5.  [init] of the event-time task, when it returns with one of its
    tables required: the options come from the signal task, the
    calibration set-up has run, the momentum window and the size of the
    track set are installed, no switch set by hand was turned off and at
    most one function is enabled; with fully defined metadata an enabled
    function is the one of the metadata, and with the autodetection on
    that one is enabled. *)
Theorem X5_evtime_init_returns :
  forall env md ctx s minMomentum maxMomentum maxNtracks sw w task w1,
    tofEventTime.init env md ctx s minMomentum maxMomentum maxNtracks sw w
    = Ok (task, w1) ->
    isTableRequiredInWorkflow ctx "TOFEvTime"
    || isTableRequiredInWorkflow ctx "EvTimeTOFOnly" = true ->
    let s1 := tofEventTime.state task in
    let sw1 := tofEventTime.switches task in
    tofEventTime.enableTableTOFEvTime s1
    = isTableRequiredInWorkflow ctx "TOFEvTime"
    /\ tofEventTime.enableTableEvTimeTOFOnly s1
       = isTableRequiredInWorkflow ctx "EvTimeTOFOnly"
    /\ tofEventTime.trackSampleMinMomentum s1 = minMomentum
    /\ tofEventTime.trackSampleMaxMomentum s1 = maxMomentum
    /\ tofEventTime.maxNtracksInSet task = Some maxNtracks
    /\ TOFCalibConfig.mInitMode (tofEventTime.mTOFCalibConfig s1) = 1
    /\ (doprocessRun2 sw = true -> doprocessRun2 sw1 = true)
    /\ (doprocessRun3 sw = true -> doprocessRun3 sw1 = true)
    /\ doprocessRun2 sw1 && doprocessRun3 sw1 = false
    /\ (isFullyDefined md = true ->
        (doprocessRun3 sw1 = true -> isRun3 env = true)
        /\ (doprocessRun2 sw1 = true -> isRun3 env = false)
        /\ (TOFCalibConfig.mAutoSetProcessFunctions
              (tofEventTime.mTOFCalibConfig s1) = true ->
            doprocessRun3 sw1 = isRun3 env
            /\ doprocessRun2 sw1 = negb (isRun3 env)))
    /\ exists o,
         baseTaskOptions ctx = Some o
         /\ tofEventTime.mTOFCalibConfig s1
            = TOFCalibConfig.passFromMetadata env (TOFCalibConfig.mk (-1) 1 o).
Proof.
  intros env md ctx s mn mx n [r2 r3] w task w1.
  unfold tofEventTime.init, bind, TOFCalibConfig.inheritFromBaseTask.
  destruct (baseTaskOptions ctx) as [o|]; [|discriminate].
  unfold ret at 1; cbv beta iota.
  intros H Hreq.
  destruct (isTableRequiredInWorkflow ctx "TOFEvTime") eqn:Ea,
    (isTableRequiredInWorkflow ctx "EvTimeTOFOnly") eqn:Eb;
    try discriminate Hreq; cbn [negb andb] in H;
    unfold TOFCalibConfig.autoSetProcessFunctions in H;
    destruct (TOFCalibConfig.mAutoSetProcessFunctions
                (TOFCalibConfig.mk (-1) 2 o)) eqn:Eauto,
      (isFullyDefined md), (isRun3 env), r2, r3;
    cbn [negb andb doprocessRun2 doprocessRun3 Z.add Z.ltb Z.compare
         Pos.compare Pos.compare_cont Pos.add] in H;
    try discriminate H;
    match type of H with
    | match ?m with Ok _ => _ | Fatal _ => _ end = _ =>
        destruct m as [[[c1 p1] w2]|msg] eqn:E; try discriminate H
    end;
    unfold ret in H; inversion H; subst; cbv zeta; simpl;
    destruct (initSetup_mode _ _ _ _ _ _ _ E) as (Hm & _ & Ha);
    pose proof (initSetup_config _ _ _ _ _ _ _ E) as Hc;
    rewrite Eauto in Ha;
    repeat split; auto; try congruence; try discriminate;
    (exists o; split; [reflexivity | exact Hc]).
Qed.

Lemma X5_witness :
  tofEventTime.init Fixtures.env Fixtures.md Fixtures.ctx
    (Fixtures.evTask (-1) (-1)) Fixtures.lit_0_5f (F32.of_Z 2) 10
    Fixtures.switchesOff Fixtures.world0
  = Ok (Fixtures.evInitTask, Fixtures.evInitWorld)
  /\ tofEventTime.switches Fixtures.evInitTask = mkSwitches false true
  /\ tofEventTime.trackSampleMinMomentum (tofEventTime.state Fixtures.evInitTask)
     = Fixtures.lit_0_5f
  /\ tofEventTime.maxNtracksInSet Fixtures.evInitTask = Some 10.
Proof.
  split; [vm_compute; reflexivity|].
  destruct (X5_evtime_init_returns Fixtures.env Fixtures.md Fixtures.ctx
              (Fixtures.evTask (-1) (-1)) Fixtures.lit_0_5f (F32.of_Z 2) 10
              Fixtures.switchesOff Fixtures.world0
              Fixtures.evInitTask Fixtures.evInitWorld)
    as (_ & _ & Hmin & _ & Hn & _).
  - vm_compute; reflexivity.
  - reflexivity.
  - split; [vm_compute; reflexivity|]. split; [exact Hmin | exact Hn].
Defined.

(** ** [init] of the response task *)

Lemma size_zero :
  forall (l : list Z),
    (Z.of_nat (List.length l) =? 0) = match l with [] => true | _ => false end.
Proof.
  intros [|x l]; [reflexivity|].
  apply Z.eqb_neq; simpl List.length; lia.
Qed.

Lemma settleNsigma_ok :
  forall env md c particles particlesFull sw sw1 w w1,
    tofPidMerge.settleNsigma env md c particles particlesFull sw w
    = Ok (sw1, w1) ->
    w1 = w
    /\ tofPidMerge.doprocessRun2BetaM sw1 = tofPidMerge.doprocessRun2BetaM sw
    /\ tofPidMerge.doprocessRun3BetaM sw1 = tofPidMerge.doprocessRun3BetaM sw
    /\ (particles = [] -> particlesFull = [] ->
        tofPidMerge.doprocessRun2 sw1 = false
        /\ tofPidMerge.doprocessRun3 sw1 = false)
    /\ (particles <> [] \/ particlesFull <> [] ->
        xorb (tofPidMerge.doprocessRun2 sw1) (tofPidMerge.doprocessRun3 sw1)
        = true
        /\ (TOFCalibConfig.autoSetProcessFunctions c = true ->
            isFullyDefined md = true ->
            tofPidMerge.doprocessRun3 sw1 = isRun3 env
            /\ tofPidMerge.doprocessRun2 sw1 = negb (isRun3 env))).
Proof.
  intros env md c particles particlesFull [r2 r3 b2 b3] sw1 w w1.
  unfold tofPidMerge.settleNsigma; rewrite !size_zero.
  destruct particlesFull as [|x xf], particles as [|y yp]; cbn [andb].
  { unfold ret; intros H; inversion H; subst; simpl.
    repeat split; auto;
      match goal with
      | E : _ \/ _ |- _ => destruct E as [E|E]; congruence
      end. }
  all: destruct (TOFCalibConfig.autoSetProcessFunctions c), (isFullyDefined md),
      (isRun3 env), r2, r3;
    cbn [negb andb tofPidMerge.doprocessRun2 tofPidMerge.doprocessRun3];
    try (unfold fatal; discriminate);
    unfold ret; intros H; inversion H; subst; simpl;
    repeat split; auto; try discriminate; try congruence.
Qed.

Lemma settleBetaM_ok :
  forall env md c beta mass sw sw1 w w1,
    tofPidMerge.settleBetaM env md c beta mass sw w = Ok (sw1, w1) ->
    fetches w1 = fetches w
    /\ tofPidMerge.doprocessRun2 sw1 = tofPidMerge.doprocessRun2 sw
    /\ tofPidMerge.doprocessRun3 sw1 = tofPidMerge.doprocessRun3 sw
    /\ (beta = false -> mass = false ->
        tofPidMerge.doprocessRun2BetaM sw1 = false
        /\ tofPidMerge.doprocessRun3BetaM sw1 = false
        /\ w1 = w)
    /\ (beta || mass = true ->
        xorb (tofPidMerge.doprocessRun2BetaM sw1)
             (tofPidMerge.doprocessRun3BetaM sw1) = true
        /\ (TOFCalibConfig.autoSetProcessFunctions c = true ->
            isInitialized md = true ->
            tofPidMerge.doprocessRun3BetaM sw1 = isRun3 env
            /\ tofPidMerge.doprocessRun2BetaM sw1 = negb (isRun3 env))).
Proof.
  intros env md c beta mass [r2 r3 b2 b3] sw1 w w1.
  unfold tofPidMerge.settleBetaM.
  destruct beta, mass; cbn [negb andb orb];
    try (unfold ret; intros H; inversion H; subst; simpl;
         repeat split; auto; discriminate).
  all: unfold bind, warning;
    destruct (TOFCalibConfig.autoSetProcessFunctions c), (isInitialized md),
      (isRun3 env), b2, b3;
    cbn [negb andb ret tofPidMerge.doprocessRun2BetaM
         tofPidMerge.doprocessRun3BetaM];
    try (unfold fatal; discriminate);
    unfold ret; intros H; inversion H; subst; simpl;
    repeat split; auto; try discriminate; try congruence.
Qed.

Lemma pid_init_parts :
  forall env md ctx names enableParticle qa tofp sw p w task w1,
    tofPidMerge.init env md ctx names enableParticle qa tofp sw p w
    = Ok (task, w1) ->
    exists o swa wa c1 p1 wb,
      baseTaskOptions ctx = Some o
      /\ tofPidMerge.settleNsigma env md (TOFCalibConfig.mk (-1) 2 o)
           (tofPidMerge.enabledIndices
              (tofPidMerge.flagOf ctx names enableParticle "pidTOF" "Enable"))
           (tofPidMerge.enabledIndices
              (tofPidMerge.flagOf ctx names enableParticle
                 "pidTOFFull" "EnableFull"))
           sw w = Ok (swa, wa)
      /\ TOFCalibConfig.initSetup env (TOFCalibConfig.mk (-1) 2 o) p wa
         = Ok ((c1, p1), wb)
      /\ tofPidMerge.settleBetaM env md c1
           (isTableRequiredInWorkflow ctx "pidTOFbeta")
           (isTableRequiredInWorkflow ctx "pidTOFmass") swa wb
         = Ok (tofPidMerge.switches task, w1)
      /\ tofPidMerge.state task
         = tofPidMerge.mk p1 c1
             (tofPidMerge.enabledIndices
                (tofPidMerge.flagOf ctx names enableParticle "pidTOF" "Enable"))
             (tofPidMerge.enabledIndices
                (tofPidMerge.flagOf ctx names enableParticle
                   "pidTOFFull" "EnableFull"))
             (isTableRequiredInWorkflow ctx "pidTOFbeta")
             (isTableRequiredInWorkflow ctx "pidTOFmass") tofp.
Proof.
  intros env md ctx names enableParticle qa tofp sw p w task w1.
  unfold tofPidMerge.init, bind, TOFCalibConfig.inheritFromBaseTask.
  destruct (baseTaskOptions ctx) as [o|]; [|discriminate].
  unfold ret at 1; cbv beta iota zeta.
  destruct (tofPidMerge.settleNsigma _ _ _ _ _ _ _) as [[swa wa]|] eqn:Ea;
    [|discriminate].
  destruct (TOFCalibConfig.initSetup _ _ _ _) as [[[c1 p1] wb]|] eqn:Eb;
    [|discriminate].
  cbn [fst snd].
  destruct (tofPidMerge.settleBetaM _ _ _ _ _ _ _) as [[swc wc]|] eqn:Ec;
    [|discriminate].
  unfold ret; intros H; inversion H; subst; clear H.
  exists o, swa, wa, c1, p1, wb; simpl; auto.
Qed.

(** X6.  [init] of the response task, when it returns.  The two lists of
    species are the indices whose flag is 1 after
    [enableFlagIfTableRequired]; the calibration set-up has run.  With
    no Nsigma table enabled both Nsigma functions are off, otherwise
    exactly one is on, and it is the one of the metadata when the
    autodetection is on and the metadata fully defined.  The same holds
    for the beta and mass functions with respect to the two tables
    [pidTOFbeta] and [pidTOFmass] (autodetection from initialized
    metadata). *)
Theorem X6_pid_init_returns :
  forall env md ctx names enableParticle qa tofp sw p w task w1,
    tofPidMerge.init env md ctx names enableParticle qa tofp sw p w
    = Ok (task, w1) ->
    let s1 := tofPidMerge.state task in
    let sw1 := tofPidMerge.switches task in
    let auto :=
      TOFCalibConfig.mAutoSetProcessFunctions (tofPidMerge.mTOFCalibConfig s1) in
    tofPidMerge.mEnabledParticles s1
    = tofPidMerge.enabledIndices
        (tofPidMerge.flagOf ctx names enableParticle "pidTOF" "Enable")
    /\ tofPidMerge.mEnabledParticlesFull s1
       = tofPidMerge.enabledIndices
           (tofPidMerge.flagOf ctx names enableParticle "pidTOFFull" "EnableFull")
    /\ tofPidMerge.enableTableBeta s1 = isTableRequiredInWorkflow ctx "pidTOFbeta"
    /\ tofPidMerge.enableTableMass s1 = isTableRequiredInWorkflow ctx "pidTOFmass"
    /\ TOFCalibConfig.mInitMode (tofPidMerge.mTOFCalibConfig s1) = 1
    /\ (tofPidMerge.mEnabledParticles s1 = [] ->
        tofPidMerge.mEnabledParticlesFull s1 = [] ->
        tofPidMerge.doprocessRun2 sw1 = false
        /\ tofPidMerge.doprocessRun3 sw1 = false)
    /\ (tofPidMerge.mEnabledParticles s1 <> []
        \/ tofPidMerge.mEnabledParticlesFull s1 <> [] ->
        xorb (tofPidMerge.doprocessRun2 sw1) (tofPidMerge.doprocessRun3 sw1)
        = true
        /\ (auto = true -> isFullyDefined md = true ->
            tofPidMerge.doprocessRun3 sw1 = isRun3 env
            /\ tofPidMerge.doprocessRun2 sw1 = negb (isRun3 env)))
    /\ (tofPidMerge.enableTableBeta s1 = false ->
        tofPidMerge.enableTableMass s1 = false ->
        tofPidMerge.doprocessRun2BetaM sw1 = false
        /\ tofPidMerge.doprocessRun3BetaM sw1 = false)
    /\ (tofPidMerge.enableTableBeta s1 || tofPidMerge.enableTableMass s1 = true ->
        xorb (tofPidMerge.doprocessRun2BetaM sw1)
             (tofPidMerge.doprocessRun3BetaM sw1) = true
        /\ (auto = true -> isInitialized md = true ->
            tofPidMerge.doprocessRun3BetaM sw1 = isRun3 env
            /\ tofPidMerge.doprocessRun2BetaM sw1 = negb (isRun3 env))).
Proof.
  intros env md ctx names enableParticle qa tofp sw p w task w1 Hinit.
  destruct (pid_init_parts _ _ _ _ _ _ _ _ _ _ _ _ Hinit)
    as (o & swa & wa & c1 & p1 & wb & _ & Ea & Eb & Ec & ->).
  cbv zeta.
  cbn [tofPidMerge.mEnabledParticles
       tofPidMerge.mEnabledParticlesFull tofPidMerge.enableTableBeta
       tofPidMerge.enableTableMass tofPidMerge.mTOFCalibConfig].
  destruct (settleNsigma_ok _ _ _ _ _ _ _ _ _ Ea) as (_ & _ & _ & N0 & N1).
  destruct (settleBetaM_ok _ _ _ _ _ _ _ _ _ Ec) as (_ & K2 & K3 & B0 & B1).
  destruct (initSetup_mode _ _ _ _ _ _ _ Eb) as (Hm & _ & Hauto).
  unfold TOFCalibConfig.autoSetProcessFunctions in N1, B1.
  rewrite K2, K3, Hauto.
  repeat split; try reflexivity; try exact Hm.
  - apply N0; assumption.
  - apply N0; assumption.
  - apply N1; assumption.
  - apply N1; assumption.
  - apply N1; assumption.
  - apply B0; assumption.
  - apply B0; assumption.
  - apply B1; assumption.
  - apply B1; try assumption. rewrite Hauto; assumption.
  - apply B1; try assumption. rewrite Hauto; assumption.
Qed.

Lemma X6_witness :
  tofPidMerge.init Fixtures.env Fixtures.md Fixtures.ctx
    Fixtures.particleNames Fixtures.enableParticle false false
    Fixtures.pidSwitchesOff defaultParams Fixtures.world0
  = Ok (Fixtures.pidInitTask, Fixtures.pidInitWorld)
  /\ tofPidMerge.mEnabledParticles (tofPidMerge.state Fixtures.pidInitTask)
     = [0; 1; 2; 3; 4; 5; 6; 7; 8]
  /\ tofPidMerge.switches Fixtures.pidInitTask
     = tofPidMerge.mkProcessSwitches false true false true
  /\ TOFCalibConfig.mInitMode
       (tofPidMerge.mTOFCalibConfig (tofPidMerge.state Fixtures.pidInitTask))
     = 1.
Proof.
  split; [vm_compute; reflexivity|].
  destruct (X6_pid_init_returns Fixtures.env Fixtures.md Fixtures.ctx
              Fixtures.particleNames Fixtures.enableParticle false false
              Fixtures.pidSwitchesOff defaultParams Fixtures.world0
              Fixtures.pidInitTask Fixtures.pidInitWorld)
    as (Ht & _ & _ & _ & Hm & _).
  - vm_compute; reflexivity.
  - split; [rewrite Ht; vm_compute; reflexivity|].
    split; [vm_compute; reflexivity | exact Hm].
Defined.

(** X7.  A task set up by [init] never reaches the [default] label of a
    [switch] on the particle index: [processRun3] returns whenever the
    calibration set-up of the call returns, every table of a species
    enabled by [init] then holds one row per track, in track order, and
    the tables of the other species hold none. *)
Theorem X7_pid_init_then_processRun3 :
  forall env md ctx names enableParticle qa tofp sw p w task w1
         lib bc tracks c2 p2 w2,
    tofPidMerge.init env md ctx names enableParticle qa tofp sw p w
    = Ok (task, w1) ->
    TOFCalibConfig.processSetup env
      (tofPidMerge.mTOFCalibConfig (tofPidMerge.state task))
      (tofPidMerge.mRespParamsV3 (tofPidMerge.state task)) bc w1
    = Ok ((c2, p2), w2) ->
    exists out,
      tofPidMerge.processRun3 env lib (tofPidMerge.state task) bc tracks w1
      = Ok ((tofPidMerge.set_calib (tofPidMerge.state task) c2 p2, out), w2)
      /\ forall sp,
           tracksOf (tofPidMerge.tiny out sp)
           = (if tofPidMerge.flagOf ctx names enableParticle "pidTOF" "Enable"
                   (tofPidMerge.indexOfSpecies sp) =? 1
              then map globalIndex tracks else [])
           /\ tracksOf (tofPidMerge.full out sp)
              = (if tofPidMerge.flagOf ctx names enableParticle
                      "pidTOFFull" "EnableFull"
                      (tofPidMerge.indexOfSpecies sp) =? 1
                 then map globalIndex tracks else []).
Proof.
  intros env md ctx names enableParticle qa tofp sw p w task w1
         lib bc tracks c2 p2 w2 Hinit Hsetup.
  destruct (pid_init_parts _ _ _ _ _ _ _ _ _ _ _ _ Hinit)
    as (o & swa & wa & c1 & p1 & wb & _ & _ & _ & _ & Es).
  set (s := tofPidMerge.state task) in *.
  assert (Ht : tofPidMerge.mEnabledParticles s
               = tofPidMerge.enabledIndices
                   (tofPidMerge.flagOf ctx names enableParticle
                      "pidTOF" "Enable")) by (rewrite Es; reflexivity).
  assert (Hf : tofPidMerge.mEnabledParticlesFull s
               = tofPidMerge.enabledIndices
                   (tofPidMerge.flagOf ctx names enableParticle
                      "pidTOFFull" "EnableFull")) by (rewrite Es; reflexivity).
  clearbody s.
  unfold tofPidMerge.processRun3, bind; rewrite Hsetup; simpl.
  rewrite Ht, Hf.
  rewrite !forEach_reserveTable by (apply enabledIndices_valid).
  destruct (trackLoop_rows lib (tofPidMerge.set_calib s c2 p2)
              _ _ Ht Hf tracks tofPidMerge.noTables)
    as (out & E & T & F).
  rewrite E; exists out; split; [reflexivity|].
  intros sp; rewrite T, F; simpl.
  split;
    match goal with |- context [if ?b then _ else _] => destruct b end;
    try reflexivity;
    unfold tracksOf; rewrite map_map; reflexivity.
Qed.

Lemma X7_witness :
  exists out,
    tofPidMerge.processRun3 Fixtures.env Fixtures.pidLib
      (tofPidMerge.state Fixtures.pidInitTask) Fixtures.bc1 Fixtures.tracks5
      Fixtures.pidInitWorld
    = Ok ((tofPidMerge.set_calib (tofPidMerge.state Fixtures.pidInitTask)
             Fixtures.pidCalib Fixtures.pidParams, out), Fixtures.pidWorld)
    /\ tracksOf (tofPidMerge.tiny out Kaon) = [0; 1; 2; 3; 4]
    /\ tracksOf (tofPidMerge.full out Alpha) = [0; 1; 2; 3; 4].
Proof.
  destruct (X7_pid_init_then_processRun3 Fixtures.env Fixtures.md Fixtures.ctx
              Fixtures.particleNames Fixtures.enableParticle false false
              Fixtures.pidSwitchesOff defaultParams Fixtures.world0
              Fixtures.pidInitTask Fixtures.pidInitWorld
              Fixtures.pidLib Fixtures.bc1 Fixtures.tracks5
              Fixtures.pidCalib Fixtures.pidParams Fixtures.pidWorld)
    as (out & E & H).
  - vm_compute; reflexivity.
  - vm_compute; reflexivity.
  - exists out; split; [exact E|].
    split; [exact (proj1 (H Kaon)) | exact (proj2 (H Alpha))].
Defined.

(** ** A task none of whose tables is required *)

(** X8.  With none of its tables required, [init] of the event-time
    task returns before the calibration set-up: the store is not
    accessed, the process switches are as they were and the
    configuration is the one inherited, so a pass missing from the
    calibration object goes unnoticed.  [init] of the response task runs
    the calibration set-up even when no Nsigma table is enabled: if the
    set-up aborts, so does the task, although its two Nsigma functions
    have just been switched off. *)
Theorem X8_init_without_required_tables :
  forall env md ctx o,
    baseTaskOptions ctx = Some o ->
    (forall s minMomentum maxMomentum maxNtracks sw w,
       isTableRequiredInWorkflow ctx "TOFEvTime" = false ->
       isTableRequiredInWorkflow ctx "EvTimeTOFOnly" = false ->
       tofEventTime.init env md ctx s minMomentum maxMomentum maxNtracks sw w
       = Ok (tofEventTime.mkTask
               (tofEventTime.set_tables s false false
                  (TOFCalibConfig.mk (-1) 2 o)) sw None, w))
    /\ (forall names enableParticle qa tofp sw p w msg,
          tofPidMerge.enabledIndices
            (tofPidMerge.flagOf ctx names enableParticle "pidTOF" "Enable")
          = [] ->
          tofPidMerge.enabledIndices
            (tofPidMerge.flagOf ctx names enableParticle
               "pidTOFFull" "EnableFull") = [] ->
          TOFCalibConfig.initSetup env (TOFCalibConfig.mk (-1) 2 o) p w
          = Fatal msg ->
          tofPidMerge.init env md ctx names enableParticle qa tofp sw p w
          = Fatal msg).
Proof.
  intros env md ctx o Hbase; split.
  - intros s mn mx n sw w Ha Hb.
    unfold tofEventTime.init, bind, TOFCalibConfig.inheritFromBaseTask.
    rewrite Hbase; unfold ret at 1; cbv beta iota zeta.
    rewrite Ha, Hb; reflexivity.
  - intros names enableParticle qa tofp sw p w msg Ht Hf Hsetup.
    unfold tofPidMerge.init, bind, TOFCalibConfig.inheritFromBaseTask.
    rewrite Hbase; unfold ret at 1; cbv beta iota zeta.
    rewrite Ht, Hf; unfold tofPidMerge.settleNsigma; simpl.
    rewrite Hsetup; reflexivity.
Qed.

Lemma X8_witness :
  tofEventTime.init Fixtures.env Fixtures.md Fixtures.ctxIdle
    (Fixtures.evTask (-1) (-1)) Fixtures.lit_0_5f (F32.of_Z 2) 10
    Fixtures.switchesOn Fixtures.world0
  = Ok (tofEventTime.mkTask
          (tofEventTime.set_tables (Fixtures.evTask (-1) (-1)) false false
             (TOFCalibConfig.mk (-1) 2 TOFCalibConfig.defaultOptions))
          Fixtures.switchesOn None, Fixtures.world0)
  /\ tofPidMerge.init Fixtures.env Fixtures.md Fixtures.ctxIdle
       Fixtures.particleNames Fixtures.enableParticle false false
       Fixtures.pidSwitchesOff defaultParams Fixtures.world0
     = Fatal "Pass '' not available in the retrieved CCDB object".
Proof.
  destruct (X8_init_without_required_tables Fixtures.env Fixtures.md
              Fixtures.ctxIdle TOFCalibConfig.defaultOptions eq_refl)
    as (Ha & Hb).
  split.
  - apply Ha; reflexivity.
  - apply Hb; [reflexivity | reflexivity | vm_compute; reflexivity].
Defined.

(** ** The event-time modes that use no TOF estimate *)

Lemma evtime_trackRun2_fold :
  forall cols tracks o,
    fold_left (tofEventTime.trackRun2 cols) tracks o
    = tofEventTime.mkTables
        (tofEventTime.tableEvTime o
         ++ map (fun t =>
                   (globalIndex t,
                    if has_collision t
                    then (F32.mul (collisionTime (cols (collisionId t))) lit_1000f,
                          F32.mul (collisionTimeRes (cols (collisionId t)))
                            lit_1000f)
                    else (F32.zero, lit_999f))) tracks)
        (tofEventTime.tableEvTimeTOFOnly o)
        (tofEventTime.tableFlags o
         ++ map (fun t => (globalIndex t, if has_collision t then 1 else 0))
              tracks).
Proof.
  intros cols tracks; induction tracks as [|trk l IH]; intros o; simpl.
  - destruct o; simpl; now rewrite !app_nil_r.
  - rewrite IH; unfold tofEventTime.trackRun2, tofEventTime.putEvTime,
      tofEventTime.putFlags, append.
    destruct (has_collision trk); simpl; rewrite <- !app_assoc; reflexivity.
Qed.

(** X9.  The Run 2 function of the event-time task: when the event-time
    table is enabled, every track gets one row in [tableEvTime] and one
    in [tableFlags], in track order: flag 1 and the collision time and
    resolution multiplied by 1000 for a track with a collision, flag 0
    and (0, 999) for the others.  The event selection is not consulted
    and [tableEvTimeTOFOnly] receives no row. *)
Theorem X9_evtime_run2_rows :
  forall (s : tofEventTime.t) (cols : Collisions) (tracks : list Track),
    tofEventTime.processRun2 s cols tracks
    = if tofEventTime.enableTableTOFEvTime s
      then tofEventTime.mkTables
             (map (fun t =>
                     (globalIndex t,
                      if has_collision t
                      then (F32.mul (collisionTime (cols (collisionId t)))
                              lit_1000f,
                            F32.mul (collisionTimeRes (cols (collisionId t)))
                              lit_1000f)
                      else (F32.zero, lit_999f))) tracks)
             []
             (map (fun t => (globalIndex t, if has_collision t then 1 else 0))
                tracks)
      else tofEventTime.noTables.
Proof.
  intros s cols tracks; unfold tofEventTime.processRun2.
  destruct (tofEventTime.enableTableTOFEvTime s); [|reflexivity].
  simpl; rewrite evtime_trackRun2_fold; reflexivity.
Qed.

Lemma stepFT0Only_fold :
  forall s cols tracks o,
    fold_left (tofEventTime.stepFT0Only s cols) tracks o
    = tofEventTime.mkTables
        (tofEventTime.tableEvTime o
         ++ map (fun t =>
                   (globalIndex t,
                    if has_collision t
                       && (has_foundFT0 (cols (collisionId t))
                           && t0ACValid (cols (collisionId t)))
                    then (F32.mul (t0AC (cols (collisionId t))) lit_1000f,
                          F32.mul (t0resolution (cols (collisionId t)))
                            lit_1000f)
                    else (F32.zero, lit_999f))) tracks)
        (tofEventTime.tableEvTimeTOFOnly o
         ++ (if tofEventTime.enableTableEvTimeTOFOnly s
             then map (fun t => (globalIndex t, (0, F32.zero, F32.zero, -1)))
                    tracks
             else []))
        (tofEventTime.tableFlags o
         ++ map (fun t =>
                   (globalIndex t,
                    if has_collision t
                       && (has_foundFT0 (cols (collisionId t))
                           && t0ACValid (cols (collisionId t)))
                    then EvTimeT0AC else 0)) tracks).
Proof.
  intros s cols tracks; induction tracks as [|trk l IH]; intros o; simpl.
  - destruct o, (tofEventTime.enableTableEvTimeTOFOnly s); simpl;
      now rewrite !app_nil_r.
  - rewrite IH; unfold tofEventTime.stepFT0Only, tofEventTime.putEvTime,
      tofEventTime.putFlags, tofEventTime.putEvTimeTOFOnly, append.
    destruct (tofEventTime.enableTableEvTimeTOFOnly s),
      (has_collision trk),
      (has_foundFT0 (cols (collisionId trk))
       && t0ACValid (cols (collisionId trk)));
      simpl; rewrite <- ?app_assoc; reflexivity.
Qed.

(** X10.  The FT0-only mode: every track gets one row per table, in track
    order, and the row depends on the collision of the track alone: the
    FT0 flag with the FT0 time and resolution multiplied by 1000 when
    the track has a collision whose FT0 is found and valid, and flag 0
    with (0, 999) otherwise; the TOF-only table, when enabled, gets
    (0, 0, 0, -1) for every track.  The event selection, the momentum
    window and the cut on the event time do not enter. *)
Theorem X10_evtime_ft0_only_rows :
  forall (s : tofEventTime.t) (cols : Collisions) (tracks : list Track),
    tofEventTime.loopFT0Only s cols tracks
    = tofEventTime.mkTables
        (map (fun t =>
                (globalIndex t,
                 if has_collision t
                    && (has_foundFT0 (cols (collisionId t))
                        && t0ACValid (cols (collisionId t)))
                 then (F32.mul (t0AC (cols (collisionId t))) lit_1000f,
                       F32.mul (t0resolution (cols (collisionId t))) lit_1000f)
                 else (F32.zero, lit_999f))) tracks)
        (if tofEventTime.enableTableEvTimeTOFOnly s
         then map (fun t => (globalIndex t, (0, F32.zero, F32.zero, -1))) tracks
         else [])
        (map (fun t =>
                (globalIndex t,
                 if has_collision t
                    && (has_foundFT0 (cols (collisionId t))
                        && t0ACValid (cols (collisionId t)))
                 then EvTimeT0AC else 0)) tracks).
Proof.
  intros s cols tracks; unfold tofEventTime.loopFT0Only.
  rewrite stepFT0Only_fold; reflexivity.
Qed.

(** ** The choice of the estimators *)

(** X11.  The automatic choice of the estimators, when it returns: it
    accesses no store; an option set by hand is kept; afterwards neither
    option is -1, so the choice is made once: on any later call, whatever
    the calibration and the collision system then are, nothing
    changes. *)
Theorem X11_autoset_settles_once :
  forall env s w s1 w1,
    tofEventTime.autoset env s w = Ok (s1, w1) ->
    w1 = w
    /\ s1 = tofEventTime.set_compute s
              (tofEventTime.mComputeEvTimeWithTOF s1)
              (tofEventTime.mComputeEvTimeWithFT0 s1)
    /\ (tofEventTime.mComputeEvTimeWithTOF s <> -1 ->
        tofEventTime.mComputeEvTimeWithTOF s1
        = tofEventTime.mComputeEvTimeWithTOF s)
    /\ (tofEventTime.mComputeEvTimeWithFT0 s <> -1 ->
        tofEventTime.mComputeEvTimeWithFT0 s1
        = tofEventTime.mComputeEvTimeWithFT0 s)
    /\ tofEventTime.mComputeEvTimeWithTOF s1 <> -1
    /\ tofEventTime.mComputeEvTimeWithFT0 s1 <> -1
    /\ forall c p w',
         tofEventTime.autoset env (tofEventTime.set_calib s1 c p) w'
         = Ok (tofEventTime.set_calib s1 c p, w').
Proof.
  intros env s w s1 w1; unfold tofEventTime.autoset.
  assert (Hid : forall t, tofEventTime.mComputeEvTimeWithTOF t <> -1 ->
                  tofEventTime.mComputeEvTimeWithFT0 t <> -1 ->
                  forall c p w',
                    tofEventTime.autoset env (tofEventTime.set_calib t c p) w'
                    = Ok (tofEventTime.set_calib t c p, w')).
  { intros t Ht Hf c p w'; unfold tofEventTime.autoset; simpl.
    apply Z.eqb_neq in Ht, Hf; rewrite Ht, Hf; reflexivity. }
  destruct (tofEventTime.mComputeEvTimeWithTOF s =? -1) eqn:Et,
    (tofEventTime.mComputeEvTimeWithFT0 s =? -1) eqn:Ef; cbn [orb];
    try (destruct (_ =? kCollSyspp);
         [|destruct (_ =? kCollSysPbPb); [|discriminate]]);
    unfold ret; intros H; inversion H; subst; clear H;
    rewrite ?Et, ?Ef;
    repeat match goal with
    | E : (_ =? _) = true |- _ => apply Z.eqb_eq in E
    | E : (_ =? _) = false |- _ => apply Z.eqb_neq in E
    end;
    cbn [tofEventTime.set_compute tofEventTime.mComputeEvTimeWithTOF
         tofEventTime.mComputeEvTimeWithFT0];
    (split; [reflexivity|]);
    (split; [try reflexivity;
             match goal with
             | |- ?x = _ => destruct x; reflexivity
             end|]);
    (split; [intros; congruence|]);
    (split; [intros; congruence|]);
    (split; [first [discriminate | assumption]|]);
    (split; [first [discriminate | assumption]|]);
    apply Hid; simpl; first [discriminate | assumption].
Qed.

Lemma X11_witness :
  tofEventTime.autoset Fixtures.env
    (tofEventTime.set_calib (Fixtures.evTask (-1) 1) Fixtures.calibPbPb
       defaultParams) Fixtures.world0
  = Ok (tofEventTime.set_calib (Fixtures.evTask 1 1) Fixtures.calibPbPb
          defaultParams, Fixtures.world0)
  /\ tofEventTime.autoset Fixtures.env
       (tofEventTime.set_calib
          (tofEventTime.set_calib (Fixtures.evTask 1 1) Fixtures.calibPbPb
             defaultParams)
          Fixtures.calibDefault defaultParams) Fixtures.world1
     = Ok (tofEventTime.set_calib
             (tofEventTime.set_calib (Fixtures.evTask 1 1) Fixtures.calibPbPb
                defaultParams)
             Fixtures.calibDefault defaultParams, Fixtures.world1).
Proof.
  split; [vm_compute; reflexivity|].
  refine (proj2 (proj2 (proj2 (proj2 (proj2 (proj2
            (X11_autoset_settles_once Fixtures.env
               (tofEventTime.set_calib (Fixtures.evTask (-1) 1)
                  Fixtures.calibPbPb defaultParams)
               Fixtures.world0
               (tofEventTime.set_calib (Fixtures.evTask 1 1)
                  Fixtures.calibPbPb defaultParams)
               Fixtures.world0 _))))))
            Fixtures.calibDefault defaultParams Fixtures.world1).
  vm_compute; reflexivity.
Defined.

(** X12.  [processRun3] of the event-time task with both estimators left
    on the automatic choice, the event-time table enabled and the
    calibration set-up of the call returned: for pp collisions the FT0
    alone is used, for PbPb collisions the TOF alone, and for any other
    collision system the task aborts with a message that gives the
    number and the name of the collision system. *)
Theorem X12_evtime_mode_from_collision_system :
  forall env lib s cols bc tracks w c1 p1 w1,
    tofEventTime.enableTableTOFEvTime s = true ->
    tofEventTime.mComputeEvTimeWithTOF s = -1 ->
    tofEventTime.mComputeEvTimeWithFT0 s = -1 ->
    TOFCalibConfig.processSetup env (tofEventTime.mTOFCalibConfig s)
      (tofEventTime.mRespParamsV3 s) bc w = Ok ((c1, p1), w1) ->
    (TOFCalibConfig.collisionSystem c1 = kCollSyspp ->
     tofEventTime.processRun3 env lib s cols bc tracks w
     = Ok ((tofEventTime.set_compute (tofEventTime.set_calib s c1 p1) 0 1,
            tofEventTime.loopFT0Only
              (tofEventTime.set_compute (tofEventTime.set_calib s c1 p1) 0 1)
              cols tracks), w1))
    /\ (TOFCalibConfig.collisionSystem c1 = kCollSysPbPb ->
        tofEventTime.processRun3 env lib s cols bc tracks w
        = Ok ((tofEventTime.set_compute (tofEventTime.set_calib s c1 p1) 1 0,
               tofEventTime.loopTOFOnly lib
                 (tofEventTime.set_compute (tofEventTime.set_calib s c1 p1) 1 0)
                 cols tracks), w1))
    /\ (TOFCalibConfig.collisionSystem c1 <> kCollSyspp ->
        TOFCalibConfig.collisionSystem c1 <> kCollSysPbPb ->
        tofEventTime.processRun3 env lib s cols bc tracks w
        = Fatal ("Collision system "
                 ++ printInt (TOFCalibConfig.collisionSystem c1) ++ " "
                 ++ getCollisionSystemName env
                      (TOFCalibConfig.collisionSystem c1)
                 ++ " not supported for TOF event time computation")).
Proof.
  intros env lib s cols bc tracks w c1 p1 w1 Hen Ht Hf Hsetup.
  assert (E : tofEventTime.processRun3 env lib s cols bc tracks w
              = if TOFCalibConfig.collisionSystem c1 =? kCollSyspp
                then Ok ((tofEventTime.set_compute
                            (tofEventTime.set_calib s c1 p1) 0 1,
                          tofEventTime.loopFT0Only
                            (tofEventTime.set_compute
                               (tofEventTime.set_calib s c1 p1) 0 1)
                            cols tracks), w1)
                else if TOFCalibConfig.collisionSystem c1 =? kCollSysPbPb
                then Ok ((tofEventTime.set_compute
                            (tofEventTime.set_calib s c1 p1) 1 0,
                          tofEventTime.loopTOFOnly lib
                            (tofEventTime.set_compute
                               (tofEventTime.set_calib s c1 p1) 1 0)
                            cols tracks), w1)
                else Fatal (tofEventTime.msgNotSupported env
                              (TOFCalibConfig.collisionSystem c1))).
  { unfold tofEventTime.processRun3; rewrite Hen; cbn [negb].
    unfold bind at 1; rewrite Hsetup; cbn [fst snd].
    unfold bind, tofEventTime.autoset.
    cbn [tofEventTime.set_calib tofEventTime.mComputeEvTimeWithTOF
         tofEventTime.mComputeEvTimeWithFT0 tofEventTime.mTOFCalibConfig].
    rewrite Ht, Hf; cbn [Z.eqb orb Pos.eqb].
    destruct (TOFCalibConfig.collisionSystem c1 =? kCollSyspp);
      [reflexivity|].
    destruct (TOFCalibConfig.collisionSystem c1 =? kCollSysPbPb);
      reflexivity. }
  rewrite E; split; [|split].
  - intros H; apply Z.eqb_eq in H; rewrite H; reflexivity.
  - intros H; rewrite H; reflexivity.
  - intros H1 H2; apply Z.eqb_neq in H1, H2; rewrite H1, H2; reflexivity.
Qed.

Lemma X12_witness :
  tofEventTime.processRun3 Fixtures.env Fixtures.evLib
    (Fixtures.evTask (-1) (-1)) Fixtures.cols Fixtures.bc1 Fixtures.tracks5
    Fixtures.world0
  = Ok ((tofEventTime.set_compute
           (tofEventTime.set_calib (Fixtures.evTask (-1) (-1))
              Fixtures.calibPbPb defaultParams) 1 0,
         tofEventTime.loopTOFOnly Fixtures.evLib
           (tofEventTime.set_compute
              (tofEventTime.set_calib (Fixtures.evTask (-1) (-1))
                 Fixtures.calibPbPb defaultParams) 1 0)
           Fixtures.cols Fixtures.tracks5), Fixtures.worldPbPb)
  /\ tofEventTime.processRun3 Fixtures.envXeXe Fixtures.evLib
       (Fixtures.evTask (-1) (-1)) Fixtures.cols Fixtures.bc1 Fixtures.tracks5
       Fixtures.world0
     = Fatal "Collision system 2 XeXe not supported for TOF event time computation".
Proof.
  split.
  - refine (proj1 (proj2
              (X12_evtime_mode_from_collision_system Fixtures.env
                 Fixtures.evLib
                 (Fixtures.evTask (-1) (-1)) Fixtures.cols Fixtures.bc1
                 Fixtures.tracks5 Fixtures.world0
                 Fixtures.calibPbPb defaultParams Fixtures.worldPbPb
                 _ _ _ _)) _).
    + reflexivity.
    + reflexivity.
    + reflexivity.
    + vm_compute; reflexivity.
    + reflexivity.
  - refine (proj2 (proj2
              (X12_evtime_mode_from_collision_system Fixtures.envXeXe
                 Fixtures.evLib
                 (Fixtures.evTask (-1) (-1)) Fixtures.cols Fixtures.bc1
                 Fixtures.tracks5 Fixtures.world0
                 Fixtures.calibXeXe defaultParams Fixtures.worldPbPb
                 _ _ _ _)) _ _).
    + reflexivity.
    + reflexivity.
    + reflexivity.
    + vm_compute; reflexivity.
    + vm_compute; lia.
    + vm_compute; lia.
Defined.

(** X13.  [processRun3] of the event-time task.  With the table
    [TOFEvTime] not enabled it returns at once, whatever the two options
    are, without a row and without an access to the store.  With the
    table enabled it aborts when the calibration set-up or the automatic
    choice of the estimators aborts, with their message; once both have
    returned it returns exactly for the three combinations TOF and FT0,
    TOF alone, FT0 alone, and for every other pair of values, both
    estimators switched off included, it aborts with the message of an
    invalid configuration. *)
Theorem X13_evtime_supported_combinations :
  forall env lib s cols bc tracks w,
    (tofEventTime.enableTableTOFEvTime s = false ->
     tofEventTime.processRun3 env lib s cols bc tracks w
     = Ok ((s, tofEventTime.noTables), w))
    /\ (tofEventTime.enableTableTOFEvTime s = true ->
        (forall msg,
           TOFCalibConfig.processSetup env (tofEventTime.mTOFCalibConfig s)
             (tofEventTime.mRespParamsV3 s) bc w = Fatal msg ->
           tofEventTime.processRun3 env lib s cols bc tracks w = Fatal msg)
        /\ (forall c1 p1 w1 msg,
              TOFCalibConfig.processSetup env (tofEventTime.mTOFCalibConfig s)
                (tofEventTime.mRespParamsV3 s) bc w = Ok ((c1, p1), w1) ->
              tofEventTime.autoset env (tofEventTime.set_calib s c1 p1) w1
              = Fatal msg ->
              tofEventTime.processRun3 env lib s cols bc tracks w = Fatal msg)
        /\ (forall c1 p1 w1 s1 w2,
              TOFCalibConfig.processSetup env (tofEventTime.mTOFCalibConfig s)
                (tofEventTime.mRespParamsV3 s) bc w = Ok ((c1, p1), w1) ->
              tofEventTime.autoset env (tofEventTime.set_calib s c1 p1) w1
              = Ok (s1, w2) ->
              (exists out,
                 tofEventTime.processRun3 env lib s cols bc tracks w
                 = Ok ((s1, out), w2))
              /\ ((tofEventTime.mComputeEvTimeWithTOF s1 = 1
                   /\ tofEventTime.mComputeEvTimeWithFT0 s1 = 1)
                  \/ (tofEventTime.mComputeEvTimeWithTOF s1 = 1
                      /\ tofEventTime.mComputeEvTimeWithFT0 s1 = 0)
                  \/ (tofEventTime.mComputeEvTimeWithTOF s1 = 0
                      /\ tofEventTime.mComputeEvTimeWithFT0 s1 = 1))
              \/ tofEventTime.processRun3 env lib s cols bc tracks w
                 = Fatal "Invalid configuration for TOF event time computation"
                 /\ ~ (tofEventTime.mComputeEvTimeWithTOF s1 = 1
                       /\ tofEventTime.mComputeEvTimeWithFT0 s1 = 1)
                 /\ ~ (tofEventTime.mComputeEvTimeWithTOF s1 = 1
                       /\ tofEventTime.mComputeEvTimeWithFT0 s1 = 0)
                 /\ ~ (tofEventTime.mComputeEvTimeWithTOF s1 = 0
                       /\ tofEventTime.mComputeEvTimeWithFT0 s1 = 1))).
Proof.
  intros env lib s cols bc tracks w; split; [|intros Hen; split; [|split]].
  - intros Hen; unfold tofEventTime.processRun3; rewrite Hen; reflexivity.
  - intros msg Hsetup.
    unfold tofEventTime.processRun3; rewrite Hen; cbn [negb].
    unfold bind at 1; rewrite Hsetup; reflexivity.
  - intros c1 p1 w1 msg Hsetup Hauto.
    unfold tofEventTime.processRun3; rewrite Hen; cbn [negb].
    unfold bind at 1; rewrite Hsetup; cbn [fst snd].
    unfold bind; rewrite Hauto; reflexivity.
  - intros c1 p1 w1 s1 w2 Hsetup Hauto.
    assert (E : tofEventTime.processRun3 env lib s cols bc tracks w
                = if (tofEventTime.mComputeEvTimeWithTOF s1 =? 1)
                     && (tofEventTime.mComputeEvTimeWithFT0 s1 =? 1)
                  then Ok ((s1, tofEventTime.loopTOFFT0 lib s1 cols tracks), w2)
                  else if (tofEventTime.mComputeEvTimeWithTOF s1 =? 1)
                          && (tofEventTime.mComputeEvTimeWithFT0 s1 =? 0)
                  then Ok ((s1, tofEventTime.loopTOFOnly lib s1 cols tracks), w2)
                  else if (tofEventTime.mComputeEvTimeWithTOF s1 =? 0)
                          && (tofEventTime.mComputeEvTimeWithFT0 s1 =? 1)
                  then Ok ((s1, tofEventTime.loopFT0Only s1 cols tracks), w2)
                  else Fatal "Invalid configuration for TOF event time computation").
    { unfold tofEventTime.processRun3; rewrite Hen; cbn [negb].
      unfold bind at 1; rewrite Hsetup; cbn [fst snd].
      unfold bind; rewrite Hauto.
      repeat match goal with
      | |- context [if ?b then _ else _] => destruct b
      end; reflexivity. }
    rewrite E; clear E.
    destruct (tofEventTime.mComputeEvTimeWithTOF s1 =? 1) eqn:T1,
      (tofEventTime.mComputeEvTimeWithFT0 s1 =? 1) eqn:F1,
      (tofEventTime.mComputeEvTimeWithFT0 s1 =? 0) eqn:F0,
      (tofEventTime.mComputeEvTimeWithTOF s1 =? 0) eqn:T0;
      cbn [andb];
      repeat match goal with
      | E : (_ =? _) = true |- _ => apply Z.eqb_eq in E
      | E : (_ =? _) = false |- _ => apply Z.eqb_neq in E
      end;
      try congruence;
      try (left; split; [eexists; reflexivity|]; tauto);
      right; (split; [reflexivity|]); tauto.
Qed.

Lemma X13_witness :
  tofEventTime.processRun3 Fixtures.env Fixtures.evLib (Fixtures.evTask 0 0)
    Fixtures.cols Fixtures.bc1 Fixtures.tracks5 Fixtures.world0
  = Fatal "Invalid configuration for TOF event time computation"
  /\ tofEventTime.processRun3 Fixtures.env Fixtures.evLib
       (tofEventTime.set_tables (Fixtures.evTask 0 0) false true
          Fixtures.calibDefault)
       Fixtures.cols Fixtures.bc1 Fixtures.tracks5 Fixtures.world0
     = Ok ((tofEventTime.set_tables (Fixtures.evTask 0 0) false true
              Fixtures.calibDefault, tofEventTime.noTables), Fixtures.world0).
Proof.
  split.
  - destruct (proj2 (proj2 (proj2
                (X13_evtime_supported_combinations Fixtures.env Fixtures.evLib
                   (Fixtures.evTask 0 0) Fixtures.cols Fixtures.bc1
                   Fixtures.tracks5 Fixtures.world0) eq_refl))
                Fixtures.calibPbPb defaultParams Fixtures.worldPbPb
                (tofEventTime.set_calib (Fixtures.evTask 0 0) Fixtures.calibPbPb
                   defaultParams) Fixtures.worldPbPb)
      as [(_ & [(H & _)|[(H & _)|(_ & H)]])|(E & _)].
    + vm_compute; reflexivity.
    + vm_compute; reflexivity.
    + discriminate H.
    + discriminate H.
    + discriminate H.
    + exact E.
  - refine (proj1 (X13_evtime_supported_combinations Fixtures.env
                     Fixtures.evLib
                     (tofEventTime.set_tables (Fixtures.evTask 0 0) false true
                        Fixtures.calibDefault)
                     Fixtures.cols Fixtures.bc1 Fixtures.tracks5
                     Fixtures.world0) _).
    reflexivity.
Defined.

(** ** What the TOF estimate leaves in the tables *)

Lemma ltb_leb : forall x y : float, F32.ltb x y = true -> F32.leb x y = true.
Proof.
  intros x y; unfold F32.ltb, F32.leb, SFltb, SFleb.
  destruct (SFcompare x y) as [[| |]|]; auto.
Qed.

Lemma ltb_zero_not_leb :
  forall m : float, F32.ltb F32.zero m = true -> F32.leb m F32.zero = false.
Proof.
  intros m; destruct m as [s|s| |s mm e]; try discriminate;
    destruct s; try discriminate; reflexivity.
Qed.

(** X14.  TOF-only mode: the rows a track of a selected collision
    appends.  The flag is either [EvTimeTOF] or 0 and can be read off the
    stored error: it is set exactly when the error is below
    [kErrDiamond], and it is 0 exactly when the stored pair is
    (0, kErrDiamond).  The stored error is never NaN and never above
    [kErrDiamond]; with a positive cutoff the stored value is below the
    cutoff in magnitude (so it is not NaN either). *)
Theorem X14_tof_only_flag_from_error :
  forall lib s maker st trk,
  exists fl v e,
    tofEventTime.tableFlags
      (tofEventTime.outTOF (tofEventTime.trackTOFOnly lib s maker st trk))
    = append (tofEventTime.tableFlags (tofEventTime.outTOF st)) trk fl
    /\ tofEventTime.tableEvTime
         (tofEventTime.outTOF (tofEventTime.trackTOFOnly lib s maker st trk))
       = append (tofEventTime.tableEvTime (tofEventTime.outTOF st)) trk (v, e)
    /\ (fl = EvTimeTOF \/ fl = 0)
    /\ (fl = EvTimeTOF <-> F32.ltb e tofEventTime.kErrDiamond = true)
    /\ (fl = 0 <-> (v, e) = (F32.zero, tofEventTime.kErrDiamond))
    /\ F32.leb e tofEventTime.kErrDiamond = true
    /\ F32.is_nan e = false
    /\ (F32.ltb F32.zero (tofEventTime.maxEvTimeTOF s) = true ->
        F32.ltb (F32.abs v) (tofEventTime.maxEvTimeTOF s) = true
        /\ F32.is_nan v = false).
Proof.
  intros lib s maker st trk.
  destruct (tofEventTime.unbias lib s maker trk (tofEventTime.nGood st)
              (tofEventTime.et st) (tofEventTime.erret st))
    as [[n v0] e0] eqn:Hub.
  destruct (trackTOFOnly_rows lib s maker st trk n v0 e0 Hub) as (Hf & Hv & _).
  cbv zeta in Hf, Hv.
  exists (fst (fst (tofEventTime.checkedTOF s v0 e0))),
         (snd (fst (tofEventTime.checkedTOF s v0 e0))),
         (snd (tofEventTime.checkedTOF s v0 e0)).
  split; [exact Hf|]; split; [exact Hv|]; clear Hf Hv.
  unfold tofEventTime.checkedTOF, tofEventTime.acceptTOF.
  destruct (F32.ltb e0 tofEventTime.kErrDiamond) eqn:E1; cbn [andb].
  - destruct (F32.leb (tofEventTime.maxEvTimeTOF s) F32.zero
              || F32.ltb (F32.abs v0) (tofEventTime.maxEvTimeTOF s)) eqn:E2;
      cbn [fst snd].
    + split; [left; reflexivity|].
      split; [split; [intros _; exact E1 | reflexivity]|].
      split; [split; [discriminate|]|].
      { intros H; inversion H; subst e0; vm_compute in E1; discriminate. }
      split; [apply ltb_leb; exact E1|].
      split; [destruct e0; try reflexivity; discriminate E1|].
      intros Hpos; rewrite (ltb_zero_not_leb _ Hpos) in E2; simpl in E2.
      split; [exact E2|].
      destruct v0; try reflexivity; discriminate E2.
    + split; [right; reflexivity|].
      split; [split; [discriminate | vm_compute; discriminate]|].
      split; [split; reflexivity|].
      split; [vm_compute; reflexivity|].
      split; [reflexivity|].
      intros Hpos; split; [exact Hpos | reflexivity].
  - cbn [fst snd].
    split; [right; reflexivity|].
    split; [split; [discriminate | vm_compute; discriminate]|].
    split; [split; reflexivity|].
    split; [vm_compute; reflexivity|].
    split; [reflexivity|].
    intros Hpos; split; [exact Hpos | reflexivity].
Qed.

(** X15.  Combined mode, for a track of a selected collision whose TOF
    estimate fails the validity test and whose FT0 is missing or not
    valid: the rows appended are flags 0 and (0, kErrDiamond).  A found
    but not valid FT0 adds its default term (0, 999), whose weight alone
    is below the floor. *)
Theorem X15_combined_without_usable_estimator :
  forall lib s collision maker st trk n v e,
    tofEventTime.unbias lib s maker trk (tofEventTime.nGoodTracksForTOF st)
      (fst (tofEventTime.t0TOF st)) (snd (tofEventTime.t0TOF st))
    = (n, v, e) ->
    tofEventTime.acceptTOF s v e = false ->
    has_foundFT0 collision && t0ACValid collision = false ->
    tofEventTime.t0ACvar st = (F32.zero, lit_999f) ->
    tofEventTime.tableFlags
      (tofEventTime.out (tofEventTime.trackTOFFT0 lib s collision maker st trk))
    = append (tofEventTime.tableFlags (tofEventTime.out st)) trk 0
    /\ tofEventTime.tableEvTime
         (tofEventTime.out
            (tofEventTime.trackTOFFT0 lib s collision maker st trk))
       = append (tofEventTime.tableEvTime (tofEventTime.out st)) trk
           (F32.zero, tofEventTime.kErrDiamond)
    /\ tofEventTime.t0ACvar
         (tofEventTime.trackTOFFT0 lib s collision maker st trk)
       = (F32.zero, lit_999f).
Proof.
  intros lib s collision maker st trk n v e Hub Hrej Hft0 Ht0.
  destruct (trackTOFFT0_rows lib s collision maker st trk) as (Hf & Hv).
  cbv zeta in Hf, Hv; rewrite Hf, Hv; clear Hf Hv.
  assert (Hkept :
            tofEventTime.t0ACvar
              (tofEventTime.trackTOFFT0 lib s collision maker st trk)
            = (F32.zero, lit_999f)).
  { rewrite <- Ht0.
    apply (t0AC_kept lib s collision maker [trk] st Hft0). }
  unfold tofEventTime.sumsOfTrack; rewrite Hub.
  unfold tofEventTime.addTOF; cbn [fst snd]; rewrite Hrej.
  unfold tofEventTime.addFT0; rewrite Ht0.
  destruct (has_foundFT0 collision); [|split; [|split]; try exact Hkept;
                                        vm_compute; reflexivity].
  destruct (t0ACValid collision); [discriminate Hft0|].
  split; [|split]; try exact Hkept; vm_compute; reflexivity.
Qed.

Lemma X15_witness :
  tofEventTime.tableFlags
    (tofEventTime.out
       (tofEventTime.trackTOFFT0 Fixtures.evLibWide (Fixtures.evTask 1 1)
          (Fixtures.cols 1) tt Fixtures.start (Fixtures.track 0 1 true)))
  = [(0, 0)]
  /\ tofEventTime.tableEvTime
       (tofEventTime.out
          (tofEventTime.trackTOFFT0 Fixtures.evLibWide (Fixtures.evTask 1 1)
             (Fixtures.cols 1) tt Fixtures.start (Fixtures.track 0 1 true)))
     = [(0, (F32.zero, tofEventTime.kErrDiamond))]
  /\ tofEventTime.t0ACvar
       (tofEventTime.trackTOFFT0 Fixtures.evLibWide (Fixtures.evTask 1 1)
          (Fixtures.cols 1) tt Fixtures.start (Fixtures.track 0 1 true))
     = (F32.zero, lit_999f).
Proof.
  apply (X15_combined_without_usable_estimator Fixtures.evLibWide
           (Fixtures.evTask 1 1) (Fixtures.cols 1) tt Fixtures.start
           (Fixtures.track 0 1 true) 1 F32.zero (F32.of_Z 500));
    reflexivity.
Defined.

(** ** The calibration set-up: what is fetched, what is kept *)

Lemma loadParametrization_world :
  forall env origin pc c p w p1 w1,
    TOFCalibConfig.loadParametrization env origin pc c p w = Ok (p1, w1) ->
    fetches w1 = fetches w
    /\ timeShiftPos p1 = timeShiftPos p
    /\ timeShiftNeg p1 = timeShiftNeg p.
Proof.
  intros env origin pc c p w p1 w1.
  unfold TOFCalibConfig.loadParametrization, retrieveParameters,
    TOFCalibConfig.setParametrization.
  destruct (getPars pc (TOFCalibConfig.mReconstructionPass c)); cbn [negb].
  - unfold ret; intros H; inversion H; subst.
    destruct (isRun3 env); simpl; auto.
  - destruct (TOFCalibConfig.mFatalOnPassNotAvailable c); [discriminate|].
    unfold bind, warning.
    destruct (getPars pc (TOFCalibConfig.mReconstructionPassDefault c));
      cbn [negb]; [|discriminate].
    unfold ret; intros H; inversion H; subst.
    destruct (isRun3 env); simpl; auto.
Qed.

Lemma updateTimeShiftProcess_world :
  forall env c p name pos w p1 w1,
    TOFCalibConfig.updateTimeShiftProcess env c p name pos w = Ok (p1, w1) ->
    (exists l, fetches w1 = fetches w ++ l
               /\ forallb isTimeShiftFetch l = true)
    /\ warnings w1 = warnings w
    /\ retrieved p1 = retrieved p
    /\ resolutionParametrization p1 = resolutionParametrization p
    /\ resolutionIsRun2 p1 = resolutionIsRun2 p
    /\ momentumChargeShift p1 = momentumChargeShift p
    /\ (TOFCalibConfig.isEmpty name || TOFCalibConfig.isFromFile name = true ->
        p1 = p /\ w1 = w)
    /\ (if pos then timeShiftNeg p1 = timeShiftNeg p
        else timeShiftPos p1 = timeShiftPos p).
Proof.
  intros env c p name pos w p1 w1.
  unfold TOFCalibConfig.updateTimeShiftProcess.
  destruct (TOFCalibConfig.isEmpty name); cbn [orb].
  { unfold ret; intros H; inversion H; subst.
    split; [exists []; rewrite app_nil_r; auto|].
    repeat split; auto; destruct pos; reflexivity. }
  destruct (TOFCalibConfig.isFromFile name).
  { unfold ret; intros H; inversion H; subst.
    split; [exists []; rewrite app_nil_r; auto|].
    repeat split; auto; destruct pos; reflexivity. }
  unfold bind, fetch, ret; intros H; inversion H; subst; simpl.
  split; [eexists; split; reflexivity|].
  unfold setTimeShiftParameters; destruct pos; simpl;
    repeat split; auto; discriminate.
Qed.

(** [processSetup] for a bunch crossing of another run than the last. *)
Lemma processSetup_new_run :
  forall env c p bc w,
    TOFCalibConfig.mLastRunNumber c <> runNumber bc ->
    let c0 :=
      TOFCalibConfig.set_mTimestamp
        (TOFCalibConfig.set_mLastRunNumber c (runNumber bc)) (timestamp bc) in
    let grp := TOFCalibConfig.mCollisionSystem c =? -1 in
    let c' :=
      if grp
      then TOFCalibConfig.set_mCollisionSystem c0
             (ccdbCollisionType env (TOFCalibConfig.mPathGrpLhcIf c)
                (timestamp bc))
      else c0 in
    let w' :=
      if grp
      then mkWorld (fetches w
                    ++ [FetchGrpLhcIf (TOFCalibConfig.mPathGrpLhcIf c)
                          (timestamp bc)]) (warnings w)
      else w in
    TOFCalibConfig.processSetup env c p bc w
    = if negb (TOFCalibConfig.mEnableTimeDependentResponse c)
      then Ok ((c', p), w')
      else
        bind (if TOFCalibConfig.isEmpty (TOFCalibConfig.mParamFileName c)
              then bind (fetch (FetchParameterCollection
                                  (TOFCalibConfig.mParametrizationPath c)
                                  (timestamp bc)))
                     (fun _ =>
                        TOFCalibConfig.loadParametrization env "CCDB object"
                          (ccdbParameterCollection env
                             (TOFCalibConfig.mParametrizationPath c)
                             (timestamp bc)) c' p)
              else ret p)
          (fun p =>
             bind (TOFCalibConfig.updateTimeShiftProcess env c' p
                     (TOFCalibConfig.nameShiftPos env c') true)
               (fun p =>
                  bind (TOFCalibConfig.updateTimeShiftProcess env c' p
                          (TOFCalibConfig.nameShiftNeg env c') false)
                    (fun p => ret (c', p)))) w'.
Proof.
  intros env c p bc w Hrun; cbv zeta.
  unfold TOFCalibConfig.processSetup.
  apply Z.eqb_neq in Hrun; rewrite Hrun.
  destruct c as [l m o]; destruct o.
  unfold TOFCalibConfig.set_mCollisionSystem, TOFCalibConfig.set_mTimestamp,
    TOFCalibConfig.set_mLastRunNumber, TOFCalibConfig.mCollisionSystem,
    TOFCalibConfig.mEnableTimeDependentResponse, TOFCalibConfig.mParamFileName,
    TOFCalibConfig.mPathGrpLhcIf, TOFCalibConfig.mTimestamp,
    TOFCalibConfig.mParametrizationPath.
  cbn [TOFCalibConfig.opt TOFCalibConfig.mLastRunNumber TOFCalibConfig.mInitMode
       TOFCalibConfig.cfgUrl TOFCalibConfig.cfgPathGrpLhcIf
       TOFCalibConfig.cfgTimestamp TOFCalibConfig.cfgTimeShiftCCDBPathPos
       TOFCalibConfig.cfgTimeShiftCCDBPathNeg
       TOFCalibConfig.cfgTimeShiftCCDBPathPosMC
       TOFCalibConfig.cfgTimeShiftCCDBPathNegMC
       TOFCalibConfig.cfgParamFileName TOFCalibConfig.cfgParametrizationPath
       TOFCalibConfig.cfgReconstructionPass
       TOFCalibConfig.cfgReconstructionPassDefault
       TOFCalibConfig.cfgFatalOnPassNotAvailable
       TOFCalibConfig.cfgEnableTimeDependentResponse
       TOFCalibConfig.cfgCollisionSystem
       TOFCalibConfig.cfgAutoSetProcessFunctions].
  destruct (cfgCollisionSystem =? -1).
  - unfold bind at 1. unfold bind at 1. unfold fetch at 1, ret at 1.
    cbv beta iota.
    cbn [TOFCalibConfig.opt TOFCalibConfig.cfgEnableTimeDependentResponse
         TOFCalibConfig.cfgParamFileName TOFCalibConfig.cfgParametrizationPath
         TOFCalibConfig.cfgTimestamp].
    destruct cfgEnableTimeDependentResponse; reflexivity.
  - unfold bind at 1. unfold ret at 1. cbv beta iota.
    cbn [TOFCalibConfig.opt TOFCalibConfig.cfgEnableTimeDependentResponse
         TOFCalibConfig.cfgParamFileName TOFCalibConfig.cfgParametrizationPath
         TOFCalibConfig.cfgTimestamp].
    destruct cfgEnableTimeDependentResponse; reflexivity.
Qed.

Lemma forallb_filter_nil :
  forall (A : Type) (q r : A -> bool) (l : list A),
    forallb q l = true ->
    (forall x, q x = true -> r x = false) ->
    filter r l = [].
Proof.
  intros A q r l; induction l as [|x l IH]; intros H Hqr; [reflexivity|].
  simpl in H; apply andb_prop in H; destruct H as (Hx & Hl).
  simpl; rewrite (Hqr x Hx); apply IH; assumption.
Qed.

(** The refresh made by [processSetup] when the response depends on
    time. *)
Lemma processSetup_refresh_world :
  forall env c' p w' file path ts c1 p1 w1,
    bind (if TOFCalibConfig.isEmpty file
          then bind (fetch (FetchParameterCollection path ts))
                 (fun _ =>
                    TOFCalibConfig.loadParametrization env "CCDB object"
                      (ccdbParameterCollection env path ts) c' p)
          else ret p)
      (fun p =>
         bind (TOFCalibConfig.updateTimeShiftProcess env c' p
                 (TOFCalibConfig.nameShiftPos env c') true)
           (fun p =>
              bind (TOFCalibConfig.updateTimeShiftProcess env c' p
                      (TOFCalibConfig.nameShiftNeg env c') false)
                (fun p => ret (c', p)))) w'
    = Ok ((c1, p1), w1) ->
    c1 = c'
    /\ (exists l,
          fetches w1 = fetches w' ++ l
          /\ filter isGrpFetch l = []
          /\ (TOFCalibConfig.isEmpty file = false ->
              filter isParameterFetch l = []))
    /\ (TOFCalibConfig.isEmpty file = false ->
        warnings w1 = warnings w'
        /\ retrieved p1 = retrieved p
        /\ resolutionParametrization p1 = resolutionParametrization p
        /\ resolutionIsRun2 p1 = resolutionIsRun2 p
        /\ momentumChargeShift p1 = momentumChargeShift p)
    /\ (TOFCalibConfig.isEmpty (TOFCalibConfig.nameShiftPos env c')
        || TOFCalibConfig.isFromFile (TOFCalibConfig.nameShiftPos env c')
        = true -> timeShiftPos p1 = timeShiftPos p)
    /\ (TOFCalibConfig.isEmpty (TOFCalibConfig.nameShiftNeg env c')
        || TOFCalibConfig.isFromFile (TOFCalibConfig.nameShiftNeg env c')
        = true -> timeShiftNeg p1 = timeShiftNeg p).
Proof.
  intros env c' p w' file path ts c1 p1 w1.
  unfold bind at 1.
  match goal with
  | |- match ?m with Ok _ => _ | Fatal _ => _ end = _ -> _ =>
      destruct m as [[pa wa]|] eqn:Ea; [|discriminate]
  end.
  unfold bind at 1.
  destruct (TOFCalibConfig.updateTimeShiftProcess env c' pa _ true wa)
    as [[pb wb]|] eqn:Eb; [|discriminate].
  unfold bind at 1.
  destruct (TOFCalibConfig.updateTimeShiftProcess env c' pb _ false wb)
    as [[pc wc]|] eqn:Ec; [|discriminate].
  unfold ret; intros H; inversion H; subst; clear H.
  destruct (updateTimeShiftProcess_world _ _ _ _ _ _ _ _ Eb)
    as ((lb & Fb & Tb) & Wb & B1 & B2 & B3 & B4 & Bid & Bts).
  destruct (updateTimeShiftProcess_world _ _ _ _ _ _ _ _ Ec)
    as ((lc & Fc & Tc) & Wc & C1 & C2 & C3 & C4 & Cid & Cts).
  cbv iota in Bts, Cts.
  assert (Hts : forall x, isTimeShiftFetch x = true -> isGrpFetch x = false)
    by (intros [] ; simpl; congruence).
  assert (Htp : forall x, isTimeShiftFetch x = true ->
                          isParameterFetch x = false)
    by (intros [] ; simpl; congruence).
  assert (Ha : (exists la, fetches wa = fetches w' ++ la
                           /\ filter isGrpFetch la = []
                           /\ (TOFCalibConfig.isEmpty file = false -> la = []))
               /\ timeShiftPos pa = timeShiftPos p
               /\ timeShiftNeg pa = timeShiftNeg p
               /\ (TOFCalibConfig.isEmpty file = false -> pa = p /\ wa = w')).
  { destruct (TOFCalibConfig.isEmpty file).
    - unfold bind, fetch in Ea.
      apply loadParametrization_world in Ea; simpl in Ea.
      destruct Ea as (F & P1 & P2).
      split; [eexists; split; [exact F|]; split; [reflexivity|discriminate]|].
      repeat split; auto; discriminate.
    - unfold ret in Ea; inversion Ea; subst.
      split; [exists []; rewrite app_nil_r; auto|]. auto. }
  destruct Ha as ((la & Fa & Ga & Hla) & A1 & A2 & Aid).
  split; [reflexivity|].
  split.
  { exists (la ++ lb ++ lc).
    split; [rewrite Fc, Fb, Fa, <- !app_assoc; reflexivity|].
    split.
    - rewrite !filter_app, Ga,
        (forallb_filter_nil _ _ _ _ Tb Hts),
        (forallb_filter_nil _ _ _ _ Tc Hts); reflexivity.
    - intros Hfile; rewrite (Hla Hfile), !filter_app,
        (forallb_filter_nil _ _ _ _ Tb Htp),
        (forallb_filter_nil _ _ _ _ Tc Htp); reflexivity. }
  split.
  { intros Hfile; destruct (Aid Hfile) as (-> & ->).
    repeat split; congruence. }
  split.
  - intros Hn; destruct (Bid Hn) as (-> & ->); congruence.
  - intros Hn; destruct (Cid Hn) as (-> & ->); congruence.
Qed.

(** X16.  [processSetup] with the time-dependent response off (the
    declared default) never aborts and never touches the response
    parameters or the log.  It records the run; its only access to the
    store is the look-up of the beam type, made when the run changes
    while the collision system is still unset. *)
Theorem X16_processSetup_fixed_response :
  forall env c p bc w,
    TOFCalibConfig.mEnableTimeDependentResponse c = false ->
    exists c1 w1,
      TOFCalibConfig.processSetup env c p bc w = Ok ((c1, p), w1)
      /\ TOFCalibConfig.mLastRunNumber c1 = runNumber bc
      /\ warnings w1 = warnings w
      /\ fetches w1
         = fetches w
           ++ (if negb (TOFCalibConfig.mLastRunNumber c =? runNumber bc)
                  && (TOFCalibConfig.mCollisionSystem c =? -1)
               then [FetchGrpLhcIf (TOFCalibConfig.mPathGrpLhcIf c)
                       (timestamp bc)]
               else []).
Proof.
  intros env c p bc w Htd.
  destruct (TOFCalibConfig.mLastRunNumber c =? runNumber bc) eqn:Erun.
  - exists c, w; unfold TOFCalibConfig.processSetup; rewrite Erun.
    apply Z.eqb_eq in Erun; simpl; rewrite app_nil_r; auto.
  - apply Z.eqb_neq in Erun.
    rewrite (processSetup_new_run env c p bc w Erun), Htd; cbn [negb andb].
    destruct (TOFCalibConfig.mCollisionSystem c =? -1);
      eexists; eexists; (split; [reflexivity|]); simpl;
      rewrite ?app_nil_r; auto.
Qed.

Lemma X16_witness :
  exists c1 w1,
    TOFCalibConfig.processSetup Fixtures.env Fixtures.calibDefault
      defaultParams Fixtures.bc1 Fixtures.world0
    = Ok ((c1, defaultParams), w1)
    /\ TOFCalibConfig.mLastRunNumber c1 = 544122
    /\ warnings w1 = []
    /\ fetches w1 = [FetchGrpLhcIf "GLO/Config/GRPLHCIF" 1700000000000].
Proof.
  apply (X16_processSetup_fixed_response Fixtures.env Fixtures.calibDefault
           defaultParams Fixtures.bc1 Fixtures.world0).
  reflexivity.
Defined.

Lemma nameShift_kept :
  forall env c run ts,
    let c0 :=
      TOFCalibConfig.set_mTimestamp
        (TOFCalibConfig.set_mLastRunNumber c run) ts in
    TOFCalibConfig.nameShiftPos env c0 = TOFCalibConfig.nameShiftPos env c
    /\ TOFCalibConfig.nameShiftNeg env c0 = TOFCalibConfig.nameShiftNeg env c
    /\ forall sys,
         TOFCalibConfig.nameShiftPos env
           (TOFCalibConfig.set_mCollisionSystem c0 sys)
         = TOFCalibConfig.nameShiftPos env c
         /\ TOFCalibConfig.nameShiftNeg env
              (TOFCalibConfig.set_mCollisionSystem c0 sys)
            = TOFCalibConfig.nameShiftNeg env c.
Proof.
  intros env c run ts; destruct c as [l m o]; destruct o; cbv zeta.
  unfold TOFCalibConfig.nameShiftPos, TOFCalibConfig.nameShiftNeg.
  destruct (isMC env); simpl; auto.
Qed.

(** X17.  A configured parameter file is read at set-up time only.
    When [processSetup] returns with a parameter file configured, the
    parameter collection has not been fetched from the CCDB, no message
    has been logged and the parametrization of the bundle is the one it
    had. *)
Theorem X17_processSetup_keeps_parameter_file :
  forall env c p bc w c1 p1 w1,
    TOFCalibConfig.processSetup env c p bc w = Ok ((c1, p1), w1) ->
    TOFCalibConfig.isEmpty (TOFCalibConfig.mParamFileName c) = false ->
    filter isParameterFetch (fetches w1) = filter isParameterFetch (fetches w)
    /\ warnings w1 = warnings w
    /\ retrieved p1 = retrieved p
    /\ resolutionParametrization p1 = resolutionParametrization p
    /\ resolutionIsRun2 p1 = resolutionIsRun2 p
    /\ momentumChargeShift p1 = momentumChargeShift p.
Proof.
  intros env c p bc w c1 p1 w1.
  destruct (TOFCalibConfig.mLastRunNumber c =? runNumber bc) eqn:Erun.
  { unfold TOFCalibConfig.processSetup; rewrite Erun.
    unfold ret; intros H; inversion H; subst; auto 10. }
  apply Z.eqb_neq in Erun.
  rewrite (processSetup_new_run env c p bc w Erun).
  destruct (TOFCalibConfig.mEnableTimeDependentResponse c); cbn [negb].
  2:{ intros H; inversion H; subst.
      destruct (TOFCalibConfig.mCollisionSystem c =? -1); simpl;
        rewrite ?filter_app, ?app_nil_r; simpl; auto 10. }
  intros H Hf; apply processSetup_refresh_world in H.
  destruct H as (-> & (l & Fl & Gl & Pl) & Hfile & _).
  destruct (Hfile Hf) as (W & R1 & R2 & R3 & R4).
  rewrite Fl, filter_app, (Pl Hf), app_nil_r, W.
  destruct (TOFCalibConfig.mCollisionSystem c =? -1); simpl;
    rewrite ?filter_app, ?app_nil_r; simpl; auto 10.
Qed.

Lemma X17_witness :
  TOFCalibConfig.processSetup Fixtures.envFile Fixtures.fileCalib
    Fixtures.fileParams Fixtures.bc1 Fixtures.fileWorld
  = Ok ((Fixtures.fileCalib2, Fixtures.fileParams2), Fixtures.fileWorld2)
  /\ filter isParameterFetch (fetches Fixtures.fileWorld2) = []
  /\ warnings Fixtures.fileWorld2 = []
  /\ resolutionParametrization Fixtures.fileParams2 = Fixtures.pars1.
Proof.
  split; [vm_compute; reflexivity|].
  destruct (X17_processSetup_keeps_parameter_file Fixtures.envFile
              Fixtures.fileCalib Fixtures.fileParams Fixtures.bc1
              Fixtures.fileWorld Fixtures.fileCalib2 Fixtures.fileParams2
              Fixtures.fileWorld2)
    as (F & W & _ & R & _).
  - vm_compute; reflexivity.
  - reflexivity.
  - rewrite F, W, R; repeat split; vm_compute; reflexivity.
Defined.

(** The time shifts are left alone by [processSetup] when their path is
    empty or names a file. *)
Lemma processSetup_timeShift_kept :
  forall env c p bc w c1 p1 w1,
    TOFCalibConfig.processSetup env c p bc w = Ok ((c1, p1), w1) ->
    (TOFCalibConfig.isEmpty (TOFCalibConfig.nameShiftPos env c)
     || TOFCalibConfig.isFromFile (TOFCalibConfig.nameShiftPos env c)
     = true -> timeShiftPos p1 = timeShiftPos p)
    /\ (TOFCalibConfig.isEmpty (TOFCalibConfig.nameShiftNeg env c)
        || TOFCalibConfig.isFromFile (TOFCalibConfig.nameShiftNeg env c)
        = true -> timeShiftNeg p1 = timeShiftNeg p).
Proof.
  intros env c p bc w c1 p1 w1.
  destruct (TOFCalibConfig.mLastRunNumber c =? runNumber bc) eqn:Erun.
  { unfold TOFCalibConfig.processSetup; rewrite Erun.
    unfold ret; intros H; inversion H; subst; auto. }
  apply Z.eqb_neq in Erun.
  rewrite (processSetup_new_run env c p bc w Erun).
  destruct (nameShift_kept env c (runNumber bc) (timestamp bc))
    as (Np & Nn & Nsys); cbv zeta in Np, Nn, Nsys.
  destruct (TOFCalibConfig.mEnableTimeDependentResponse c); cbn [negb].
  2:{ intros H; inversion H; subst; auto. }
  intros H; apply processSetup_refresh_world in H.
  destruct H as (-> & _ & _ & Hpos & Hneg).
  split.
  - intros Hn; apply Hpos.
    destruct (TOFCalibConfig.mCollisionSystem c =? -1);
      [rewrite (proj1 (Nsys _))|rewrite Np]; exact Hn.
  - intros Hn; apply Hneg.
    destruct (TOFCalibConfig.mCollisionSystem c =? -1);
      [rewrite (proj2 (Nsys _))|rewrite Nn]; exact Hn.
Qed.

(** X18.  The collision system through [processSetup], when it returns:
    a configured collision system is kept and the beam type is not
    looked up; an unset one (-1) is replaced, when the run changes, by
    the beam type found in the store at the timestamp of the bunch
    crossing, with one access to the store. *)
Theorem X18_collision_system_looked_up_when_unset :
  forall env c p bc w c1 p1 w1,
    TOFCalibConfig.processSetup env c p bc w = Ok ((c1, p1), w1) ->
    TOFCalibConfig.mCollisionSystem c1
    = (if negb (TOFCalibConfig.mLastRunNumber c =? runNumber bc)
          && (TOFCalibConfig.mCollisionSystem c =? -1)
       then ccdbCollisionType env (TOFCalibConfig.mPathGrpLhcIf c)
              (timestamp bc)
       else TOFCalibConfig.mCollisionSystem c)
    /\ filter isGrpFetch (fetches w1)
       = filter isGrpFetch (fetches w)
         ++ (if negb (TOFCalibConfig.mLastRunNumber c =? runNumber bc)
                && (TOFCalibConfig.mCollisionSystem c =? -1)
             then [FetchGrpLhcIf (TOFCalibConfig.mPathGrpLhcIf c)
                     (timestamp bc)]
             else []).
Proof.
  intros env c p bc w c1 p1 w1.
  destruct (TOFCalibConfig.mLastRunNumber c =? runNumber bc) eqn:Erun.
  { unfold TOFCalibConfig.processSetup; rewrite Erun.
    unfold ret; intros H; inversion H; subst; simpl.
    rewrite app_nil_r; auto. }
  apply Z.eqb_neq in Erun.
  rewrite (processSetup_new_run env c p bc w Erun); cbn [negb andb].
  destruct (TOFCalibConfig.mEnableTimeDependentResponse c); cbn [negb].
  2:{ intros H; inversion H; subst.
      destruct (TOFCalibConfig.mCollisionSystem c =? -1); simpl;
        rewrite ?filter_app, ?app_nil_r; simpl; auto. }
  intros H; apply processSetup_refresh_world in H.
  destruct H as (-> & (l & Fl & Gl & _) & _).
  rewrite Fl, filter_app, Gl, app_nil_r.
  destruct (TOFCalibConfig.mCollisionSystem c =? -1); simpl;
    rewrite ?filter_app, ?app_nil_r; simpl; auto.
Qed.

Lemma X18_witness :
  TOFCalibConfig.processSetup Fixtures.env Fixtures.calibDefault
    defaultParams Fixtures.bc1 Fixtures.world0
  = Ok ((Fixtures.calibPbPb, defaultParams), Fixtures.worldPbPb)
  /\ TOFCalibConfig.mCollisionSystem Fixtures.calibPbPb = kCollSysPbPb
  /\ filter isGrpFetch (fetches Fixtures.worldPbPb)
     = [FetchGrpLhcIf "GLO/Config/GRPLHCIF" 1700000000000].
Proof.
  split; [vm_compute; reflexivity|].
  apply (X18_collision_system_looked_up_when_unset Fixtures.env
           Fixtures.calibDefault defaultParams Fixtures.bc1 Fixtures.world0
           Fixtures.calibPbPb defaultParams Fixtures.worldPbPb).
  vm_compute; reflexivity.
Defined.

(** ** The set-up made by [init] *)

Lemma isFromFile_not_empty :
  forall name,
    TOFCalibConfig.isFromFile name = true -> TOFCalibConfig.isEmpty name = false.
Proof.
  intros name H; unfold TOFCalibConfig.isEmpty.
  destruct (String.eqb name "") eqn:E; [|reflexivity].
  apply String.eqb_eq in E; subst name; discriminate H.
Qed.

Lemma updateTimeShiftInit_world :
  forall env c p name pos w p1 w1,
    TOFCalibConfig.updateTimeShiftInit env c p name pos w = Ok (p1, w1) ->
    (exists l,
       fetches w1 = fetches w ++ l
       /\ (TOFCalibConfig.mEnableTimeDependentResponse c = true ->
           filter isCcdbFetch l = []))
    /\ warnings w1 = warnings w
    /\ retrieved p1 = retrieved p
    /\ resolutionParametrization p1 = resolutionParametrization p
    /\ resolutionIsRun2 p1 = resolutionIsRun2 p
    /\ momentumChargeShift p1 = momentumChargeShift p
    /\ (if pos then timeShiftNeg p1 = timeShiftNeg p
        else timeShiftPos p1 = timeShiftPos p)
    /\ (TOFCalibConfig.isFromFile name = true ->
        (if pos then timeShiftPos p1 else timeShiftNeg p1)
        = fileTimeShift env name).
Proof.
  intros env c p name pos w p1 w1.
  unfold TOFCalibConfig.updateTimeShiftInit.
  destruct (TOFCalibConfig.isEmpty name) eqn:Ee.
  { unfold ret; intros H; inversion H; subst.
    split; [exists []; rewrite app_nil_r; auto|].
    repeat split; auto; try (destruct pos; reflexivity).
    intros Hf; rewrite (isFromFile_not_empty _ Hf) in Ee; discriminate. }
  destruct (TOFCalibConfig.isFromFile name).
  { unfold bind, fetch, ret; intros H; inversion H; subst; simpl.
    split; [eexists; split; [reflexivity|reflexivity]|].
    unfold setTimeShiftParameters; destruct pos; simpl; repeat split; auto. }
  destruct (TOFCalibConfig.mEnableTimeDependentResponse c); cbn [negb].
  { unfold ret; intros H; inversion H; subst.
    split; [exists []; rewrite app_nil_r; auto|].
    repeat split; auto; try (destruct pos; reflexivity); discriminate. }
  unfold bind, fetch, ret; intros H; inversion H; subst; simpl.
  split; [eexists; split; [reflexivity|discriminate]|].
  unfold setTimeShiftParameters; destruct pos; simpl;
    repeat split; auto; discriminate.
Qed.

Lemma passFromMetadata_kept :
  forall env c,
    let c' := TOFCalibConfig.passFromMetadata env
                (TOFCalibConfig.set_mInitMode c 1) in
    TOFCalibConfig.mInitMode c' = 1
    /\ TOFCalibConfig.mParamFileName c' = TOFCalibConfig.mParamFileName c
    /\ TOFCalibConfig.mEnableTimeDependentResponse c'
       = TOFCalibConfig.mEnableTimeDependentResponse c
    /\ TOFCalibConfig.nameShiftPos env c' = TOFCalibConfig.nameShiftPos env c
    /\ TOFCalibConfig.nameShiftNeg env c' = TOFCalibConfig.nameShiftNeg env c.
Proof.
  intros env c; cbv zeta; unfold TOFCalibConfig.passFromMetadata.
  destruct (String.eqb _ _); repeat split; reflexivity.
Qed.

(** X19.  [initSetup] with the time-dependent response on and no
    parameter file configured looks nothing up in the CCDB: it cannot
    abort on a missing pass, logs nothing and leaves the parametrization
    of the bundle as it was; the only accesses it can make are to
    files.  The look-up of the pass is left to [processSetup]. *)
Theorem X19_initSetup_defers_to_processSetup :
  forall env c p w,
    TOFCalibConfig.isEmpty (TOFCalibConfig.mParamFileName c) = true ->
    TOFCalibConfig.mEnableTimeDependentResponse c = true ->
    exists c1 p1 w1,
      TOFCalibConfig.initSetup env c p w = Ok ((c1, p1), w1)
      /\ c1 = TOFCalibConfig.passFromMetadata env
                (TOFCalibConfig.set_mInitMode c 1)
      /\ filter isCcdbFetch (fetches w1) = filter isCcdbFetch (fetches w)
      /\ warnings w1 = warnings w
      /\ retrieved p1 = retrieved p
      /\ resolutionParametrization p1 = resolutionParametrization p
      /\ resolutionIsRun2 p1 = resolutionIsRun2 p
      /\ momentumChargeShift p1 = momentumChargeShift p.
Proof.
  intros env c p w Hfile Htd.
  unfold TOFCalibConfig.initSetup.
  destruct (passFromMetadata_kept env c) as (_ & Ef & Ed & _).
  cbv zeta in Ef, Ed.
  set (c' := TOFCalibConfig.passFromMetadata env _) in *.
  rewrite Ef, Ed, Hfile, Htd; cbn [negb].
  unfold bind at 1; unfold ret at 1.
  unfold bind at 1.
  destruct (updateTimeShiftInit_ok env c' p
              (TOFCalibConfig.nameShiftPos env c') true w)
    as (pa & wa & Ea & _).
  rewrite Ea.
  unfold bind at 1.
  destruct (updateTimeShiftInit_ok env c' pa
              (TOFCalibConfig.nameShiftNeg env c') false wa)
    as (pb & wb & Eb & _).
  rewrite Eb.
  destruct (updateTimeShiftInit_world _ _ _ _ _ _ _ _ Ea)
    as ((la & Fa & Ca) & Wa & A1 & A2 & A3 & A4 & _).
  destruct (updateTimeShiftInit_world _ _ _ _ _ _ _ _ Eb)
    as ((lb & Fb & Cb) & Wb & B1 & B2 & B3 & B4 & _).
  rewrite Ed in Ca, Cb.
  exists c', pb, wb; split; [reflexivity|]; split; [reflexivity|].
  split; [rewrite Fb, Fa, !filter_app, (Ca Htd), (Cb Htd), !app_nil_r;
          reflexivity|].
  repeat split; congruence.
Qed.

Lemma X19_witness :
  exists c1 p1 w1,
    TOFCalibConfig.initSetup Fixtures.env Fixtures.calibFallback
      defaultParams Fixtures.world0 = Ok ((c1, p1), w1)
    /\ c1 = TOFCalibConfig.passFromMetadata Fixtures.env
              (TOFCalibConfig.set_mInitMode Fixtures.calibFallback 1)
    /\ filter isCcdbFetch (fetches w1) = []
    /\ warnings w1 = []
    /\ retrieved p1 = []
    /\ resolutionParametrization p1 = []
    /\ resolutionIsRun2 p1 = false
    /\ momentumChargeShift p1 = [].
Proof.
  apply (X19_initSetup_defers_to_processSetup Fixtures.env
           Fixtures.calibFallback defaultParams Fixtures.world0);
    reflexivity.
Defined.

Lemma processSetup_names :
  forall env c p bc w c1 p1 w1,
    TOFCalibConfig.processSetup env c p bc w = Ok ((c1, p1), w1) ->
    TOFCalibConfig.nameShiftPos env c1 = TOFCalibConfig.nameShiftPos env c
    /\ TOFCalibConfig.nameShiftNeg env c1 = TOFCalibConfig.nameShiftNeg env c.
Proof.
  intros env c p bc w c1 p1 w1.
  destruct (TOFCalibConfig.mLastRunNumber c =? runNumber bc) eqn:Erun.
  { unfold TOFCalibConfig.processSetup; rewrite Erun.
    unfold ret; intros H; inversion H; subst; auto. }
  apply Z.eqb_neq in Erun.
  rewrite (processSetup_new_run env c p bc w Erun).
  destruct (nameShift_kept env c (runNumber bc) (timestamp bc))
    as (Np & Nn & Nsys); cbv zeta in Np, Nn, Nsys.
  assert (Hc : forall c2,
            c2 = (if TOFCalibConfig.mCollisionSystem c =? -1
                  then TOFCalibConfig.set_mCollisionSystem
                         (TOFCalibConfig.set_mTimestamp
                            (TOFCalibConfig.set_mLastRunNumber c (runNumber bc))
                            (timestamp bc))
                         (ccdbCollisionType env
                            (TOFCalibConfig.mPathGrpLhcIf c) (timestamp bc))
                  else TOFCalibConfig.set_mTimestamp
                         (TOFCalibConfig.set_mLastRunNumber c (runNumber bc))
                         (timestamp bc)) ->
            TOFCalibConfig.nameShiftPos env c2
            = TOFCalibConfig.nameShiftPos env c
            /\ TOFCalibConfig.nameShiftNeg env c2
               = TOFCalibConfig.nameShiftNeg env c).
  { intros c2 ->; destruct (TOFCalibConfig.mCollisionSystem c =? -1);
      [apply Nsys | split; assumption]. }
  destruct (TOFCalibConfig.mEnableTimeDependentResponse c); cbn [negb].
  2:{ intros H; inversion H; subst; apply Hc; reflexivity. }
  intros H; apply processSetup_refresh_world in H.
  destruct H as (-> & _); apply Hc; reflexivity.
Qed.

Lemma initSetup_timeShift :
  forall env c p w c1 p1 w1,
    TOFCalibConfig.initSetup env c p w = Ok ((c1, p1), w1) ->
    c1 = TOFCalibConfig.passFromMetadata env (TOFCalibConfig.set_mInitMode c 1)
    /\ (TOFCalibConfig.isFromFile (TOFCalibConfig.nameShiftPos env c) = true ->
        timeShiftPos p1 = fileTimeShift env (TOFCalibConfig.nameShiftPos env c))
    /\ (TOFCalibConfig.isFromFile (TOFCalibConfig.nameShiftNeg env c) = true ->
        timeShiftNeg p1 = fileTimeShift env (TOFCalibConfig.nameShiftNeg env c)).
Proof.
  intros env c p w c1 p1 w1; unfold TOFCalibConfig.initSetup.
  destruct (passFromMetadata_kept env c) as (_ & _ & _ & Np & Nn).
  cbv zeta in Np, Nn.
  set (c' := TOFCalibConfig.passFromMetadata env _) in *.
  rewrite Np, Nn.
  unfold bind at 1.
  match goal with
  | |- match ?m with Ok _ => _ | Fatal _ => _ end = _ -> _ =>
      destruct m as [[pa wa]|] eqn:Ea; [|discriminate]
  end.
  unfold bind at 1.
  destruct (TOFCalibConfig.updateTimeShiftInit env c' pa _ true wa)
    as [[pb wb]|] eqn:Eb; [|discriminate].
  unfold bind at 1.
  destruct (TOFCalibConfig.updateTimeShiftInit env c' pb _ false wb)
    as [[pc wc]|] eqn:Ec; [|discriminate].
  unfold ret; intros H; inversion H; subst; clear H.
  destruct (updateTimeShiftInit_world _ _ _ _ _ _ _ _ Eb)
    as (_ & _ & _ & _ & _ & _ & _ & Bf).
  destruct (updateTimeShiftInit_world _ _ _ _ _ _ _ _ Ec)
    as (_ & _ & _ & _ & _ & _ & Ck & Cf).
  cbv iota in Bf, Ck, Cf.
  split; [reflexivity|]; split.
  - intros Hf; rewrite Ck; apply Bf; exact Hf.
  - exact Cf.
Qed.

(** X20.  A time shift whose path names a file ([.root]) is loaded from
    the file by [initSetup] and is never refreshed: after any later
    [processSetup] the stored time shift is still the content of the
    file, and the path is still the same. *)
Theorem X20_time_shift_file_loaded_once :
  forall env c p w c1 p1 w1 bc c2 p2 w2,
    TOFCalibConfig.initSetup env c p w = Ok ((c1, p1), w1) ->
    TOFCalibConfig.processSetup env c1 p1 bc w1 = Ok ((c2, p2), w2) ->
    (TOFCalibConfig.isFromFile (TOFCalibConfig.nameShiftPos env c) = true ->
     timeShiftPos p1 = fileTimeShift env (TOFCalibConfig.nameShiftPos env c)
     /\ timeShiftPos p2 = fileTimeShift env (TOFCalibConfig.nameShiftPos env c)
     /\ TOFCalibConfig.nameShiftPos env c2 = TOFCalibConfig.nameShiftPos env c)
    /\ (TOFCalibConfig.isFromFile (TOFCalibConfig.nameShiftNeg env c) = true ->
        timeShiftNeg p1 = fileTimeShift env (TOFCalibConfig.nameShiftNeg env c)
        /\ timeShiftNeg p2
           = fileTimeShift env (TOFCalibConfig.nameShiftNeg env c)
        /\ TOFCalibConfig.nameShiftNeg env c2
           = TOFCalibConfig.nameShiftNeg env c).
Proof.
  intros env c p w c1 p1 w1 bc c2 p2 w2 Hinit Hproc.
  destruct (initSetup_timeShift _ _ _ _ _ _ _ Hinit) as (Ec & Ip & In_).
  destruct (passFromMetadata_kept env c) as (_ & _ & _ & Np & Nn).
  cbv zeta in Np, Nn; rewrite <- Ec in Np, Nn.
  destruct (processSetup_timeShift_kept _ _ _ _ _ _ _ _ Hproc) as (Kp & Kn).
  destruct (processSetup_names _ _ _ _ _ _ _ _ Hproc) as (Mp & Mn).
  rewrite Np in Kp, Mp; rewrite Nn in Kn, Mn.
  split; intros Hf.
  - split; [apply Ip; exact Hf|].
    split; [|exact Mp].
    rewrite Kp; [apply Ip; exact Hf | rewrite Hf; apply orb_true_r].
  - split; [apply In_; exact Hf|].
    split; [|exact Mn].
    rewrite Kn; [apply In_; exact Hf | rewrite Hf; apply orb_true_r].
Qed.

Lemma X20_witness :
  TOFCalibConfig.initSetup Fixtures.envFile
    (TOFCalibConfig.init Fixtures.optFile) defaultParams Fixtures.world0
  = Ok ((Fixtures.fileCalib, Fixtures.fileParams), Fixtures.fileWorld)
  /\ TOFCalibConfig.processSetup Fixtures.envFile Fixtures.fileCalib
       Fixtures.fileParams Fixtures.bc1 Fixtures.fileWorld
     = Ok ((Fixtures.fileCalib2, Fixtures.fileParams2), Fixtures.fileWorld2)
  /\ timeShiftPos Fixtures.fileParams = Some Fixtures.shift1
  /\ timeShiftPos Fixtures.fileParams2 = Some Fixtures.shift1
  /\ TOFCalibConfig.nameShiftPos Fixtures.envFile Fixtures.fileCalib2
     = "shift.root".
Proof.
  split; [vm_compute; reflexivity|].
  split; [vm_compute; reflexivity|].
  refine (proj1 (X20_time_shift_file_loaded_once Fixtures.envFile
                   (TOFCalibConfig.init Fixtures.optFile) defaultParams
                   Fixtures.world0
                   Fixtures.fileCalib Fixtures.fileParams Fixtures.fileWorld
                   Fixtures.bc1
                   Fixtures.fileCalib2 Fixtures.fileParams2 Fixtures.fileWorld2
                   _ _) _).
  - vm_compute; reflexivity.
  - vm_compute; reflexivity.
  - reflexivity.
Defined.

(** ** The beta and mass tables *)

Lemma trackBetaM_fold :
  forall lib s tracks o,
    fold_left (tofPidMerge.trackBetaM lib s) tracks o
    = tofPidMerge.mkBetaTables
        (tofPidMerge.tablePIDBeta o
         ++ (if tofPidMerge.enableTableBeta s
             then map (fun trk =>
                         (globalIndex trk,
                          (GetBeta lib trk, GetBetaExpectedSigma lib trk)))
                    tracks
             else []))
        (tofPidMerge.tablePIDTOFMass o
         ++ (if tofPidMerge.enableTableMass s
             then map (fun trk =>
                         (globalIndex trk,
                          if tofPidMerge.enableTOFParamsForBetaMass s
                          then GetTOFMassOfMomentum lib
                                 (F32.div (tofExpMom trk)
                                    (F32.add F32.one
                                       (F32.mul (F32.of_Z (sign trk))
                                          (getMomentumChargeShift lib
                                             (tofPidMerge.mRespParamsV3 s)
                                             (eta trk)))))
                                 (GetBeta lib trk)
                          else GetTOFMassOfTrack lib trk (GetBeta lib trk)))
                    tracks
             else [])).
Proof.
  intros lib s tracks; induction tracks as [|trk l IH]; intros o; simpl.
  - destruct o, (tofPidMerge.enableTableBeta s),
      (tofPidMerge.enableTableMass s); simpl; now rewrite !app_nil_r.
  - rewrite IH; unfold tofPidMerge.trackBetaM, append.
    destruct (tofPidMerge.enableTableBeta s), (tofPidMerge.enableTableMass s),
      (tofPidMerge.enableTOFParamsForBetaMass s);
      simpl; rewrite <- ?app_assoc; reflexivity.
Qed.

(** X21.  The beta and mass functions (Run 3 and Run 2), for every choice
    of enabled tables: the beta table, when enabled, holds for every
    track, in track order, the beta of the track and its expected
    resolution; the mass table, when enabled, holds the mass computed
    from that same beta, with the momentum corrected by the
    momentum-charge shift when [enableTOFParamsForBetaMass] is set.  A
    table that is not enabled receives no row, and no track is left out
    on account of its collision or its TOF match. *)
Theorem X21_beta_mass_tables :
  forall (lib : PidLib) (s : tofPidMerge.t) (tracks : list Track),
    tofPidMerge.processRun3BetaM lib s tracks
    = tofPidMerge.mkBetaTables
        (if tofPidMerge.enableTableBeta s
         then map (fun trk =>
                     (globalIndex trk,
                      (GetBeta lib trk, GetBetaExpectedSigma lib trk))) tracks
         else [])
        (if tofPidMerge.enableTableMass s
         then map (fun trk =>
                     (globalIndex trk,
                      if tofPidMerge.enableTOFParamsForBetaMass s
                      then GetTOFMassOfMomentum lib
                             (F32.div (tofExpMom trk)
                                (F32.add F32.one
                                   (F32.mul (F32.of_Z (sign trk))
                                      (getMomentumChargeShift lib
                                         (tofPidMerge.mRespParamsV3 s)
                                         (eta trk)))))
                             (GetBeta lib trk)
                      else GetTOFMassOfTrack lib trk (GetBeta lib trk))) tracks
         else [])
    /\ tofPidMerge.processRun2BetaM lib s tracks
       = tofPidMerge.processRun3BetaM lib s tracks.
Proof.
  intros lib s tracks; split; [|reflexivity].
  unfold tofPidMerge.processRun3BetaM; rewrite trackBetaM_fold.
  destruct (tofPidMerge.enableTableBeta s), (tofPidMerge.enableTableMass s);
    reflexivity.
Qed.

(** ** Tracks for which no event time is computed *)

Lemma NoDup_map_inj :
  forall (A B : Type) (f : A -> B) (l : list A) (x y : A),
    NoDup (map f l) -> In x l -> In y l -> f x = f y -> x = y.
Proof.
  intros A B f l x y; induction l as [|a l IH]; intros Hnd Hx Hy Hxy;
    [contradiction|].
  simpl in Hnd; inversion Hnd as [|? ? Hnotin Hnd']; subst.
  destruct Hx as [->|Hx], Hy as [->|Hy]; auto.
  - exfalso; apply Hnotin; rewrite Hxy; apply in_map; exact Hy.
  - exfalso; apply Hnotin; rewrite <- Hxy; apply in_map; exact Hx.
Qed.

Lemma trackTOFFT0_tags :
  forall lib s collision maker l st,
    (forall idx row,
       In (idx, row)
         (tofEventTime.tableEvTime
            (tofEventTime.out
               (fold_left (tofEventTime.trackTOFFT0 lib s collision maker) l st))) ->
       In (idx, row) (tofEventTime.tableEvTime (tofEventTime.out st))
       \/ In idx (map globalIndex l))
    /\ (forall idx f,
          In (idx, f)
            (tofEventTime.tableFlags
               (tofEventTime.out
                  (fold_left (tofEventTime.trackTOFFT0 lib s collision maker)
                     l st))) ->
          In (idx, f) (tofEventTime.tableFlags (tofEventTime.out st))
          \/ In idx (map globalIndex l)).
Proof.
  intros lib s collision maker l; induction l as [|trk l IH]; intros st.
  - simpl; split; intros; left; assumption.
  - simpl; destruct (IH (tofEventTime.trackTOFFT0 lib s collision maker st trk))
      as (H1 & H2).
    destruct (trackTOFFT0_rows lib s collision maker st trk) as (Hf & Hv).
    cbv zeta in Hf, Hv.
    split; intros idx r Hin.
    + destruct (H1 _ _ Hin) as [Ho|Ho]; [|right; right; exact Ho].
      rewrite Hv in Ho; unfold append in Ho.
      apply in_app_or in Ho; destruct Ho as [Ho|[Ho|[]]]; [left; exact Ho|].
      inversion Ho; subst; right; left; reflexivity.
    + destruct (H2 _ _ Hin) as [Ho|Ho]; [|right; right; exact Ho].
      rewrite Hf in Ho; unfold append in Ho.
      apply in_app_or in Ho; destruct Ho as [Ho|[Ho|[]]]; [left; exact Ho|].
      inversion Ho; subst; right; left; reflexivity.
Qed.

Lemma checkedTOF_error :
  forall s v e,
    F32.leb (snd (tofEventTime.checkedTOF s v e)) tofEventTime.kErrDiamond
    = true.
Proof.
  intros s v e; unfold tofEventTime.checkedTOF, tofEventTime.acceptTOF.
  destruct (F32.ltb e tofEventTime.kErrDiamond) eqn:E1; cbn [andb];
    [|vm_compute; reflexivity].
  destruct (F32.leb (tofEventTime.maxEvTimeTOF s) F32.zero
            || F32.ltb (F32.abs v) (tofEventTime.maxEvTimeTOF s));
    [apply ltb_leb; exact E1 | vm_compute; reflexivity].
Qed.

Lemma trackTOFOnly_tags :
  forall lib s maker l st,
    (forall idx row,
       In (idx, row)
         (tofEventTime.tableEvTime
            (tofEventTime.outTOF
               (fold_left (tofEventTime.trackTOFOnly lib s maker) l st))) ->
       In (idx, row) (tofEventTime.tableEvTime (tofEventTime.outTOF st))
       \/ (In idx (map globalIndex l)
           /\ F32.leb (snd row) tofEventTime.kErrDiamond = true))
    /\ (forall idx f,
          In (idx, f)
            (tofEventTime.tableFlags
               (tofEventTime.outTOF
                  (fold_left (tofEventTime.trackTOFOnly lib s maker) l st))) ->
          In (idx, f) (tofEventTime.tableFlags (tofEventTime.outTOF st))
          \/ In idx (map globalIndex l)).
Proof.
  intros lib s maker l; induction l as [|trk l IH]; intros st.
  - simpl; split; intros; left; assumption.
  - simpl; destruct (IH (tofEventTime.trackTOFOnly lib s maker st trk))
      as (H1 & H2).
    destruct (tofEventTime.unbias lib s maker trk (tofEventTime.nGood st)
                (tofEventTime.et st) (tofEventTime.erret st))
      as [[n v] e] eqn:Hub.
    destruct (trackTOFOnly_rows lib s maker st trk n v e Hub) as (Hf & Hv & _).
    cbv zeta in Hf, Hv.
    split; intros idx r Hin.
    + destruct (H1 _ _ Hin) as [Ho|(Ho & Hg)];
        [|right; split; [right; exact Ho | exact Hg]].
      rewrite Hv in Ho; unfold append in Ho.
      apply in_app_or in Ho; destruct Ho as [Ho|[Ho|[]]]; [left; exact Ho|].
      inversion Ho; subst; right; split; [left; reflexivity|].
      apply checkedTOF_error.
    + destruct (H2 _ _ Hin) as [Ho|Ho]; [|right; right; exact Ho].
      rewrite Hf in Ho; unfold append in Ho.
      apply in_app_or in Ho; destruct Ho as [Ho|[Ho|[]]]; [left; exact Ho|].
      inversion Ho; subst; right; left; reflexivity.
Qed.

Section SkippedRows.

Variable s : tofEventTime.t.
Variable cols : Collisions.
Variable tracks : list Track.

Variable A : Type.
Variable tb : tofEventTime.Tables -> Table A.
Variable sentinel : A.
Variable good : A -> Prop.
Hypothesis Hput :
  forall o trk,
    tb (tofEventTime.putNotComputed s o trk) = append (tb o) trk sentinel.

Variable inner : Track -> tofEventTime.Tables -> tofEventTime.Tables.
Variable step : Z * tofEventTime.Tables -> Track -> Z * tofEventTime.Tables.
Hypothesis Hstep :
  forall last o trk,
    step (last, o) trk
    = if tofEventTime.skipped s cols trk
      then (last, tofEventTime.putNotComputed s o trk)
      else if collisionId trk =? last then (last, o)
      else (collisionId trk, inner trk o).
Hypothesis Hinner :
  forall trk o idx row,
    In (idx, row) (tb (inner trk o)) ->
    In (idx, row) (tb o)
    \/ (In idx (map globalIndex (sliceBy tracks (collisionId trk)))
        /\ good row).

Lemma skipLoop_rows :
  forall suf last o,
    incl suf tracks ->
    rowsAccounted s cols tracks A sentinel good (tb o) ->
    rowsAccounted s cols tracks A sentinel good
      (tb (snd (fold_left step suf (last, o)))).
Proof.
  intros suf; induction suf as [|t suf IH]; intros last o Hincl Hacc;
    [exact Hacc|].
  simpl; rewrite Hstep.
  assert (Ht : In t tracks) by (apply Hincl; now left).
  assert (Hsuf : incl suf tracks) by (intros x Hx; apply Hincl; now right).
  destruct (tofEventTime.skipped s cols t) eqn:Hskip.
  - apply IH; [exact Hsuf|].
    intros idx row Hin; rewrite Hput in Hin; unfold append in Hin.
    apply in_app_or in Hin; destruct Hin as [Hin|[Hin|[]]];
      [apply Hacc; exact Hin|].
    inversion Hin; subst; exists t.
    split; [exact Ht|]; split; [reflexivity|]; split; [reflexivity|].
    rewrite Hskip; discriminate.
  - destruct (collisionId t =? last); [apply IH; assumption|].
    apply IH; [exact Hsuf|].
    intros idx row Hin; apply Hinner in Hin; destruct Hin as [Hin|(Hin & Hg)];
      [apply Hacc; exact Hin|].
    apply in_map_iff in Hin; destruct Hin as (x & Hx & Hin).
    unfold sliceBy in Hin; apply filter_In in Hin; destruct Hin as (Hin & Hc).
    apply Z.eqb_eq in Hc.
    exists x; split; [exact Hin|]; split; [exact Hx|].
    rewrite (skipped_same_collision s cols x t Hc), Hskip.
    split; [discriminate | intros _; exact Hg].
Qed.

End SkippedRows.

(** The two instances of the loops of [processRun3]. *)
Lemma loopTOFFT0_accounted :
  forall lib s cols tracks,
    rowsAccounted s cols tracks _ (F32.zero, lit_999f) (fun _ => True)
      (tofEventTime.tableEvTime (tofEventTime.loopTOFFT0 lib s cols tracks))
    /\ rowsAccounted s cols tracks _ 0 (fun _ => True)
         (tofEventTime.tableFlags (tofEventTime.loopTOFFT0 lib s cols tracks)).
Proof.
  intros lib s cols tracks; unfold tofEventTime.loopTOFFT0; split.
  - apply (skipLoop_rows s cols tracks _ tofEventTime.tableEvTime
             (F32.zero, lit_999f) (fun _ => True))
      with (inner := fun trk o =>
             tofEventTime.out
               (fold_left
                  (tofEventTime.trackTOFFT0 lib s (cols (collisionId trk))
                     (tofEventTime.evTimeMakerForTracks lib s
                        (sliceBy tracks (collisionId trk))
                        (tofEventTime.mRespParamsV3 s) tofEventTime.kDiamond))
                  (sliceBy tracks (collisionId trk))
                  (tofEventTime.mkPerCollision 0
                     (F64.to_float (mEventTime lib
                        (tofEventTime.evTimeMakerForTracks lib s
                           (sliceBy tracks (collisionId trk))
                           (tofEventTime.mRespParamsV3 s)
                           tofEventTime.kDiamond)),
                      F64.to_float (mEventTimeError lib
                        (tofEventTime.evTimeMakerForTracks lib s
                           (sliceBy tracks (collisionId trk))
                           (tofEventTime.mRespParamsV3 s)
                           tofEventTime.kDiamond)))
                     (F32.zero, lit_999f) o))).
    + intros o t; unfold tofEventTime.putNotComputed.
      destruct (tofEventTime.enableTableEvTimeTOFOnly s); reflexivity.
    + intros last o t; reflexivity.
    + intros t o idx r Hin.
      apply (proj1 (trackTOFFT0_tags _ _ _ _ _ _)) in Hin.
      destruct Hin as [Hin|Hin]; [left; exact Hin | right; auto].
    + apply incl_refl.
    + intros idx row [].
  - apply (skipLoop_rows s cols tracks _ tofEventTime.tableFlags 0
             (fun _ => True))
      with (inner := fun trk o =>
             tofEventTime.out
               (fold_left
                  (tofEventTime.trackTOFFT0 lib s (cols (collisionId trk))
                     (tofEventTime.evTimeMakerForTracks lib s
                        (sliceBy tracks (collisionId trk))
                        (tofEventTime.mRespParamsV3 s) tofEventTime.kDiamond))
                  (sliceBy tracks (collisionId trk))
                  (tofEventTime.mkPerCollision 0
                     (F64.to_float (mEventTime lib
                        (tofEventTime.evTimeMakerForTracks lib s
                           (sliceBy tracks (collisionId trk))
                           (tofEventTime.mRespParamsV3 s)
                           tofEventTime.kDiamond)),
                      F64.to_float (mEventTimeError lib
                        (tofEventTime.evTimeMakerForTracks lib s
                           (sliceBy tracks (collisionId trk))
                           (tofEventTime.mRespParamsV3 s)
                           tofEventTime.kDiamond)))
                     (F32.zero, lit_999f) o))).
    + intros o t; unfold tofEventTime.putNotComputed.
      destruct (tofEventTime.enableTableEvTimeTOFOnly s); reflexivity.
    + intros last o t; reflexivity.
    + intros t o idx r Hin.
      apply (proj2 (trackTOFFT0_tags _ _ _ _ _ _)) in Hin.
      destruct Hin as [Hin|Hin]; [left; exact Hin | right; auto].
    + apply incl_refl.
    + intros idx row [].
Qed.

Lemma loopTOFOnly_accounted :
  forall lib s cols tracks,
    rowsAccounted s cols tracks _ (F32.zero, lit_999f)
      (fun row => F32.leb (snd row) tofEventTime.kErrDiamond = true)
      (tofEventTime.tableEvTime (tofEventTime.loopTOFOnly lib s cols tracks))
    /\ rowsAccounted s cols tracks _ 0 (fun _ => True)
         (tofEventTime.tableFlags (tofEventTime.loopTOFOnly lib s cols tracks)).
Proof.
  intros lib s cols tracks; unfold tofEventTime.loopTOFOnly; split.
  - apply (skipLoop_rows s cols tracks _ tofEventTime.tableEvTime
             (F32.zero, lit_999f)
             (fun row => F32.leb (snd row) tofEventTime.kErrDiamond = true))
      with (inner := fun trk o =>
             tofEventTime.outTOF
               (fold_left
                  (tofEventTime.trackTOFOnly lib s
                     (tofEventTime.evTimeMakerForTracks lib s
                        (sliceBy tracks (collisionId trk))
                        (tofEventTime.mRespParamsV3 s) tofEventTime.kDiamond))
                  (sliceBy tracks (collisionId trk))
                  (tofEventTime.mkPerCollisionTOF 0
                     (F64.to_float (mEventTime lib
                        (tofEventTime.evTimeMakerForTracks lib s
                           (sliceBy tracks (collisionId trk))
                           (tofEventTime.mRespParamsV3 s)
                           tofEventTime.kDiamond)))
                     (F64.to_float (mEventTimeError lib
                        (tofEventTime.evTimeMakerForTracks lib s
                           (sliceBy tracks (collisionId trk))
                           (tofEventTime.mRespParamsV3 s)
                           tofEventTime.kDiamond)))
                     o))).
    + intros o t; unfold tofEventTime.putNotComputed.
      destruct (tofEventTime.enableTableEvTimeTOFOnly s); reflexivity.
    + intros last o t; reflexivity.
    + intros t o idx r Hin.
      apply (proj1 (trackTOFOnly_tags _ _ _ _ _)) in Hin; exact Hin.
    + apply incl_refl.
    + intros idx row [].
  - apply (skipLoop_rows s cols tracks _ tofEventTime.tableFlags 0
             (fun _ => True))
      with (inner := fun trk o =>
             tofEventTime.outTOF
               (fold_left
                  (tofEventTime.trackTOFOnly lib s
                     (tofEventTime.evTimeMakerForTracks lib s
                        (sliceBy tracks (collisionId trk))
                        (tofEventTime.mRespParamsV3 s) tofEventTime.kDiamond))
                  (sliceBy tracks (collisionId trk))
                  (tofEventTime.mkPerCollisionTOF 0
                     (F64.to_float (mEventTime lib
                        (tofEventTime.evTimeMakerForTracks lib s
                           (sliceBy tracks (collisionId trk))
                           (tofEventTime.mRespParamsV3 s)
                           tofEventTime.kDiamond)))
                     (F64.to_float (mEventTimeError lib
                        (tofEventTime.evTimeMakerForTracks lib s
                           (sliceBy tracks (collisionId trk))
                           (tofEventTime.mRespParamsV3 s)
                           tofEventTime.kDiamond)))
                     o))).
    + intros o t; unfold tofEventTime.putNotComputed.
      destruct (tofEventTime.enableTableEvTimeTOFOnly s); reflexivity.
    + intros last o t; reflexivity.
    + intros t o idx r Hin.
      apply (proj2 (trackTOFOnly_tags _ _ _ _ _)) in Hin.
      destruct Hin as [Hin|Hin]; [left; exact Hin | right; auto].
    + apply incl_refl.
    + intros idx row [].
Qed.

(** With distinct indices, the rows tagged with a track are accounted
    for by that track. *)
Lemma rowsAccounted_of_track :
  forall s cols tracks (A : Type) (sentinel : A) (good : A -> Prop)
         (l : Table A) trk row,
    rowsAccounted s cols tracks A sentinel good l ->
    NoDup (map globalIndex tracks) ->
    In trk tracks ->
    In (globalIndex trk, row) l ->
    (tofEventTime.skipped s cols trk = true -> row = sentinel)
    /\ (tofEventTime.skipped s cols trk = false -> good row).
Proof.
  intros s cols tracks A sentinel good l trk row Hacc Hnd Htrk Hin.
  destruct (Hacc _ _ Hin) as (t & Ht & Hidx & Hrow).
  assert (t = trk) by (apply (NoDup_map_inj _ _ globalIndex tracks); auto).
  subst t; exact Hrow.
Qed.

(** X22.  The two TOF modes never compute an event time for a track that
    has no collision or, when [sel8TOFEvTime] is set, whose collision
    fails the event selection: with distinct track indices, every row
    appended for such a track is the not-computed row, (0, 999) with
    flags 0, whatever the order of the tracks. *)
Theorem X22_skipped_track_rows :
  forall lib s cols tracks trk,
    NoDup (map globalIndex tracks) ->
    In trk tracks ->
    tofEventTime.skipped s cols trk = true ->
    (forall row,
       In (globalIndex trk, row)
         (tofEventTime.tableEvTime (tofEventTime.loopTOFFT0 lib s cols tracks)) ->
       row = (F32.zero, lit_999f))
    /\ (forall f,
          In (globalIndex trk, f)
            (tofEventTime.tableFlags (tofEventTime.loopTOFFT0 lib s cols tracks)) ->
          f = 0)
    /\ (forall row,
          In (globalIndex trk, row)
            (tofEventTime.tableEvTime
               (tofEventTime.loopTOFOnly lib s cols tracks)) ->
          row = (F32.zero, lit_999f))
    /\ (forall f,
          In (globalIndex trk, f)
            (tofEventTime.tableFlags
               (tofEventTime.loopTOFOnly lib s cols tracks)) ->
          f = 0).
Proof.
  intros lib s cols tracks trk Hnd Htrk Hskip.
  destruct (loopTOFFT0_accounted lib s cols tracks) as (A1 & A2).
  destruct (loopTOFOnly_accounted lib s cols tracks) as (B1 & B2).
  split; [|split; [|split]]; intros row Hin.
  - apply (rowsAccounted_of_track _ _ _ _ _ _ _ _ _ A1 Hnd Htrk Hin); exact Hskip.
  - apply (rowsAccounted_of_track _ _ _ _ _ _ _ _ _ A2 Hnd Htrk Hin); exact Hskip.
  - apply (rowsAccounted_of_track _ _ _ _ _ _ _ _ _ B1 Hnd Htrk Hin); exact Hskip.
  - apply (rowsAccounted_of_track _ _ _ _ _ _ _ _ _ B2 Hnd Htrk Hin); exact Hskip.
Qed.

Lemma NoDup_tracks5 : NoDup (map globalIndex Fixtures.tracks5).
Proof.
  simpl; repeat (constructor; [simpl; intuition discriminate|]); constructor.
Qed.

Lemma X22_witness :
  snd (nth 2
         (tofEventTime.tableEvTime
            (tofEventTime.loopTOFFT0 Fixtures.evLib (Fixtures.evTask 1 1)
               Fixtures.cols Fixtures.tracks5))
         (0, (F32.zero, F32.zero)))
  = (F32.zero, lit_999f).
Proof.
  refine (proj1 (X22_skipped_track_rows Fixtures.evLib (Fixtures.evTask 1 1)
                   Fixtures.cols Fixtures.tracks5 Fixtures.orphan
                   NoDup_tracks5 _ _) _ _).
  - simpl; auto.
  - reflexivity.
  - vm_compute; auto.
Defined.

(** X23.  TOF-only mode, with distinct track indices: the error column of
    the event-time table tells apart the tracks for which nothing was
    computed.  A row of a track holds the error 999 if and only if the
    track was skipped (no collision, or a collision that fails the event
    selection when [sel8TOFEvTime] is set); the error of every other row
    is a number not above [kErrDiamond], whatever the event-time maker
    returned. *)
Theorem X23_tof_only_error_marks_skipped_tracks :
  forall lib s cols tracks trk v e,
    NoDup (map globalIndex tracks) ->
    In trk tracks ->
    In (globalIndex trk, (v, e))
      (tofEventTime.tableEvTime (tofEventTime.loopTOFOnly lib s cols tracks)) ->
    (e = lit_999f <-> tofEventTime.skipped s cols trk = true)
    /\ (tofEventTime.skipped s cols trk = false ->
        F32.leb e tofEventTime.kErrDiamond = true /\ F32.is_nan e = false).
Proof.
  intros lib s cols tracks trk v e Hnd Htrk Hin.
  destruct (loopTOFOnly_accounted lib s cols tracks) as (B1 & _).
  destruct (rowsAccounted_of_track _ _ _ _ _ _ _ _ _ B1 Hnd Htrk Hin)
    as (Hs & Hg); cbn [snd] in Hg.
  destruct (tofEventTime.skipped s cols trk) eqn:Hskip.
  - split; [|discriminate].
    specialize (Hs eq_refl); inversion Hs; subst; split; auto.
  - specialize (Hg eq_refl).
    split.
    + split; [|discriminate].
      intros ->; vm_compute in Hg; discriminate Hg.
    + intros _; split; [exact Hg|].
      destruct e; try reflexivity; discriminate Hg.
Qed.

Lemma X23_witness :
  (lit_999f = lit_999f <-> tofEventTime.skipped (Fixtures.evTask 1 0)
                             Fixtures.cols Fixtures.orphan = true)
  /\ (tofEventTime.skipped (Fixtures.evTask 1 0) Fixtures.cols Fixtures.orphan
      = false ->
      F32.leb lit_999f tofEventTime.kErrDiamond = true
      /\ F32.is_nan lit_999f = false).
Proof.
  apply (X23_tof_only_error_marks_skipped_tracks Fixtures.evLib
           (Fixtures.evTask 1 0) Fixtures.cols Fixtures.tracks5
           Fixtures.orphan F32.zero lit_999f NoDup_tracks5).
  - simpl; auto.
  - vm_compute; auto.
Defined.
